(** * useBridgeCCTP: the burn / attest / mint bridge hook

    A shallow embedding of [src/hooks/useBridgeCCTP.ts]: the pending-burn
    store kept in [localStorage], the [bridge] orchestrator (the direct
    Sepolia -> Arc path and the Bridge Kit path), the start-up
    reconciliation [verifyAndLoad], [claimPendingBridge],
    [restorePendingBurn] and [clearPendingBurn].

    Modelling conventions.
    - JavaScript strings are [string]; [length] counts characters, and
      [toLowerCase] lowers the letters A-Z (wallet addresses and
      transaction hashes are ASCII).
    - The item stored under [PENDING_BURN_STORAGE_KEY] is a JSON object
      keyed by lower-cased address: [option (gmap string PendingBurn)],
      [None] when the key is absent.  [JSON.parse (JSON.stringify d)] is
      taken to be [d], and [localStorage] itself is taken not to throw.
    - Everything the hook awaits (wallet, RPC, attestation service, the
      Bridge Kit SDK) is an oracle of the environment record [Env]; an
      oracle answers [Ok v] or [Err msg] (a rejected promise whose error
      has message [msg]).
    - The hook runs in the monad [M]: a computation ends normally
      ([Done]), by a thrown error ([Thrown]) or because the page went away
      while it was suspended at an [await] ([Halted]).  The world counts
      the awaits that may still complete in [alive].
    - Presentation-only parts of the React state ([transactions], [result],
      [estimate], [steps], [lastResult], [isEstimating]) are left out;
      toasts, network requests and submitted transactions are recorded,
      newest first, in the [log] of the world. *)

From Stdlib Require Import ZArith String Ascii List Lia Bool.
From stdpp Require Import base option gmap strings pretty.

Open Scope Z_scope.
Open Scope string_scope.

(** ** Strings *)

(** [s.includes(sub)] *)
Fixpoint includes (s sub : string) : bool :=
  String.prefix sub s ||
  match s with
  | EmptyString => false
  | String _ t => includes t sub
  end.

(** [s.startsWith(p)] *)
Definition startsWith (s p : string) : bool := String.prefix p s.

Definition lower_ascii (c : ascii) : ascii :=
  let n := nat_of_ascii c in
  if ((65 <=? n) && (n <=? 90))%nat then ascii_of_nat (n + 32) else c.

(** [s.toLowerCase()] on ASCII text *)
Fixpoint toLowerCase (s : string) : string :=
  match s with
  | EmptyString => EmptyString
  | String c t => String (lower_ascii c) (toLowerCase t)
  end.

(** JavaScript truthiness of a possibly missing string: [undefined],
    [null] and [''] are falsy. *)
Definition truthy (o : option string) : option string :=
  match o with
  | Some s => if String.eqb s "" then None else Some s
  | None => None
  end.

Definition is_truthy (o : option string) : bool :=
  match truthy o with Some _ => true | None => false end.

(** [a || b] on possibly missing strings *)
Definition or_else (a b : option string) : option string :=
  match truthy a with Some s => Some s | None => b end.

(** ** Data model *)

Inductive BridgeNetwork : Type := ethereumSepolia | arcTestnet.

(** [interface PendingBurn].  [txHash] is typed [string] in the source but
    one branch of [bridge] fills it from [burnTxHashRef.current], which
    may be [null]; hence the option. *)
Record PendingBurn : Type := mkPendingBurn {
  txHash : option string;
  fromNetwork : BridgeNetwork;
  toNetwork : BridgeNetwork;
  amount : string;
  timestamp : Z
}.

Record BridgeParams : Type := mkBridgeParams {
  bp_fromNetwork : BridgeNetwork;
  bp_toNetwork : BridgeNetwork;
  bp_amount : string
}.

(** ** The pending-burn store *)

(** The value of [localStorage.getItem(PENDING_BURN_STORAGE_KEY)]. *)
Abbreviation Storage := (option (gmap string PendingBurn)).

(** [savePendingBurn(address, pendingBurn)] *)
Definition savePendingBurn (address : string) (pendingBurn : option PendingBurn)
    (stored : Storage) : Storage :=
  match pendingBurn with
  | Some pb =>
      (* const data = { [address.toLowerCase()]: pendingBurn }; setItem *)
      Some {[ toLowerCase address := pb ]}
  | None =>
      match stored with
      | Some data =>
          let data' := delete (toLowerCase address) data in
          if bool_decide (size data' = 0%nat) then None else Some data'
      | None => None
      end
  end.

(** [loadPendingBurn(address)] *)
Definition loadPendingBurn (address : string) (stored : Storage)
    : option PendingBurn :=
  match stored with
  | Some data => data !! toLowerCase address
  | None => None
  end.

(** ** The relayer fee of the direct path *)

Definition feeBps : Z := 1.
Definition MIN_FEE : Z := 1000.

(** [calculatedFee > MIN_FEE ? calculatedFee : MIN_FEE]; the division of
    two bigints truncates. *)
Definition maxFee (amountWei : Z) : Z :=
  let calculatedFee := Z.quot (amountWei * feeBps) 10000 in
  if calculatedFee >? MIN_FEE then calculatedFee else MIN_FEE.

Definition ARC_DESTINATION_DOMAIN : Z := 26.
Definition minFinalityThreshold : Z := 1000.
Definition zeroBytes32 : string :=
  "0x0000000000000000000000000000000000000000000000000000000000000000".

(** The nine arguments ABI-encoded after the selector [0xd0d4229a]. *)
Record BurnArgs : Type := mkBurnArgs {
  ba_amount : Z;
  ba_maxFee : Z;
  ba_nonce : Z;
  ba_mintRecipient : string;
  ba_destinationCaller : string;
  ba_burnToken : string;
  ba_hook : string;
  ba_destinationDomain : Z;
  ba_minFinalityThreshold : Z
}.

Definition burnArgs (usdcAddress bridgeContract address : string)
    (amountWei : Z) : BurnArgs :=
  {| ba_amount := amountWei;
     ba_maxFee := maxFee amountWei;
     ba_nonce := 0;
     ba_mintRecipient := address;
     ba_destinationCaller := zeroBytes32;
     ba_burnToken := usdcAddress;
     ba_hook := bridgeContract;
     ba_destinationDomain := ARC_DESTINATION_DOMAIN;
     ba_minFinalityThreshold := minFinalityThreshold |}.

(** ** Environment: everything the hook reads or awaits *)

Inductive Outcome (A : Type) : Type :=
| Ok (a : A)
| Err (msg : string).
Arguments Ok {A} a.
Arguments Err {A} msg.

(** One element of [data.messages] in a response of the attestation
    service. *)
Record MessageData : Type := mkMessageData {
  md_attestation : option string;
  md_message : option string;
  md_amount : option string   (* decodedMessage?.decodedMessageBody?.amount *)
}.

(** [fetch(url)] followed by [response.json()]: either of the two rejects
    ([FetchFailed]), or a body arrives with [response.ok] and
    [data.messages]. *)
Inductive FetchResult : Type :=
| FetchFailed
| FetchBody (ok : bool) (messages : option (list MessageData)).

(** A progress event of the Bridge Kit SDK. *)
Record Progress : Type := mkProgress {
  pg_event : option string;   (* type || event || status || stage *)
  pg_txHash : option string;
  pg_transactionHash : option string
}.

Record Step : Type := mkStep {
  st_name : option string;
  st_type : option string;
  st_state : option string;
  st_txHash : option string;
  st_transactionHash : option string
}.

Record KitResult : Type := mkKitResult {
  kr_state : option string;
  kr_steps : option (list Step);
  kr_txHash : option string;
  kr_transactionHash : option string
}.

Record Env : Type := mkEnv {
  (* wagmi account and clients, as captured by the callbacks *)
  address : option string;
  isConnected : bool;
  hasConnectorClient : bool;
  hasWalletClient : bool;
  accountChainId : option Z;
  hasProvider : bool;          (* connectorClient.transport || window.ethereum *)
  hasSwitchChain : bool;       (* switchChainAsync is defined *)
  hasPublicClient : BridgeNetwork -> bool;
  (* @/lib/constants, which is not part of the scanned sources *)
  chainIdOf : BridgeNetwork -> Z;      (* SUPPORTED_NETWORKS[n].chainId *)
  domainOf : BridgeNetwork -> Z;       (* CCTP_DOMAINS[n] *)
  networkName : BridgeNetwork -> string;  (* SUPPORTED_NETWORKS[n].name *)
  usdcAddress : string;                (* TOKEN_ADDRESSES.ethereumSepolia.USDC *)
  bridgeContract : string;             (* ARC_BRIDGE_CONTRACT *)
  (* library functions on amounts *)
  parseFloatLe0 : string -> bool;      (* parseFloat(s) <= 0; false on NaN *)
  parseUnits6 : string -> Outcome Z;   (* parseUnits(s, 6) *)
  unitsToAmount : string -> string;    (* (parseFloat(s) / 1e6).toString() *)
  unitsToAmount2 : string -> string;   (* (parseFloat(s) / 1e6).toFixed(2) *)
  now : Z;                             (* Date.now() *)
  (* wallet and RPC *)
  switchChain : Z -> Outcome unit;
  ethChainId : nat -> Outcome Z;       (* parseInt of the k-th eth_chainId poll *)
  ethChainIdFinal : Outcome Z;         (* the check before the mint call *)
  createAdapter : Outcome unit;
  readAllowance : Outcome Z;
  approveTx : Z -> Outcome string;
  approveReceipt : string -> Outcome unit;
  burnTx : BurnArgs -> Outcome string;
  burnReceipt : string -> Outcome bool;    (* receipt.status === 'success' *)
  mintTx : BridgeNetwork -> string -> string -> Outcome string;
  mintReceipt : string -> Outcome bool;
  (* attestation service *)
  poll : nat -> FetchResult;               (* n-th poll of the direct path *)
  attestationApi : Z -> option string -> FetchResult;
  (* Bridge Kit SDK *)
  kitProgress : list Progress;
  kitBridge : Outcome (option KitResult)
}.

(** ** World: storage, React state, refs and the observation log *)

Inductive AttestationStatus : Type :=
| Pending        (* 'pending' *)
| Attested       (* 'attested' *)
| PendingMint    (* 'pending_mint' *)
| Complete.      (* 'complete' *)

Inductive ToastKind : Type := TError | TInfo | TWarning | TSuccess | TLoading.

(** What the hook shows and asks of the outside world.  A toast is
    recorded by its kind and title (a non-ASCII arrow in a title is
    written [->]). *)
Inductive Event : Type :=
| Toast (kind : ToastKind) (title : string)
| Fetch (domain : Z) (hash : option string)   (* GET to the attestation service *)
| SwitchChain (chainId : Z)                   (* switchChainAsync *)
| SendApprove (amount : Z)                    (* writeContract approve *)
| SendBurn (args : BurnArgs)                  (* sendTransaction of the burn *)
| CallMint (dest : BridgeNetwork) (message attestation : string)
                                              (* writeContract receiveMessage *)
| MintSent (hash : string)                    (* that call returned a hash *)
| KitBridge (p : BridgeParams)                (* bridgeKit.bridge *)
| Track (hash : string) (direction : string)  (* trackSiteBridge *)
| AutoClaim.   (* setTimeout(() => claimPendingBridgeRef.current?.(), 1000) *)

Record HookState : Type := mkHookState {
  isBridging : bool;
  isClaiming : bool;
  error : option string;
  mintConfirmed : bool;
  pendingBurn : option PendingBurn
}.

Record Refs : Type := mkRefs {
  mintConfirmedRef : bool;
  mintTxHashRef : option string;
  burnConfirmedRef : bool;
  burnTxHashRef : option string;
  approvalConfirmedRef : bool;
  approvalStartedRef : bool;
  approvalTxHashRef : option string
}.

Record World : Type := mkWorld {
  storage : Storage;
  hook : HookState;
  attestationStatus : option AttestationStatus;
  refs : Refs;
  log : list Event;
  alive : option nat    (* awaits that still complete; [None]: no interruption *)
}.

Definition initialState : HookState :=
  {| isBridging := false; isClaiming := false; error := None;
     mintConfirmed := false; pendingBurn := None |}.

Definition initialRefs : Refs :=
  {| mintConfirmedRef := false; mintTxHashRef := None;
     burnConfirmedRef := false; burnTxHashRef := None;
     approvalConfirmedRef := false; approvalStartedRef := false;
     approvalTxHashRef := None |}.

Definition with_storage (f : Storage -> Storage) (w : World) : World :=
  mkWorld (f (storage w)) (hook w) (attestationStatus w) (refs w) (log w) (alive w).
Definition with_hook (f : HookState -> HookState) (w : World) : World :=
  mkWorld (storage w) (f (hook w)) (attestationStatus w) (refs w) (log w) (alive w).
Definition with_status (s : option AttestationStatus) (w : World) : World :=
  mkWorld (storage w) (hook w) s (refs w) (log w) (alive w).
Definition with_refs (f : Refs -> Refs) (w : World) : World :=
  mkWorld (storage w) (hook w) (attestationStatus w) (f (refs w)) (log w) (alive w).
Definition with_event (e : Event) (w : World) : World :=
  mkWorld (storage w) (hook w) (attestationStatus w) (refs w) (e :: log w) (alive w).
Definition tick (w : World) : World :=
  mkWorld (storage w) (hook w) (attestationStatus w) (refs w) (log w)
          (Nat.pred <$> alive w).

(** ** The monad of the hook *)

Inductive Res (A : Type) : Type :=
| Done (a : A) (w : World)
| Thrown (msg : string) (w : World)
| Halted (w : World).
Arguments Done {A} a w.
Arguments Thrown {A} msg w.
Arguments Halted {A} w.

Definition M (A : Type) : Type := World -> Res A.

Definition final {A} (r : Res A) : World :=
  match r with Done _ w | Thrown _ w | Halted w => w end.

Definition ret {A} (a : A) : M A := fun w => Done a w.

Definition bind {A B} (c : M A) (k : A -> M B) : M B := fun w =>
  match c w with
  | Done a w' => k a w'
  | Thrown msg w' => Thrown msg w'
  | Halted w' => Halted w'
  end.

#[global] Instance M_ret : MRet M := @ret.
#[global] Instance M_bind : MBind M := fun A B k c => bind c k.

Definition throw {A} (msg : string) : M A := fun w => Thrown msg w.

(** [try { c } catch (e) { h e.message }]; an interruption is not caught. *)
Definition try_catch {A} (c : M A) (h : string -> M A) : M A := fun w =>
  match c w with
  | Thrown msg w' => h msg w'
  | r => r
  end.

(** [await] of an external answer: the suspension point at which the page
    may go away. *)
Definition await {A} (o : Outcome A) : M A := fun w =>
  match alive w with
  | Some O => Halted w
  | _ => match o with
         | Ok a => Done a (tick w)
         | Err msg => Thrown msg (tick w)
         end
  end.

Definition modify (f : World -> World) : M unit := fun w => Done tt (f w).
Definition gets {A} (f : World -> A) : M A := fun w => Done (f w) w.

Definition emit (e : Event) : M unit := modify (with_event e).
Definition toast (k : ToastKind) (title : string) : M unit := emit (Toast k title).
Definition setState (f : HookState -> HookState) : M unit := modify (with_hook f).
Definition setAttestationStatus (s : option AttestationStatus) : M unit :=
  modify (with_status s).
Definition setRefs (f : Refs -> Refs) : M unit := modify (with_refs f).
Definition save (address : string) (pb : option PendingBurn) : M unit :=
  modify (with_storage (savePendingBurn address pb)).

(** [if (b) throw new Error(msg)] *)
Definition throwIf (b : bool) (msg : string) : M unit :=
  if b then throw msg else ret tt.

(** [await new Promise(r => setTimeout(r, ms))] *)
Definition sleep : M unit := await (Ok tt).

(** [trackSiteBridge], fire and forget *)
Definition trackSiteBridge (hash : string) (direction : string) : M unit :=
  emit (Track hash direction).

(** ** Shared helpers of the operations *)

(** [data.messages && data.messages.length > 0], then [data.messages[0]];
    also [data.messages?.[0]]. *)
Definition first_message (messages : option (list MessageData))
    : option MessageData :=
  match messages with
  | Some (m :: _) => Some m
  | _ => None
  end.

(** The negation of [!attestation || attestation === 'PENDING']. *)
Definition usable (attestation : option string) : bool :=
  match truthy attestation with
  | Some a => negb (String.eqb a "PENDING")
  | None => false
  end.

Definition chainId_is (current : option Z) (target : Z) : bool :=
  match current with
  | Some c => Z.eqb c target
  | None => false
  end.

Definition otherNetwork (n : BridgeNetwork) : BridgeNetwork :=
  match n with
  | ethereumSepolia => arcTestnet
  | arcTestnet => ethereumSepolia
  end.

Definition stillProcessing : string :=
  "Attestation is still being processed. This usually takes 1-3 minutes. Please wait a moment and try again.".

(** [`Network not switched: current ${a}, expected ${b}`]; the two decimal
    numerals are elided, no test on an error message looks at a digit. *)
Definition notSwitched : string :=
  "Network not switched: current <id>, expected <id>".

Section Hook.

Variable env : Env.

(** [fetch(attestationUrl)] and [response.json()] for one
    [(domain, transactionHash)] *)
Definition awaitFetch (r : FetchResult)
    : M (bool * option (list MessageData)) :=
  await (match r with
         | FetchFailed => Err "Failed to fetch"
         | FetchBody ok messages => Ok (ok, messages)
         end).

Definition fetchAttestation (domain : Z) (hash : option string)
    : M (option (list MessageData)) :=
  emit (Fetch domain hash);;
  r ← awaitFetch (attestationApi env domain hash);
  ret r.2.

(** [for (const { domain, from, to } of domains) { try { ... break } catch {} }] *)
Fixpoint findMessage (domains : list (Z * (BridgeNetwork * BridgeNetwork)))
    (hash : option string)
    : M (option (MessageData * (BridgeNetwork * BridgeNetwork))) :=
  match domains with
  | [] => ret None
  | (domain, dir) :: rest =>
      found ← try_catch
                (data ← fetchAttestation domain hash;
                 ret (first_message data))
                (fun _ => ret None);
      match found with
      | Some messageData => ret (Some (messageData, dir))
      | None => findMessage rest hash
      end
  end.

(** [while (attempts < 10) { sleep 500; eth_chainId; if equal break; attempts++ }],
    then [attempts >= 10]: the result tells whether the switch was seen. *)
Fixpoint awaitSwitch (fuel attempts : nat) (target : Z) : M bool :=
  match fuel with
  | O => ret false
  | S fuel' =>
      sleep;;
      current ← await (ethChainId env attempts);
      if Z.eqb current target then ret true
      else awaitSwitch fuel' (S attempts) target
  end.

(** *** Reconciliation on wallet connect *)

(** [verifyAndLoad], for the record found in the store. *)
Definition verifyAndLoad (address : string) (savedPendingBurn : PendingBurn)
    : M unit :=
  try_catch
    (data ← fetchAttestation (domainOf env (fromNetwork savedPendingBurn))
                             (txHash savedPendingBurn);
     match first_message data with
     | Some messageData =>
         let amount' :=
           if String.eqb (amount savedPendingBurn) ""
              || String.eqb (amount savedPendingBurn) "0"
           then match truthy (md_amount messageData) with
                | Some units => unitsToAmount env units
                | None => amount savedPendingBurn
                end
           else amount savedPendingBurn in
         (if negb (usable (md_attestation messageData)) then
            setAttestationStatus (Some Pending);;
            toast TInfo "Bridge in progress..."
          else
            setAttestationStatus (Some PendingMint);;
            let targetChainId := chainIdOf env arcTestnet in
            if chainId_is (accountChainId env) targetChainId then
              toast TInfo "Auto-claiming bridged USDC...";;
              emit AutoClaim
            else
              toast TInfo "You have unclaimed USDC!");;
         let updatedPendingBurn :=
           mkPendingBurn (txHash savedPendingBurn) (fromNetwork savedPendingBurn)
                         (toNetwork savedPendingBurn) amount'
                         (timestamp savedPendingBurn) in
         save address (Some updatedPendingBurn);;
         setState (fun prev =>
           mkHookState (isBridging prev) (isClaiming prev) (error prev)
                       (mintConfirmed prev) (Some updatedPendingBurn))
     | None =>
         (* No message found - transaction might have failed or wrong hash *)
         save address None;;
         setState (fun prev =>
           mkHookState (isBridging prev) (isClaiming prev) (error prev)
                       (mintConfirmed prev) None)
     end)
    (fun _ =>
       (* On error, still show the pending burn (conservative approach) *)
       setState (fun prev =>
         mkHookState (isBridging prev) (isClaiming prev) (error prev)
                     (mintConfirmed prev) (Some savedPendingBurn));;
       setAttestationStatus (Some PendingMint)).

(** The effect run when [address] changes: load the record and verify it. *)
Definition loadOnConnect : M unit :=
  match truthy (address env) with
  | Some a =>
      stored ← gets storage;
      match loadPendingBurn a stored with
      | Some savedPendingBurn => verifyAndLoad a savedPendingBurn
      | None => ret tt
      end
  | None => ret tt
  end.

(** *** Dismissal *)

Definition clearPendingBurn : M unit :=
  match truthy (address env) with
  | Some a => save a None
  | None => ret tt
  end;;
  setState (fun prev =>
    mkHookState (isBridging prev) (isClaiming prev) (error prev)
                (mintConfirmed prev) None);;
  setAttestationStatus None.

(** *** Restore from a transaction hash *)

Record RestoreResult : Type := mkRestoreResult {
  success : bool;
  message : string;
  type : string
}.

Definition restorePendingBurn (burnTxHash : string) : M RestoreResult :=
  if String.eqb burnTxHash "" || negb (startsWith burnTxHash "0x") then
    ret (mkRestoreResult false "Invalid transaction hash format" "error")
  else if negb (Nat.eqb (String.length burnTxHash) 66) then
    ret (mkRestoreResult false "Transaction hash should be 66 characters" "error")
  else
    try_catch
      (found ← findMessage
                 [ (domainOf env ethereumSepolia, (ethereumSepolia, arcTestnet));
                   (domainOf env arcTestnet, (arcTestnet, ethereumSepolia)) ]
                 (Some burnTxHash);
       match found with
       | None =>
           ret (mkRestoreResult false
             "No CCTP burn found for this transaction. Make sure this is a valid burn tx hash."
             "error")
       | Some (messageData, (detectedFrom, detectedTo)) =>
           let detectedAmount :=
             match truthy (md_amount messageData) with
             | Some units => unitsToAmount2 env units
             | None => "0"
             end in
           if negb (usable (md_attestation messageData)) then
             ret (mkRestoreResult false stillProcessing "error")
           else
             let pendingBurn' :=
               mkPendingBurn (Some burnTxHash) detectedFrom detectedTo
                             detectedAmount (now env) in
             match truthy (address env) with
             | Some a => save a (Some pendingBurn')
             | None => ret tt
             end;;
             setState (fun prev =>
               mkHookState (isBridging prev) (isClaiming prev) (error prev)
                           (mintConfirmed prev) (Some pendingBurn'));;
             setAttestationStatus (Some PendingMint);;
             let directionText :=
               match detectedFrom with
               | ethereumSepolia => "Sepolia -> Arc"
               | arcTestnet => "Arc -> Sepolia"
               end in
             ret (mkRestoreResult true
               ("Found " ++ detectedAmount ++ " USDC (" ++ directionText
                ++ "). Click Claim to receive!")
               "success")
       end)
      (fun _ =>
         ret (mkRestoreResult false
           "Failed to verify transaction. Please check the tx hash and try again."
           "error")).

(** *** Manual or automatic claim *)

(** The [try] block of [claimPendingBridge], first part: fetch the
    attestation, validate it and get the wallet onto the destination
    network.  It yields the destination and the two arguments of
    [receiveMessage]. *)
Definition claimPrepare (pendingBurn0 : PendingBurn)
    : M (BridgeNetwork * string * string) :=
  let from := fromNetwork pendingBurn0 in
  let to := toNetwork pendingBurn0 in
  toast TInfo "Fetching attestation from Circle...";;
  found ← findMessage
            [ (domainOf env from, (from, to));
              (domainOf env (otherNetwork from),
               (otherNetwork from,
                match from with
                | ethereumSepolia => ethereumSepolia
                | arcTestnet => arcTestnet
                end)) ]
            (txHash pendingBurn0);
  match found with
  | None => throw stillProcessing
  | Some (messageData, (_, destNetwork)) =>
      match truthy (md_attestation messageData), usable (md_attestation messageData) with
      | Some attestation, true =>
          match truthy (md_message messageData) with
          | None => throw "Message bytes not found in attestation response"
          | Some messageBytes =>
              let destChainId := chainIdOf env destNetwork in
              (if negb (chainId_is (accountChainId env) destChainId) then
                 toast TInfo ("Switching to " ++ networkName env destNetwork ++ "...");;
                 if negb (hasSwitchChain env) then
                   throw ("Please switch to " ++ networkName env destNetwork
                          ++ " manually in MetaMask")
                 else
                   try_catch
                     (emit (SwitchChain destChainId);;
                      await (switchChain env destChainId);;
                      throwIf (negb (hasProvider env)) "No wallet provider available";;
                      switched ← awaitSwitch 10 0 destChainId;
                      throwIf (negb switched)
                        "Network switch timeout - please switch to destination network manually")
                     (fun _ =>
                        throw ("Failed to switch network. Please switch to "
                               ++ networkName env destNetwork ++ " manually."))
               else ret tt);;
              toast TInfo "Claiming your USDC...";;
              throwIf (negb (hasProvider env))
                "No wallet provider available after network switch";;
              currentChainIdNumber ← await (ethChainIdFinal env);
              throwIf (negb (Z.eqb currentChainIdNumber destChainId)) notSwitched;;
              ret (destNetwork, messageBytes, attestation)
          end
      | _, _ => throw stillProcessing
      end
  end.

(** Second part: call [receiveMessage], wait for the receipt (its status
    is not inspected) and clear the record. *)
Definition claimMint (address : string)
    (prepared : BridgeNetwork * string * string) : M unit :=
  let '(destNetwork, messageBytes, attestation) := prepared in
  emit (CallMint destNetwork messageBytes attestation);;
  hash ← await (mintTx env destNetwork messageBytes attestation);
  emit (MintSent hash);;
  toast TInfo "Waiting for confirmation...";;
  (if hasPublicClient env destNetwork
   then await (mintReceipt env hash);; ret tt
   else ret tt);;
  (* Success - clear from localStorage *)
  save address None;;
  toast TSuccess "USDC claimed successfully!";;
  setAttestationStatus (Some Complete);;
  setState (fun prev =>
    mkHookState (isBridging prev) false None true None).

Definition claimBody (address : string) (pendingBurn0 : PendingBurn) : M unit :=
  prepared ← claimPrepare pendingBurn0;
  claimMint address prepared.

(** The [catch] block of [claimPendingBridge]. *)
Definition claimCatch (address : string) (msg : string) : M unit :=
  let errorMsg := if String.eqb msg "" then "Failed to claim USDC" else msg in
  if includes errorMsg "already received" || includes errorMsg "Nonce already used"
  then
    save address None;;
    setState (fun prev =>
      mkHookState (isBridging prev) false None (mintConfirmed prev) None);;
    setAttestationStatus (Some Complete);;
    toast TSuccess "Transfer already completed!"
  else
    setState (fun prev =>
      mkHookState (isBridging prev) false (Some errorMsg) (mintConfirmed prev)
                  (pendingBurn prev));;
    toast TError "Claim failed".

(** [prev => ({ ...prev, isClaiming: true, error: null })] *)
Definition startClaiming (prev : HookState) : HookState :=
  mkHookState (isBridging prev) true None (mintConfirmed prev)
              (pendingBurn prev).

Definition claimPendingBridge : M unit :=
  state_pendingBurn ← gets (fun w => pendingBurn (hook w));
  match state_pendingBurn with
  | None => toast TError "No pending burn to claim"
  | Some pendingBurn0 =>
      match hasWalletClient env, truthy (address env) with
      | true, Some a =>
          setState startClaiming;;
          try_catch (claimBody a pendingBurn0) (claimCatch a)
      | _, _ => toast TError "Please connect your wallet"
      end
  end.

(** *** The transfer: helpers *)

Definition MAX_ATTEMPTS : nat := 150.

Definition liftOutcome {A} (o : Outcome A) : M A :=
  match o with
  | Ok a => ret a
  | Err msg => throw msg
  end.

(** [client!.method(...)]: a missing public client is a [TypeError]. *)
Definition withClient {A} (n : BridgeNetwork) (c : M A) : M A :=
  if hasPublicClient env n then c
  else throw "Cannot read properties of undefined".

Definition isNetworkError (errorMsg : string) : bool :=
  includes errorMsg "chain"
  || includes errorMsg "network"
  || includes errorMsg "Chain ID"
  || includes errorMsg "not switched"
  || includes errorMsg "does not match"
  || (includes errorMsg "current" && includes errorMsg "expected").

(** [{ txHash, fromNetwork, toNetwork, amount, timestamp: Date.now() }] *)
Definition newPendingBurn (hash : option string) (p : BridgeParams)
    : PendingBurn :=
  mkPendingBurn hash (bp_fromNetwork p) (bp_toNetwork p) (bp_amount p) (now env).

Definition direction (p : BridgeParams) : string :=
  match bp_toNetwork p with
  | arcTestnet => "to_arc"
  | ethereumSepolia => "to_sepolia"
  end.

Definition notCompleted : string :=
  "Mint was not completed. Your funds are safe - click Claim USDC.".

(** *** The transfer: direct Sepolia -> Arc path *)

(** The attestation poll: [Some (message, attestation)] when the loop was
    left by [break], [None] when the attempts ran out. *)
Fixpoint pollAttestation (fuel attempts : nat) (burnHash : string)
    : M (option (option string * option string)) :=
  match fuel with
  | O => ret None
  | S fuel' =>
      sleep;;
      let attempts' := S attempts in
      toast TLoading "Waiting for attestation...";;
      found ← try_catch
                (emit (Fetch 0 (Some burnHash));;
                 r ← awaitFetch (poll env attempts');
                 if negb r.1 then ret None
                 else match first_message r.2 with
                      | Some m =>
                          if usable (md_attestation m)
                          then ret (Some (md_message m, md_attestation m))
                          else ret None
                      | None => ret None
                      end)
                (fun _ => ret None);
      match found with
      | Some x => ret (Some x)
      | None => pollAttestation fuel' attempts' burnHash
      end
  end.

(** The [catch (mintError)] of the direct path. *)
Definition directMintCatch (address : string) (p : BridgeParams)
    (burnHash : string) (msg : string) : M unit :=
  (* mintError.message || mintError.toString() || '' *)
  let errorMsg := if String.eqb msg "" then "Error" else msg in
  let keep :=
    setState (fun prev =>
      mkHookState false (isClaiming prev) (error prev) (mintConfirmed prev)
                  (Some (newPendingBurn (Some burnHash) p))) in
  if isNetworkError errorMsg then
    toast TError "Network switch required";;
    keep
  else if includes msg "Nonce already used" || includes msg "already" then
    setAttestationStatus (Some Complete);;
    save address None;;
    toast TSuccess "Bridge completed!";;
    setState (fun prev =>
      mkHookState false (isClaiming prev) (error prev) true None)
  else
    sent ← gets (fun w => mintTxHashRef (refs w));
    if is_truthy sent then
      toast TInfo "Mint transaction sent!";;
      keep
    else
      toast TError "Mint failed";;
      keep.

(** Step 3 of the direct path: [receiveMessage] on Arc. *)
Definition directMint (address : string) (p : BridgeParams)
    (burnHash messageBytes attestationBytes : string) : M unit :=
  toast TInfo "Minting on Arc...";;
  setAttestationStatus (Some PendingMint);;
  try_catch
    (let targetChainId := chainIdOf env arcTestnet in
     (if negb (chainId_is (accountChainId env) targetChainId) then
        emit (SwitchChain targetChainId);;
        (if hasSwitchChain env then await (switchChain env targetChainId)
         else throw "switchChainAsync is not a function");;
        throwIf (negb (hasProvider env)) "No wallet provider available";;
        switched ← awaitSwitch 10 0 targetChainId;
        throwIf (negb switched)
          "Network switch timeout - please switch to Arc Testnet manually"
      else ret tt);;
     throwIf (negb (hasProvider env))
       "No wallet provider available after network switch";;
     currentChainIdNumber ← await (ethChainIdFinal env);
     throwIf (negb (Z.eqb currentChainIdNumber targetChainId)) notSwitched;;
     emit (CallMint arcTestnet messageBytes attestationBytes);;
     mintHash ← await (mintTx env arcTestnet messageBytes attestationBytes);
     emit (MintSent mintHash);;
     setRefs (fun r =>
       mkRefs (mintConfirmedRef r) (Some mintHash) (burnConfirmedRef r)
              (burnTxHashRef r) (approvalConfirmedRef r) (approvalStartedRef r)
              (approvalTxHashRef r));;
     ok ← withClient arcTestnet (await (mintReceipt env mintHash));
     if ok : bool then
       trackSiteBridge burnHash "to_arc";;
       setAttestationStatus (Some Complete);;
       save address None;;
       toast TSuccess "Bridge completed!";;
       setState (fun prev =>
         mkHookState false (isClaiming prev) (error prev) true None)
     else throw "Mint transaction failed")
    (directMintCatch address p burnHash).

(** The branch taken when the poll ends without message and attestation. *)
Definition attestationTimeout (address : string) (p : BridgeParams)
    (burnHash : string) : M unit :=
  toast TWarning "Attestation taking longer than expected";;
  let newPendingBurn' := newPendingBurn (Some burnHash) p in
  save address (Some newPendingBurn');;
  setAttestationStatus (Some PendingMint);;
  setState (fun prev =>
    mkHookState false (isClaiming prev) (error prev) (mintConfirmed prev)
                (Some newPendingBurn')).

(** Steps 1 and 2 of the direct path, up to the receipt of the burn. *)
Definition directBurn (address : string) (p : BridgeParams) : M string :=
  throwIf (negb (hasWalletClient env)) "Wallet not ready";;
  amountWei ← liftOutcome (parseUnits6 env (bp_amount p));
  allowance ← withClient ethereumSepolia (await (readAllowance env));
  (if Z.ltb allowance amountWei then
     toast TInfo "Approving USDC...";;
     emit (SendApprove (amountWei * 10));;
     approveHash ← await (approveTx env (amountWei * 10));
     withClient ethereumSepolia (await (approveReceipt env approveHash))
   else ret tt);;
  toast TInfo "Bridging to Arc...";;
  let args := burnArgs (usdcAddress env) (bridgeContract env) address amountWei in
  emit (SendBurn args);;
  burnHash ← await (burnTx env args);
  setRefs (fun r =>
    mkRefs (mintConfirmedRef r) (mintTxHashRef r) true (Some burnHash)
           (approvalConfirmedRef r) (approvalStartedRef r) (approvalTxHashRef r));;
  ok ← withClient ethereumSepolia (await (burnReceipt env burnHash));
  throwIf (negb ok) "Bridge transaction failed";;
  ret burnHash.

(** What follows the confirmed burn: poll, then mint or time out. *)
Definition directAfterBurn (address : string) (p : BridgeParams)
    (burnHash : string) : M unit :=
  trackSiteBridge burnHash "to_arc";;
  setAttestationStatus (Some Pending);;
  toast TLoading "Waiting for attestation...";;
  found ← pollAttestation MAX_ATTEMPTS 0 burnHash;
  match found with
  | Some (messageBytes, attestationBytes) =>
      match truthy messageBytes, truthy attestationBytes with
      | Some m, Some a => directMint address p burnHash m a
      | _, _ => attestationTimeout address p burnHash
      end
  | None => attestationTimeout address p burnHash
  end.

Definition directBridge (address : string) (p : BridgeParams) : M unit :=
  burnHash ← directBurn address p;
  directAfterBurn address p burnHash.

(** *** The transfer: Bridge Kit path (Arc -> Sepolia) *)

Definition isOneOf (s : string) (l : list string) : bool :=
  existsb (String.eqb s) l.

(** [progress.txHash || progress.transactionHash] *)
Definition progressHash (pg : Progress) : option string :=
  or_else (pg_txHash pg) (pg_transactionHash pg).

(** The [onProgress] callback. *)
Definition onProgress (p : BridgeParams) (pg : Progress) : M unit :=
  let eventType := default "" (pg_event pg) in
  if isOneOf eventType ["approval"; "APPROVAL_STARTED"] then
    toast TInfo "Approving USDC...";;
    setRefs (fun r =>
      mkRefs (mintConfirmedRef r) (mintTxHashRef r) (burnConfirmedRef r)
             (burnTxHashRef r) (approvalConfirmedRef r) true
             (approvalTxHashRef r));;
    match truthy (progressHash pg) with
    | Some h =>
        setRefs (fun r =>
          mkRefs (mintConfirmedRef r) (mintTxHashRef r) (burnConfirmedRef r)
                 (burnTxHashRef r) (approvalConfirmedRef r)
                 (approvalStartedRef r) (Some h))
    | None => ret tt
    end
  else if isOneOf eventType ["APPROVAL_CONFIRMED"] then
    setRefs (fun r =>
      mkRefs (mintConfirmedRef r) (mintTxHashRef r) (burnConfirmedRef r)
             (burnTxHashRef r) true (approvalStartedRef r)
             (approvalTxHashRef r))
  else if isOneOf eventType ["burn"; "BURN_STARTED"] then
    toast TInfo "Burning USDC on source chain...";;
    match truthy (progressHash pg) with
    | Some h =>
        setRefs (fun r =>
          mkRefs (mintConfirmedRef r) (mintTxHashRef r) (burnConfirmedRef r)
                 (Some h) (approvalConfirmedRef r) (approvalStartedRef r)
                 (approvalTxHashRef r));;
        trackSiteBridge h (direction p)
    | None => ret tt
    end
  else if isOneOf eventType ["BURN_CONFIRMED"] then
    setRefs (fun r =>
      mkRefs (mintConfirmedRef r) (mintTxHashRef r) true (burnTxHashRef r)
             (approvalConfirmedRef r) (approvalStartedRef r)
             (approvalTxHashRef r));;
    match truthy (progressHash pg) with
    | Some h =>
        setRefs (fun r =>
          mkRefs (mintConfirmedRef r) (mintTxHashRef r) (burnConfirmedRef r)
                 (if is_truthy (burnTxHashRef r) then burnTxHashRef r else Some h)
                 (approvalConfirmedRef r) (approvalStartedRef r)
                 (approvalTxHashRef r));;
        trackSiteBridge h (direction p)
    | None => ret tt
    end
  else if isOneOf eventType ["attestation"; "ATTESTATION_PENDING"] then
    setRefs (fun r =>
      mkRefs (mintConfirmedRef r) (mintTxHashRef r) true (burnTxHashRef r)
             (approvalConfirmedRef r) (approvalStartedRef r)
             (approvalTxHashRef r));;
    setAttestationStatus (Some Pending);;
    toast TInfo "Waiting for Circle attestation (~30 sec)..."
  else if isOneOf eventType ["ATTESTATION_COMPLETE"] then
    setRefs (fun r =>
      mkRefs (mintConfirmedRef r) (mintTxHashRef r) true (burnTxHashRef r)
             (approvalConfirmedRef r) (approvalStartedRef r)
             (approvalTxHashRef r));;
    setAttestationStatus (Some Attested)
  else if isOneOf eventType ["mint"; "MINT_STARTED"] then
    toast TInfo "Minting USDC on destination chain..."
  else if isOneOf eventType ["MINT_CONFIRMED"; "complete"] then
    setRefs (fun r =>
      mkRefs true (mintTxHashRef r) (burnConfirmedRef r) (burnTxHashRef r)
             (approvalConfirmedRef r) (approvalStartedRef r)
             (approvalTxHashRef r));;
    setState (fun prev =>
      mkHookState (isBridging prev) (isClaiming prev) (error prev) true
                  (pendingBurn prev))
  else ret tt.

Fixpoint forEach {A} (f : A -> M unit) (l : list A) : M unit :=
  match l with
  | [] => ret tt
  | x :: rest => f x;; forEach f rest
  end.

(** [await bridgeKit.bridge({ ..., onProgress })]: the SDK is one
    suspension during which it delivers its progress events. *)
Definition runKit (p : BridgeParams) : M (option KitResult) :=
  emit (KitBridge p);;
  await (Ok tt);;
  forEach (onProgress p) (kitProgress env);;
  liftOutcome (kitBridge env).

(** [s.name?.toLowerCase().includes(sub)] *)
Definition lowerIncludes (o : option string) (sub : string) : bool :=
  match o with
  | Some s => includes (toLowerCase s) sub
  | None => false
  end.

Definition isBurnStep (s : Step) : bool :=
  lowerIncludes (st_name s) "burn"
  || lowerIncludes (st_name s) "deposit"
  || lowerIncludes (st_type s) "burn".

Definition isMintStep (s : Step) : bool :=
  lowerIncludes (st_name s) "mint" || lowerIncludes (st_type s) "mint".

(** [step?.txHash || step?.transactionHash] *)
Definition stepHash (s : option Step) : option string :=
  match s with
  | Some s => or_else (st_txHash s) (st_transactionHash s)
  | None => None
  end.

Definition stepSucceeded (s : option Step) : bool :=
  match s with
  | Some s => match st_state s with
              | Some st => String.eqb st "success"
              | None => false
              end
  | None => false
  end.

Definition hasAnyHash (s : Step) : bool :=
  is_truthy (or_else (st_txHash s) (st_transactionHash s)).

(** Has the attestation service a usable attestation for [hash]? *)
Definition attestationPresent (p : BridgeParams) (hash : string) : M bool :=
  data ← fetchAttestation (domainOf env (bp_fromNetwork p)) (Some hash);
  match first_message data with
  | Some msg => ret (usable (md_attestation msg))
  | None => ret false
  end.

(** The analysis of the SDK's result. *)
Definition afterKit (address : string) (p : BridgeParams)
    (result : option KitResult) : M unit :=
  let steps := match result with
               | Some r => default [] (kr_steps r)
               | None => []
               end in
  let burnStep := find isBurnStep steps in
  let mintStep := find isMintStep steps in
  r0 ← gets refs;
  let burnSucceeded := stepSucceeded burnStep || burnConfirmedRef r0 in
  let mintSucceeded := stepSucceeded mintStep || mintConfirmedRef r0 in
  let resultState := match result with Some r => kr_state r | None => None end in
  let completed :=
    setAttestationStatus (Some Complete);;
    toast TSuccess "Bridge completed!";;
    setState (fun prev =>
      mkHookState false (isClaiming prev) (error prev) true None) in
  if match resultState with Some st => String.eqb st "success" | None => false end
  then
    match truthy (stepHash burnStep) with
    | Some h => trackSiteBridge h (direction p)
    | None => ret tt
    end;;
    setAttestationStatus (Some Complete);;
    toast TSuccess "Bridge completed!";;
    setState (fun prev =>
      mkHookState false (isClaiming prev) (error prev) true (pendingBurn prev))
  else if burnSucceeded && negb mintSucceeded then
    let burnTxHash := or_else (burnTxHashRef r0) (stepHash burnStep) in
    match truthy burnTxHash with
    | Some h => trackSiteBridge h (direction p)
    | None => ret tt
    end;;
    relayCompleted ←
      match truthy burnTxHash with
      | Some h =>
          try_catch
            (present ← attestationPresent p h;
             if present : bool then sleep;; ret true else ret false)
            (fun _ => ret false)
      | None => ret false
      end;
    if relayCompleted : bool then completed
    else
      confirmed ← gets (fun w => mintConfirmedRef (refs w));
      if confirmed : bool then ret tt
      else
        setAttestationStatus (Some PendingMint);;
        toast TWarning "Your funds are safe!";;
        let newPendingBurn' :=
          match truthy burnTxHash with
          | Some h => Some (newPendingBurn (Some h) p)
          | None => None
          end in
        match newPendingBurn' with
        | Some pb => save address (Some pb)
        | None => ret tt
        end;;
        setState (fun prev =>
          mkHookState false (isClaiming prev) (Some notCompleted) false
                      newPendingBurn')
  else if burnConfirmedRef r0 && is_truthy (burnTxHashRef r0) then
    match burnTxHashRef r0 with
    | Some h => trackSiteBridge h (direction p)
    | None => ret tt
    end;;
    setAttestationStatus (Some PendingMint);;
    toast TWarning "Your funds are safe!";;
    let newPendingBurn' := newPendingBurn (burnTxHashRef r0) p in
    save address (Some newPendingBurn');;
    setState (fun prev =>
      mkHookState false (isClaiming prev) None false (Some newPendingBurn'))
  else
    setAttestationStatus None;;
    if approvalConfirmedRef r0 then
      toast TWarning "Approval successful";;
      setState (fun prev =>
        mkHookState false (isClaiming prev)
          (Some "Approval completed. Please try again to bridge.") false
          (pendingBurn prev))
    else if approvalStartedRef r0 then
      toast TWarning "Approval pending";;
      setState (fun prev =>
        mkHookState false (isClaiming prev)
          (Some "Approval transaction pending. Please wait and try again.")
          false (pendingBurn prev))
    else
      let found := match result with
                   | Some r => find hasAnyHash (default [] (kr_steps r))
                   | None => None
                   end in
      let anyTxHash :=
        or_else (match found with Some s => st_txHash s | None => None end)
          (or_else (match found with Some s => st_transactionHash s | None => None end)
             (or_else (match result with Some r => kr_txHash r | None => None end)
                      (match result with Some r => kr_transactionHash r | None => None end))) in
      finished ←
        match truthy anyTxHash with
        | Some h =>
            try_catch
              (present ← attestationPresent p h;
               if present : bool then
                 trackSiteBridge h (direction p);;
                 completed;;
                 ret true
               else ret false)
              (fun _ => ret false)
        | None => ret false
        end;
      if finished : bool then ret tt
      else
        toast TError "Bridge cancelled";;
        setState (fun prev =>
          mkHookState false (isClaiming prev) (Some "Transaction was cancelled")
                      false (pendingBurn prev)).

(** *** The transfer: [bridge] *)

(** The outer [catch (error)] of [bridge]. *)
Definition bridgeCatch (address : string) (p : BridgeParams) (msg : string)
    : M unit :=
  let errorMsg0 := if String.eqb msg "" then "An unexpected error occurred" else msg in
  let errorMsg :=
    if includes errorMsg0 "User rejected" || includes errorMsg0 "user rejected"
       || includes errorMsg0 "User denied"
    then "Transaction rejected by user"
    else if includes errorMsg0 "insufficient funds" then "Insufficient funds for gas"
    else if includes errorMsg0 "allowance" then "Token approval failed"
    else errorMsg0 in
  r ← gets refs;
  if isNetworkError errorMsg && burnConfirmedRef r then
    toast TError "Network switch required";;
    setState (fun prev =>
      mkHookState false (isClaiming prev) (error prev) (mintConfirmed prev)
                  (Some (newPendingBurn (burnTxHashRef r) p)))
  else if burnConfirmedRef r && is_truthy (burnTxHashRef r) then
    if mintConfirmedRef r then ret tt
    else
      setAttestationStatus (Some PendingMint);;
      toast TWarning "Your funds are safe!";;
      let newPendingBurn' := newPendingBurn (burnTxHashRef r) p in
      (* Save to localStorage so it persists across page refresh *)
      save address (Some newPendingBurn');;
      setState (fun prev =>
        mkHookState false (isClaiming prev) (Some notCompleted) false
                    (Some newPendingBurn'))
  else
    setAttestationStatus None;;
    setState (fun prev =>
      mkHookState false (isClaiming prev) (Some errorMsg) false
                  (pendingBurn prev));;
    toast TError "Bridge cancelled".

(** The outer [try] block of [bridge]. *)
Definition bridgeBody (address : string) (p : BridgeParams) : M unit :=
  throwIf (negb (hasProvider env)) "No wallet provider available";;
  await (createAdapter env);;
  match bp_fromNetwork p, bp_toNetwork p with
  | ethereumSepolia, arcTestnet => directBridge address p
  | _, _ =>
      result ← runKit p;
      afterKit address p result
  end.

(** The three guards at the top of [bridge]: the connected address when
    they all pass. *)
Definition bridgeGuards (p : BridgeParams) : Outcome string :=
  match truthy (address env) with
  | Some a =>
      if negb (isConnected env && hasConnectorClient env && hasWalletClient env)
      then Err "Please connect your wallet first"
      else if String.eqb (bp_amount p) "" || parseFloatLe0 env (bp_amount p)
      then Err "Please enter a valid amount"
      else
        match bp_fromNetwork p, bp_toNetwork p with
        | ethereumSepolia, arcTestnet | arcTestnet, ethereumSepolia => Ok a
        | _, _ => Err "Only Ethereum Sepolia <-> Arc Testnet is supported"
        end
  | None => Err "Please connect your wallet first"
  end.

(** [if (currentChainId !== requiredChainId) { try { switch; sleep } catch { ...; return } }]:
    [false] when [bridge] returns from the [catch]. *)
Definition ensureSourceNetwork (p : BridgeParams) : M bool :=
  let requiredChainId := chainIdOf env (bp_fromNetwork p) in
  if negb (chainId_is (accountChainId env) requiredChainId) then
    try_catch
      ((if hasSwitchChain env then
          emit (SwitchChain requiredChainId);;
          await (switchChain env requiredChainId)
        else ret tt);;
       sleep;;
       ret true)
      (fun _ =>
         setState (fun _ =>
           mkHookState false false (Some "Failed to switch network") false None);;
         toast TError "Failed to switch network";;
         ret false)
  else ret true.

Definition bridge (p : BridgeParams) : M unit :=
  match bridgeGuards p with
  | Err msg => toast TError msg
  | Ok a =>
      (* Clear any old pending burn from localStorage before starting new bridge *)
      save a None;;
      setState (fun _ => mkHookState true false None false None);;
      setAttestationStatus None;;
      setRefs (fun _ => initialRefs);;
      onSource ← ensureSourceNetwork p;
      if onSource : bool then try_catch (bridgeBody a p) (bridgeCatch a p)
      else ret tt
  end.

End Hook.

(** ** The operations as one interface *)

Inductive Op : Type :=
| OpTransfer (p : BridgeParams)      (* bridge *)
| OpClaim                            (* claimPendingBridge *)
| OpReconcile                        (* the load-on-connect effect *)
| OpRestore (burnTxHash : string)    (* restorePendingBurn *)
| OpDismiss.                         (* clearPendingBurn *)

(** The world an operation leaves behind, however it ends. *)
Definition exec (env : Env) (op : Op) (w : World) : World :=
  match op with
  | OpTransfer p => final (bridge env p w)
  | OpClaim => final (claimPendingBridge env w)
  | OpReconcile => final (loadOnConnect env w)
  | OpRestore h => final (restorePendingBurn env h w)
  | OpDismiss => final (clearPendingBurn env w)
  end.

(** The mint calls and mint transactions recorded in a log. *)
Definition isMintEvent (e : Event) : bool :=
  match e with
  | CallMint _ _ _ | MintSent _ => true
  | _ => false
  end.

Definition mintEvents (l : list Event) : list Event := filter isMintEvent l.

(** The burn calls recorded in a log, newest first. *)
Fixpoint burnsSent (l : list Event) : list BurnArgs :=
  match l with
  | [] => []
  | SendBurn args :: rest => args :: burnsSent rest
  | _ :: rest => burnsSent rest
  end.

(** A poll answer that lets the direct path go on to the mint: the
    response is ok and its first message carries a usable attestation
    together with the message bytes. *)
Definition usableProof (r : FetchResult) : bool :=
  match r with
  | FetchBody true messages =>
      match first_message messages with
      | Some m => usable (md_attestation m) && is_truthy (md_message m)
      | None => false
      end
  | _ => false
  end.

(** ** Concrete scenarios *)

Definition addrA : string := "0xAbCd000000000000000000000000000000000001".
Definition addrB : string := "0xbbbb000000000000000000000000000000000002".
Definition hashAA : string :=
  "0xaaaaaaaaaaaaaaaaaaaaaaaaaaaaaaaaaaaaaaaaaaaaaaaaaaaaaaaaaaaaaaaa".
Definition hashBB : string :=
  "0xbbbbbbbbbbbbbbbbbbbbbbbbbbbbbbbbbbbbbbbbbbbbbbbbbbbbbbbbbbbbbbbb".

Definition SEPOLIA_ID : Z := 11155111.
Definition ARC_ID : Z := 5042002.

Definition proofMessage : MessageData :=
  mkMessageData (Some "0xa77e57") (Some "0x0e55a6e") (Some "5000000").

(** A wallet for [addrA] whose approvals and burn go through; the chain
    the wallet is on, the chain it reports after a switch, the burn
    receipt, the poll answers, the attestation service and the mint call
    vary. *)
Definition scenario (chain after : Z) (receipt : Outcome bool)
    (polls : nat -> FetchResult) (api : Z -> option string -> FetchResult)
    (mint : Outcome string) : Env :=
  {| address := Some addrA;
     isConnected := true;
     hasConnectorClient := true;
     hasWalletClient := true;
     accountChainId := Some chain;
     hasProvider := true;
     hasSwitchChain := true;
     hasPublicClient := fun _ => true;
     chainIdOf := fun n => match n with
                           | ethereumSepolia => SEPOLIA_ID
                           | arcTestnet => ARC_ID
                           end;
     domainOf := fun n => match n with
                          | ethereumSepolia => 0
                          | arcTestnet => 26
                          end;
     networkName := fun n => match n with
                             | ethereumSepolia => "Ethereum Sepolia"
                             | arcTestnet => "Arc Testnet"
                             end;
     usdcAddress := "0x1c7D4B196Cb0C7B01d743Fbc6116a902379C7238";
     bridgeContract := "0xC5567a5E3370d4DBfB0540025078e283e36A363d";
     parseFloatLe0 := fun _ => false;
     parseUnits6 := fun _ => Ok 5000000;
     unitsToAmount := fun _ => "5";
     unitsToAmount2 := fun _ => "5.00";
     now := 1700000000000;
     switchChain := fun _ => Ok tt;
     ethChainId := fun _ => Ok after;
     ethChainIdFinal := Ok after;
     createAdapter := Ok tt;
     readAllowance := Ok 0;
     approveTx := fun _ => Ok "0xa1";
     approveReceipt := fun _ => Ok tt;
     burnTx := fun _ => Ok hashAA;
     burnReceipt := fun _ => receipt;
     mintTx := fun _ _ _ => mint;
     mintReceipt := fun _ => Ok true;
     poll := polls;
     attestationApi := api;
     kitProgress := [];
     kitBridge := Ok None |}.

Definition noAnswer : nat -> FetchResult := fun _ => FetchFailed.
Definition noService : Z -> option string -> FetchResult := fun _ _ => FetchFailed.
Definition proofReady : Z -> option string -> FetchResult :=
  fun _ _ => FetchBody true (Some [proofMessage]).
Definition noMessages : Z -> option string -> FetchResult :=
  fun _ _ => FetchBody true (Some []).

(** The attestation service answers, but has no message for the stored
    hash. *)
Definition noMessageEnv : Env :=
  scenario SEPOLIA_ID ARC_ID (Ok true) noAnswer noMessages (Ok "0x3417").

(** The proof is available and the wallet is on Sepolia, resp. on Arc. *)
Definition onSepoliaEnv : Env :=
  scenario SEPOLIA_ID SEPOLIA_ID (Ok true) noAnswer proofReady (Ok "0x3417").
Definition onArcEnv : Env :=
  scenario ARC_ID ARC_ID (Ok true) noAnswer proofReady (Ok "0x3417").

(** The wallet is on Arc, the proof is available, and the destination
    contract answers the mint call with its reused-nonce error. *)
Definition alreadyMintedEnv : Env :=
  scenario ARC_ID ARC_ID (Ok true) noAnswer proofReady
           (Err "execution reverted: Nonce already used").

(** The direct transfer whose burn confirms while the attestation service
    never answers. *)
Definition timeoutEnv : Env :=
  scenario SEPOLIA_ID ARC_ID (Ok true) noAnswer noService (Ok "0x3417").

(** The direct transfer whose burn transaction reverts. *)
Definition revertedEnv : Env :=
  scenario SEPOLIA_ID ARC_ID (Ok false) noAnswer noService (Ok "0x3417").

Definition toArc : BridgeParams := mkBridgeParams ethereumSepolia arcTestnet "5".

Definition recordAA : PendingBurn :=
  mkPendingBurn (Some hashAA) ethereumSepolia arcTestnet "5" 1690000000000.
Definition recordBB : PendingBurn :=
  mkPendingBurn (Some hashBB) arcTestnet ethereumSepolia "7" 1690000000000.

(** A fresh page: nothing stored, nothing in progress. *)
Definition freshWorld : World :=
  mkWorld None initialState None initialRefs [] None.

(** A fresh page that goes away at its [n+1]-th suspension. *)
Definition shortLived (n : nat) : World :=
  mkWorld None initialState None initialRefs [] (Some n).

(** A page on which [r] is stored for [a] and shown as pending. *)
Definition worldWith (a : string) (r : PendingBurn) : World :=
  mkWorld (savePendingBurn a (Some r) None)
          (mkHookState false false None false (Some r))
          (Some PendingMint) initialRefs [] None.

(** ** Invariants of hook computations

    [clean I c]: however [c] ends, it keeps [I].  [loose I c]: [c] keeps
    [I] whenever it ends by an error or by an interruption.  [inert c]:
    [c] neither throws nor suspends. *)

Definition clean {A} (I : World -> Prop) (c : M A) : Prop :=
  forall w, I w -> I (final (c w)).

Definition loose {A} (I : World -> Prop) (c : M A) : Prop :=
  forall w, I w ->
    match c w with
    | Done _ _ => True
    | Thrown _ w' | Halted w' => I w'
    end.

Definition inert {A} (c : M A) : Prop :=
  forall w, exists a w', c w = Done a w'.

(** ** What removes the record of the connected address

    For each operation, what must have happened when the operation started
    with a record [r] stored for the connected address and left none. *)
Definition deletionCause (env : Env) (op : Op) (w : World) (a : string)
    (r : PendingBurn) : Prop :=
  let w' := exec env op w in
  match op with
  | OpDismiss => True
  | OpTransfer p =>
      (* a new transfer passed its guards: it clears the record first *)
      bridgeGuards env p = Ok a
  | OpClaim =>
      attestationStatus w' = Some Complete
      /\ ((* the mint transaction was sent and waited for *)
          (exists dest messageBytes attestation hash,
             mintTx env dest messageBytes attestation = Ok hash
             /\ mintEvents (log w')
                = MintSent hash :: CallMint dest messageBytes attestation
                  :: mintEvents (log w)
             /\ head (log w') = Some (Toast TSuccess "USDC claimed successfully!"))
          \/ (* the error of the claim carried the already-minted signal *)
          head (log w') = Some (Toast TSuccess "Transfer already completed!"))
  | OpReconcile =>
      (* the attestation service answered without any message *)
      exists ok messages,
        attestationApi env (domainOf env (fromNetwork r)) (txHash r)
        = FetchBody ok messages
        /\ first_message messages = None
  | OpRestore _ => False
  end.

(** ** Outcomes

    [outcome c w Q E H]: [Q] holds if [c] ends normally from [w], [E] if it
    throws, [H] if it is interrupted. *)
Definition outcome {A} (c : M A) (w : World) (Q : A -> World -> Prop)
    (E : string -> World -> Prop) (H : World -> Prop) : Prop :=
  match c w with
  | Done a w' => Q a w'
  | Thrown msg w' => E msg w'
  | Halted w' => H w'
  end.

(** ** Runs to completion

    [wpd c w Q]: from [w] the computation [c] ends normally, with a result
    and a world that satisfy [Q]. *)

Definition wpd {A} (c : M A) (w : World) (Q : A -> World -> Prop) : Prop :=
  exists a w', c w = Done a w' /\ Q a w'.

(** [w'] differs from [w] at most by log entries that are not mint
    calls. *)
Definition calm (w w' : World) : Prop :=
  storage w' = storage w /\ hook w' = hook w
  /\ attestationStatus w' = attestationStatus w /\ refs w' = refs w
  /\ alive w' = alive w /\ mintEvents (log w') = mintEvents (log w).

(** The environment lets a direct transfer of [p] by [a] get as far as
    sending the burn transaction, which gets the hash [burnHash]. *)
Record BurnSent (env : Env) (p : BridgeParams) (a burnHash : string)
    : Prop := mkBurnSent {
  bs_guards : bridgeGuards env p = Ok a;
  bs_from : bp_fromNetwork p = ethereumSepolia;
  bs_to : bp_toNetwork p = arcTestnet;
  bs_network :
    chainId_is (accountChainId env) (chainIdOf env (bp_fromNetwork p)) = true
    \/ hasSwitchChain env = false
    \/ switchChain env (chainIdOf env (bp_fromNetwork p)) = Ok tt;
  bs_provider : hasProvider env = true;
  bs_adapter : createAdapter env = Ok tt;
  bs_client : hasPublicClient env ethereumSepolia = true;
  bs_burn :
    exists amountWei allowance,
      parseUnits6 env (bp_amount p) = Ok amountWei
      /\ readAllowance env = Ok allowance
      /\ (allowance < amountWei ->
          exists h, approveTx env (amountWei * 10) = Ok h
                    /\ approveReceipt env h = Ok tt)
      /\ burnTx env (burnArgs (usdcAddress env) (bridgeContract env) a amountWei)
         = Ok burnHash
}.

(** The burn is sent and its receipt reports success. *)
Record ConfirmedBurn (env : Env) (p : BridgeParams) (a burnHash : string)
    : Prop := mkConfirmedBurn {
  cb_sent : BurnSent env p a burnHash;
  cb_receipt : burnReceipt env burnHash = Ok true
}.

(** ** Resetting the hook *)

(** [reset]: the state and the status go back to their initial values;
    of the refs, [mintTxHashRef] is the one that is not touched. *)
Definition reset : M unit :=
  setState (fun _ => initialState);;
  setAttestationStatus None;;
  setRefs (fun r =>
    mkRefs false (mintTxHashRef r) false None false false None).

(** ** Observations on runs *)

(** The requests to the attestation service recorded in a log. *)
Fixpoint fetches (l : list Event) : nat :=
  match l with
  | [] => O
  | Fetch _ _ :: rest => S (fetches rest)
  | _ :: rest => fetches rest
  end.

(** A poll answer on which the polling loop of the direct path breaks:
    the response is ok and its first message carries an attestation other
    than ['PENDING']. *)
Definition attested (r : FetchResult) : bool :=
  match r with
  | FetchBody true messages =>
      match first_message messages with
      | Some m => usable (md_attestation m)
      | None => false
      end
  | _ => false
  end.

(** The [k]-th poll is the first one on which the loop breaks; its message
    [m] carries the message bytes and the attestation. *)
Record ProofArrives (env : Env) (k : nat) (m : MessageData)
    (messageBytes attestationBytes : string) : Prop := mkProofArrives {
  pa_bound : (1 <= k <= MAX_ATTEMPTS)%nat;
  pa_before : forall j, (1 <= j < k)%nat -> attested (poll env j) = false;
  pa_answer :
    exists messages,
      poll env k = FetchBody true messages
      /\ first_message messages = Some m;
  pa_usable : usable (md_attestation m) = true;
  pa_message : truthy (md_message m) = Some messageBytes;
  pa_attestation : truthy (md_attestation m) = Some attestationBytes
}.

(** The wallet is on Arc when the mint is to be called: it was there
    already, or the switch is granted and one of the ten polls of
    [eth_chainId] reports Arc. *)
Record ReachesArc (env : Env) : Prop := mkReachesArc {
  ra_network :
    chainId_is (accountChainId env) (chainIdOf env arcTestnet) = true
    \/ (hasSwitchChain env = true
        /\ switchChain env (chainIdOf env arcTestnet) = Ok tt
        /\ exists k, (k < 10)%nat
             /\ (forall j, (j < k)%nat ->
                   exists c, ethChainId env j = Ok c
                             /\ c <> chainIdOf env arcTestnet)
             /\ ethChainId env k = Ok (chainIdOf env arcTestnet));
  ra_provider : hasProvider env = true;
  ra_final : ethChainIdFinal env = Ok (chainIdOf env arcTestnet)
}.

(** What [restorePendingBurn] finds for a hash: the first message of the
    Sepolia domain, else the first message of the Arc domain, with the
    direction that goes with the domain. *)
Definition answerOf (r : FetchResult) : option MessageData :=
  match r with
  | FetchFailed => None
  | FetchBody _ messages => first_message messages
  end.

Definition detected (env : Env) (burnTxHash : string)
    : option (MessageData * (BridgeNetwork * BridgeNetwork)) :=
  match answerOf (attestationApi env (domainOf env ethereumSepolia)
                                 (Some burnTxHash)) with
  | Some m => Some (m, (ethereumSepolia, arcTestnet))
  | None =>
      match answerOf (attestationApi env (domainOf env arcTestnet)
                                     (Some burnTxHash)) with
      | Some m => Some (m, (arcTestnet, ethereumSepolia))
      | None => None
      end
  end.

(** ** Further scenarios *)

(** [env] with another wallet answer to the burn, to a network switch and
    to the mint receipt, and another run of the Bridge Kit SDK. *)
Definition variant (env : Env) (burn : BurnArgs -> Outcome string)
    (switch : Z -> Outcome unit) (receipt : string -> Outcome bool)
    (events : list Progress) (kit : Outcome (option KitResult)) : Env :=
  {| address := address env;
     isConnected := isConnected env;
     hasConnectorClient := hasConnectorClient env;
     hasWalletClient := hasWalletClient env;
     accountChainId := accountChainId env;
     hasProvider := hasProvider env;
     hasSwitchChain := hasSwitchChain env;
     hasPublicClient := hasPublicClient env;
     chainIdOf := chainIdOf env;
     domainOf := domainOf env;
     networkName := networkName env;
     usdcAddress := usdcAddress env;
     bridgeContract := bridgeContract env;
     parseFloatLe0 := parseFloatLe0 env;
     parseUnits6 := parseUnits6 env;
     unitsToAmount := unitsToAmount env;
     unitsToAmount2 := unitsToAmount2 env;
     now := now env;
     switchChain := switch;
     ethChainId := ethChainId env;
     ethChainIdFinal := ethChainIdFinal env;
     createAdapter := createAdapter env;
     readAllowance := readAllowance env;
     approveTx := approveTx env;
     approveReceipt := approveReceipt env;
     burnTx := burn;
     burnReceipt := burnReceipt env;
     mintTx := mintTx env;
     mintReceipt := receipt;
     poll := poll env;
     attestationApi := attestationApi env;
     kitProgress := events;
     kitBridge := kit |}.

(** The proof is there at the third poll. *)
Definition thirdPoll : nat -> FetchResult :=
  fun k => if Nat.ltb k 3 then FetchFailed
           else FetchBody true (Some [proofMessage]).

(** A direct transfer that goes through: the burn confirms, the proof
    arrives at the third poll, the wallet switches to Arc and the mint
    confirms. *)
Definition happyEnv : Env :=
  scenario SEPOLIA_ID ARC_ID (Ok true) thirdPoll noService (Ok "0x3417").

(** The same transfer with a mint call that the wallet user rejects. *)
Definition rejectedMintEnv : Env :=
  scenario SEPOLIA_ID ARC_ID (Ok true) thirdPoll noService
           (Err "User rejected the request.").

(** The burn is rejected in the wallet. *)
Definition rejectedBurnEnv : Env :=
  variant timeoutEnv (fun _ => Err "User rejected the request.")
          (switchChain timeoutEnv) (mintReceipt timeoutEnv) [] (Ok None).

(** The wallet is on Arc and refuses to switch to Sepolia. *)
Definition noSwitchEnv : Env :=
  variant onArcEnv (burnTx onArcEnv) (fun _ => Err "User rejected the request.")
          (mintReceipt onArcEnv) [] (Ok None).

(** The attestation service knows the hash on the Arc domain only. *)
Definition arcOnly : Z -> option string -> FetchResult :=
  fun domain _ => if Z.eqb domain 26 then FetchBody true (Some [proofMessage])
                  else FetchBody true (Some []).

Definition arcOnlyEnv : Env :=
  scenario ARC_ID ARC_ID (Ok true) noAnswer arcOnly (Ok "0x3417").

(** A claim whose mint transaction is mined and reverts. *)
Definition revertedMintEnv : Env :=
  variant onArcEnv (burnTx onArcEnv) (switchChain onArcEnv)
          (fun _ => Ok false) [] (Ok None).

(** A claim that the wallet user rejects. *)
Definition rejectedClaimEnv : Env :=
  scenario ARC_ID ARC_ID (Ok true) noAnswer proofReady
           (Err "User rejected the request.").

(** The attestation of the stored burn is still pending. *)
Definition pendingMessage : MessageData :=
  mkMessageData (Some "PENDING") None (Some "7000000").

Definition pendingEnv : Env :=
  scenario ARC_ID ARC_ID (Ok true) noAnswer
           (fun _ _ => FetchBody true (Some [pendingMessage])) (Ok "0x3417").

Definition toSepolia : BridgeParams :=
  mkBridgeParams arcTestnet ethereumSepolia "7".

(** A Bridge Kit transfer from Arc that the SDK reports as successful. *)
Definition kitEvents : list Progress :=
  [ mkProgress (Some "APPROVAL_STARTED") None None;
    mkProgress (Some "BURN_STARTED") (Some hashBB) None;
    mkProgress (Some "BURN_CONFIRMED") None (Some hashBB);
    mkProgress (Some "ATTESTATION_PENDING") None None ].

Definition kitSuccessEnv : Env :=
  variant onArcEnv (burnTx onArcEnv) (switchChain onArcEnv)
          (mintReceipt onArcEnv) kitEvents
          (Ok (Some (mkKitResult (Some "success") None None None))).

(** The SDK reports an error after the burn was confirmed, and the
    attestation service has the attestation. *)
Definition kitRelayEnv : Env :=
  variant onArcEnv (burnTx onArcEnv) (switchChain onArcEnv)
          (mintReceipt onArcEnv) kitEvents
          (Ok (Some (mkKitResult (Some "error") None None None))).

(** [result?.state] and [result?.steps || []] of the SDK's result. *)
Definition kitState (result : option KitResult) : option string :=
  match result with Some r => kr_state r | None => None end.

Definition kitSteps (result : option KitResult) : list Step :=
  match result with Some r => default [] (kr_steps r) | None => [] end.

(** What the progress events of the SDK leave alone. *)
Definition untouched (w w' : World) : Prop :=
  storage w' = storage w
  /\ pendingBurn (hook w') = pendingBurn (hook w)
  /\ error (hook w') = error (hook w)
  /\ isBridging (hook w') = isBridging (hook w)
  /\ isClaiming (hook w') = isClaiming (hook w)
  /\ mintEvents (log w') = mintEvents (log w).

(** The page of a Bridge Kit transfer whose burn was reported confirmed. *)
Definition afterKitBurn : World :=
  mkWorld None (mkHookState true false None false None) (Some Pending)
          (mkRefs false None true (Some hashBB) false true None) [] None.

(** [errorMsg] of the outer [catch] of [bridge], after its mapping of the
    common wallet errors. *)
Definition userMessage (msg : string) : string :=
  let errorMsg0 :=
    if String.eqb msg "" then "An unexpected error occurred" else msg in
  if includes errorMsg0 "User rejected" || includes errorMsg0 "user rejected"
     || includes errorMsg0 "User denied"
  then "Transaction rejected by user"
  else if includes errorMsg0 "insufficient funds" then "Insufficient funds for gas"
  else if includes errorMsg0 "allowance" then "Token approval failed"
  else errorMsg0.

(** The wallet is on Sepolia and the attestation service knows the hash
    on the Arc domain only. *)
Definition misdirectedEnv : Env :=
  scenario SEPOLIA_ID SEPOLIA_ID (Ok true) noAnswer arcOnly (Ok "0x3417").

(** The SDK reports the burn and the mint as confirmed and then fails. *)
Definition burnConfirmedEvent : Progress :=
  mkProgress (Some "BURN_CONFIRMED") (Some hashBB) None.
Definition mintConfirmedEvent : Progress :=
  mkProgress (Some "MINT_CONFIRMED") None None.

Definition kitLateErrorEnv : Env :=
  variant onArcEnv (burnTx onArcEnv) (switchChain onArcEnv)
          (mintReceipt onArcEnv)
          [burnConfirmedEvent; mintConfirmedEvent]
          (Err "Request timed out").

(** The SDK reports the burn as confirmed and then fails. *)
Definition kitErrorEnv : Env :=
  variant onArcEnv (burnTx onArcEnv) (switchChain onArcEnv)
          (mintReceipt onArcEnv)
          [burnConfirmedEvent]
          (Err "Request timed out").

(** * Properties *)

(** ** The store *)

Lemma load_save_some a r s :
  loadPendingBurn a (savePendingBurn a (Some r) s) = Some r.
Proof. cbn. apply lookup_singleton_eq. Qed.

Lemma load_save_none a s :
  loadPendingBurn a (savePendingBurn a None s) = None.
Proof.
  destruct s as [data|]; cbn; [|done].
  case_bool_decide; cbn; [done|].
  apply lookup_delete_eq.
Qed.

Lemma save_none_idem a s :
  savePendingBurn a None (savePendingBurn a None s) = savePendingBurn a None s.
Proof.
  destruct s as [data|]; cbn; [|done].
  case_bool_decide as Hsz; cbn; [done|].
  rewrite delete_delete_eq. by rewrite bool_decide_false.
Qed.

(** Clearing the record of [a] leaves every other key alone. *)
Lemma load_save_none_other a b s :
  toLowerCase a <> toLowerCase b ->
  loadPendingBurn b (savePendingBurn a None s) = loadPendingBurn b s.
Proof.
  intros Hne. destruct s as [data|]; cbn; [|done].
  case_bool_decide as Hsz; cbn.
  - apply map_size_empty_iff in Hsz.
    rewrite <- (lookup_delete_ne data (toLowerCase a) (toLowerCase b)) by done.
    rewrite Hsz. by rewrite lookup_empty.
  - by rewrite lookup_delete_ne.
Qed.

(** Writing the record of [a] drops every other key. *)
Lemma load_save_some_other a b r s :
  toLowerCase a <> toLowerCase b ->
  loadPendingBurn b (savePendingBurn a (Some r) s) = None.
Proof. intros Hne. cbn. by apply lookup_singleton_ne. Qed.

(** ** Rules for the invariants *)

Section Rules.

Context (I : World -> Prop).

Lemma clean_ret {A} (a : A) : clean I (ret a).
Proof. intros w H. exact H. Qed.

Lemma clean_throw {A} msg : clean I (@throw A msg).
Proof. intros w H. exact H. Qed.

Lemma clean_gets {A} (f : World -> A) : clean I (gets f).
Proof. intros w H. exact H. Qed.

Lemma clean_modify f : (forall w, I w -> I (f w)) -> clean I (modify f).
Proof. intros Hf w H. apply Hf, H. Qed.

Lemma clean_bind {A B} (c : M A) (k : A -> M B) :
  clean I c -> (forall x, clean I (k x)) -> clean I (c ≫= k).
Proof.
  intros Hc Hk w H. specialize (Hc w H).
  unfold mbind, M_bind, bind. destruct (c w) as [a w'|m w'|w']; cbn in *; auto.
  apply Hk, Hc.
Qed.

Lemma clean_try {A} (c : M A) (h : string -> M A) :
  clean I c -> (forall m, clean I (h m)) -> clean I (try_catch c h).
Proof.
  intros Hc Hh w H. specialize (Hc w H).
  unfold try_catch. destruct (c w) as [a w'|m w'|w']; cbn in *; auto.
  apply Hh, Hc.
Qed.

Lemma clean_await {A} (o : Outcome A) :
  (forall w, I w -> I (tick w)) -> clean I (await o).
Proof.
  intros Ht w H. unfold await.
  destruct (alive w) as [[|n]|]; destruct o; cbn; auto.
Qed.

Lemma loose_of_clean {A} (c : M A) : clean I c -> loose I c.
Proof. intros Hc w H. specialize (Hc w H). destruct (c w); cbn in *; auto. Qed.

Lemma loose_of_inert {A} (c : M A) : inert c -> loose I c.
Proof. intros Hc w H. destruct (Hc w) as (a & w' & ->). exact Logic.I. Qed.

Lemma loose_bind {A B} (c : M A) (k : A -> M B) :
  clean I c -> (forall x, loose I (k x)) -> loose I (c ≫= k).
Proof.
  intros Hc Hk w H. specialize (Hc w H).
  unfold mbind, M_bind, bind. destruct (c w) as [a w'|m w'|w']; cbn in *; auto.
  apply Hk, Hc.
Qed.

Lemma loose_try {A} (c : M A) (h : string -> M A) :
  loose I c -> (forall m, loose I (h m)) -> loose I (try_catch c h).
Proof.
  intros Hc Hh w H. specialize (Hc w H).
  unfold try_catch. destruct (c w) as [a w'|m w'|w']; cbn in *; auto.
  apply Hh, Hc.
Qed.

End Rules.

Lemma inert_ret {A} (a : A) : inert (ret a).
Proof. intros w. by eexists _, _. Qed.

Lemma inert_gets {A} (f : World -> A) : inert (gets f).
Proof. intros w. by eexists _, _. Qed.

Lemma inert_modify f : inert (modify f).
Proof. intros w. by eexists _, _. Qed.

Lemma inert_bind {A B} (c : M A) (k : A -> M B) :
  inert c -> (forall x, inert (k x)) -> inert (c ≫= k).
Proof.
  intros Hc Hk w. destruct (Hc w) as (a & w' & Hw).
  unfold mbind, M_bind, bind. rewrite Hw. apply Hk.
Qed.

(** Structural steps shared by the proofs below. *)
Ltac unfold_prims :=
  unfold toast, emit, setState, setAttestationStatus, setRefs, save,
    trackSiteBridge, sleep, throwIf, liftOutcome.

Ltac inert_step :=
  lazymatch goal with
  | |- inert (_ ≫= _) => apply inert_bind; [|intros ?]
  | |- inert (ret _) => apply inert_ret
  | |- inert (gets _) => apply inert_gets
  | |- inert (modify _) => apply inert_modify
  | |- inert (if ?b then _ else _) => destruct b
  | |- inert (match ?x with _ => _ end) => destruct x
  | |- inert _ => progress unfold_prims
  end.

Ltac clean_step side :=
  lazymatch goal with
  | |- clean _ (_ ≫= _) => apply clean_bind; [|intros ?]
  | |- clean _ (try_catch _ _) => apply clean_try; [|intros ?]
  | |- clean _ (ret _) => apply clean_ret
  | |- clean _ (throw _) => apply clean_throw
  | |- clean _ (gets _) => apply clean_gets
  | |- clean _ (await _) => apply clean_await; side
  | |- clean _ (modify _) => apply clean_modify; side
  | |- clean _ (if ?b then _ else _) => destruct b
  | |- clean _ (match ?x with _ => _ end) => destruct x
  | |- clean _ _ => first [ assumption | progress unfold_prims | progress cbv zeta ]
  end.

(** *** Computations that neither store nor mint

    They keep every invariant that the primitive updates other than
    [save] and the two mint events keep. *)

Section Quiet.

Context (env : Env) (I : World -> Prop).
Hypothesis I_tick : forall w, I w -> I (tick w).
Hypothesis I_hook : forall f w, I w -> I (with_hook f w).
Hypothesis I_status : forall s w, I w -> I (with_status s w).
Hypothesis I_refs : forall f w, I w -> I (with_refs f w).
Hypothesis I_event :
  forall e w, isMintEvent e = false -> I w -> I (with_event e w).

Ltac side :=
  first [ exact I_tick
        | intros ? ?; first [ apply I_hook | apply I_status | apply I_refs
                            | apply I_event; [reflexivity|] ];
          assumption ].

Ltac go := repeat clean_step side.

Lemma clean_awaitFetch r : clean I (awaitFetch r).
Proof. unfold awaitFetch. go. Qed.

Lemma clean_fetchAttestation d h : clean I (fetchAttestation env d h).
Proof. unfold fetchAttestation. go. apply clean_awaitFetch. Qed.

Lemma clean_findMessage ds h : clean I (findMessage env ds h).
Proof.
  induction ds as [|[d dir] ds IH]; cbn [findMessage]; go.
  apply clean_fetchAttestation.
Qed.

Lemma clean_awaitSwitch fuel n target : clean I (awaitSwitch env fuel n target).
Proof.
  revert n. induction fuel as [|fuel IH]; intros n; cbn [awaitSwitch]; go.
  apply IH.
Qed.

Lemma clean_claimPrepare pb : clean I (claimPrepare env pb).
Proof.
  unfold claimPrepare. go;
    first [ apply clean_findMessage | apply clean_awaitSwitch ].
Qed.

Lemma clean_pollAttestation fuel n h : clean I (pollAttestation env fuel n h).
Proof.
  revert n. induction fuel as [|fuel IH]; intros n; cbn [pollAttestation]; go;
    first [ apply clean_awaitFetch | apply IH ].
Qed.

Lemma clean_withClient {A} n (c : M A) : clean I c -> clean I (withClient env n c).
Proof. intros Hc. unfold withClient. go. Qed.

Lemma clean_directBurn a p : clean I (directBurn env a p).
Proof.
  unfold directBurn. go; apply clean_withClient; go.
Qed.

Lemma clean_ensureSourceNetwork p : clean I (ensureSourceNetwork env p).
Proof. unfold ensureSourceNetwork. go. Qed.

Lemma clean_onProgress p pg : clean I (onProgress p pg).
Proof. unfold onProgress. go. Qed.

Lemma clean_forEach {A} (f : A -> M unit) l :
  (forall x, clean I (f x)) -> clean I (forEach f l).
Proof. intros Hf. induction l as [|x l IH]; cbn [forEach]; go. apply Hf. Qed.

Lemma clean_runKit p : clean I (runKit env p).
Proof.
  unfold runKit. go. apply clean_forEach. intros; apply clean_onProgress.
Qed.

Lemma clean_attestationPresent p h : clean I (attestationPresent env p h).
Proof. unfold attestationPresent. go. apply clean_fetchAttestation. Qed.

End Quiet.

(** *** Invariants of the stored data

    [J] is a property of the stored item that clearing the record of [a]
    keeps. *)

Section Stored.

Context (env : Env) (a : string) (J : Storage -> Prop).
Hypothesis J_clear : forall s, J s -> J (savePendingBurn a None s).

Local Abbreviation I := (fun w : World => J (storage w)).

Ltac side :=
  first [ solve [intros ? H; exact H]
        | solve [intros ? H; apply J_clear; exact H] ].

Ltac quiet :=
  first [ apply clean_awaitFetch | apply clean_fetchAttestation
        | apply clean_findMessage | apply clean_awaitSwitch
        | apply clean_claimPrepare | apply clean_pollAttestation
        | apply clean_directBurn | apply clean_ensureSourceNetwork
        | apply clean_runKit | apply clean_attestationPresent
        | apply clean_withClient ];
  try solve [intros; assumption].

Ltac go := repeat first [ clean_step side | quiet ].

Ltac still := solve [ repeat inert_step ].

Ltac loose_step :=
  first
    [ apply loose_of_inert; still
    | apply loose_of_clean; solve [go]
    | lazymatch goal with
      | |- loose _ (_ ≫= _) => apply loose_bind; [solve [go]|intros ?]
      | |- loose _ (try_catch _ _) => apply loose_try; [|intros ?]
      | |- loose _ (if ?b then _ else _) => destruct b
      | |- loose _ (match ?x with _ => _ end) => destruct x
      | |- loose _ _ => progress cbv zeta
      end ].

Lemma clean_directMintCatch p h msg : clean I (directMintCatch env a p h msg).
Proof. unfold directMintCatch. go. Qed.

Lemma clean_directMint p h m att : clean I (directMint env a p h m att).
Proof. unfold directMint. go. apply clean_directMintCatch. Qed.

Lemma inert_attestationTimeout p h : inert (attestationTimeout env a p h).
Proof. unfold attestationTimeout. still. Qed.

Lemma inert_bridgeCatch p msg : inert (bridgeCatch env a p msg).
Proof. unfold bridgeCatch. still. Qed.

Lemma loose_directAfterBurn p h : loose I (directAfterBurn env a p h).
Proof.
  unfold directAfterBurn.
  repeat first [ apply loose_of_clean, clean_directMint
               | apply loose_of_inert, inert_attestationTimeout
               | loose_step ].
Qed.

Lemma loose_directBridge p : loose I (directBridge env a p).
Proof.
  unfold directBridge. apply loose_bind; [go|intros h].
  apply loose_directAfterBurn.
Qed.

Lemma loose_afterKit p result : loose I (afterKit env a p result).
Proof. unfold afterKit. repeat loose_step. Qed.

Lemma loose_bridgeBody p : loose I (bridgeBody env a p).
Proof.
  unfold bridgeBody.
  repeat first [ apply loose_directBridge | apply loose_afterKit | loose_step ].
Qed.

(** What [bridge] does once the guards have passed and the old record has
    been cleared. *)
Lemma loose_bridge_started p w :
  bridgeGuards env p = Ok a ->
  I (with_storage (savePendingBurn a None) w) ->
  match bridge env p w with
  | Done _ _ => True
  | Thrown _ w' | Halted w' => I w'
  end.
Proof.
  intros Hg HI. unfold bridge. rewrite Hg.
  match goal with
  | |- context [ (save a None ≫= ?k) w ] =>
      change ((save a None ≫= k) w) with (k tt (with_storage (savePendingBurn a None) w));
      assert (Hk : loose I (k tt))
  end.
  { repeat first [ apply loose_bridgeBody
                 | apply loose_of_inert, inert_bridgeCatch
                 | loose_step ]. }
  exact (Hk _ HI).
Qed.

End Stored.

(** ** Rules for runs to completion *)

Lemma tick_none w : alive w = None -> tick w = w.
Proof. destruct w; cbn; intros ->; reflexivity. Qed.

Lemma calm_refl w : calm w w.
Proof. by repeat apply conj. Qed.

Lemma calm_trans w1 w2 w3 : calm w1 w2 -> calm w2 w3 -> calm w1 w3.
Proof.
  intros (?&?&?&?&?&?) (?&?&?&?&?&?). repeat apply conj; congruence.
Qed.

Lemma calm_event e w : isMintEvent e = false -> calm w (with_event e w).
Proof.
  intros He. repeat apply conj; try reflexivity.
  unfold mintEvents; cbn. by rewrite He.
Qed.

Lemma wpd_ret {A} (a : A) w Q : Q a w -> wpd (ret a) w Q.
Proof. intros H. by exists a, w. Qed.

Lemma wpd_modify f w Q : Q tt (f w) -> wpd (modify f) w Q.
Proof. intros H. by exists tt, (f w). Qed.

Lemma wpd_gets {A} (f : World -> A) w Q : Q (f w) w -> wpd (gets f) w Q.
Proof. intros H. by exists (f w), w. Qed.

Lemma wpd_await {A} (o : Outcome A) a w Q :
  alive w = None -> o = Ok a -> Q a w -> wpd (await o) w Q.
Proof.
  intros Hw -> H. exists a, w. split; [|done].
  unfold await. rewrite Hw. by rewrite tick_none.
Qed.

Lemma wpd_bind {A B} (c : M A) (k : A -> M B) w Q :
  wpd c w (fun a w' => wpd (k a) w' Q) -> wpd (c ≫= k) w Q.
Proof.
  intros (a & w' & Hc & b & w'' & Hk & HQ). exists b, w''. split; [|done].
  unfold mbind, M_bind, bind. by rewrite Hc.
Qed.

Lemma wpd_seq {A B} (c : M A) (k : A -> M B) w P Q :
  wpd c w P -> (forall a w', P a w' -> wpd (k a) w' Q) -> wpd (c ≫= k) w Q.
Proof.
  intros (a & w' & Hc & HP) Hk. apply wpd_bind. exists a, w'. eauto.
Qed.

Lemma wpd_try {A} (c : M A) h w Q : wpd c w Q -> wpd (try_catch c h) w Q.
Proof.
  intros (a & w' & Hc & HQ). exists a, w'. split; [|done].
  unfold try_catch. by rewrite Hc.
Qed.

Lemma wpd_caught {A} (c : M A) h w msg w' Q :
  c w = Thrown msg w' -> wpd (h msg) w' Q -> wpd (try_catch c h) w Q.
Proof.
  intros Hc (a & w'' & Hh & HQ). exists a, w''. split; [|done].
  unfold try_catch. by rewrite Hc.
Qed.

Lemma wpd_mono {A} (c : M A) w (P Q : A -> World -> Prop) :
  wpd c w P -> (forall a w', P a w' -> Q a w') -> wpd c w Q.
Proof. intros (a & w' & Hc & HP) H. exists a, w'. eauto. Qed.

Ltac is_prim c :=
  lazymatch c with
  | _ ≫= _ => idtac
  | ret _ => idtac
  | modify _ => idtac
  | gets _ => idtac
  | toast _ _ => idtac
  | emit _ => idtac
  | setState _ => idtac
  | setAttestationStatus _ => idtac
  | setRefs _ => idtac
  | save _ _ => idtac
  | trackSiteBridge _ _ => idtac
  | await _ => idtac
  | sleep => idtac
  | try_catch _ _ => idtac
  | if _ then _ else _ => idtac
  end.

Ltac wstep :=
  lazymatch goal with
  | |- wpd (?c ≫= _) _ _ => is_prim c; apply wpd_bind
  | |- wpd (ret _) _ _ => apply wpd_ret; cbv beta
  | |- wpd (modify _) _ _ => apply wpd_modify; cbv beta
  | |- wpd (gets _) _ _ => apply wpd_gets; cbv beta
  | |- wpd (toast _ _) _ _ => apply wpd_modify; cbv beta
  | |- wpd (emit _) _ _ => apply wpd_modify; cbv beta
  | |- wpd (setState _) _ _ => apply wpd_modify; cbv beta
  | |- wpd (setAttestationStatus _) _ _ => apply wpd_modify; cbv beta
  | |- wpd (setRefs _) _ _ => apply wpd_modify; cbv beta
  | |- wpd (save _ _) _ _ => apply wpd_modify; cbv beta
  | |- wpd (trackSiteBridge _ _) _ _ => apply wpd_modify; cbv beta
  | |- wpd (await _) _ _ =>
      eapply wpd_await; [ done | first [ reflexivity | eassumption ] | cbv beta ]
  | |- wpd sleep _ _ =>
      eapply wpd_await; [ done | reflexivity | cbv beta ]
  | |- wpd (if _ then _ else _) _ _ => progress cbn [negb]
  end.

Ltac wsteps := repeat wstep.

(** ** Rules for outcomes *)

Lemma out_ret {A} (a : A) w Q E H : Q a w -> outcome (ret a) w Q E H.
Proof. done. Qed.

Lemma out_throw {A} msg w (Q : A -> World -> Prop) E H :
  E msg w -> outcome (throw msg) w Q E H.
Proof. done. Qed.

Lemma out_modify f w Q E H : Q tt (f w) -> outcome (modify f) w Q E H.
Proof. done. Qed.

Lemma out_gets {A} (f : World -> A) w Q E H :
  Q (f w) w -> outcome (gets f) w Q E H.
Proof. done. Qed.

Lemma out_await {A} (o : Outcome A) w Q E (H : World -> Prop) :
  (alive w = Some 0%nat -> H w) ->
  (forall a, o = Ok a -> Q a (tick w)) ->
  (forall msg, o = Err msg -> E msg (tick w)) ->
  outcome (await o) w Q E H.
Proof.
  intros HH HQ HE. unfold outcome, await.
  destruct (alive w) as [[|n]|]; [by apply HH| |]; destruct o; auto.
Qed.

Lemma out_bind {A B} (c : M A) (k : A -> M B) w Q E H :
  outcome c w (fun a w' => outcome (k a) w' Q E H) E H ->
  outcome (c ≫= k) w Q E H.
Proof.
  unfold outcome, mbind, M_bind, bind. by destruct (c w).
Qed.

Lemma out_try {A} (c : M A) h w Q E H :
  outcome c w Q (fun msg w' => outcome (h msg) w' Q E H) H ->
  outcome (try_catch c h) w Q E H.
Proof. unfold outcome, try_catch. by destruct (c w). Qed.

(** A computation that keeps [I] ends in a world where [I] holds. *)
Lemma out_clean {A} (I : World -> Prop) (c : M A) w Q E (H : World -> Prop) :
  clean I c -> I w ->
  (forall a w', I w' -> Q a w') ->
  (forall msg w', I w' -> E msg w') ->
  (forall w', I w' -> H w') ->
  outcome c w Q E H.
Proof.
  intros Hc HI HQ HE HH. specialize (Hc w HI). unfold outcome.
  destruct (c w); cbn in Hc; auto.
Qed.

Lemma out_mono {A} (c : M A) w (Q Q' : A -> World -> Prop)
    (E E' : string -> World -> Prop) (H H' : World -> Prop) :
  outcome c w Q E H ->
  (forall a w', Q a w' -> Q' a w') ->
  (forall msg w', E msg w' -> E' msg w') ->
  (forall w', H w' -> H' w') ->
  outcome c w Q' E' H'.
Proof. unfold outcome. destruct (c w); auto. Qed.

Lemma out_done {A} (c : M A) w (Q : A -> World -> Prop) :
  outcome c w Q (fun _ _ => False) (fun _ => False) -> wpd c w Q.
Proof. unfold outcome, wpd. destruct (c w); [eauto|done..]. Qed.

Lemma out_final {A} (c : M A) w (P : World -> Prop) :
  outcome c w (fun _ => P) (fun _ => P) P -> P (final (c w)).
Proof. unfold outcome. by destruct (c w). Qed.

Lemma out_await_ok {A} (o : Outcome A) a w Q E (H : World -> Prop) :
  alive w = None -> o = Ok a -> Q a w -> outcome (await o) w Q E H.
Proof.
  intros Hw -> HQ. unfold outcome, await. rewrite Hw. by rewrite tick_none.
Qed.

Lemma out_thrown {A} (c : M A) w (E : string -> World -> Prop) :
  outcome c w (fun _ _ => False) E (fun _ => False) ->
  exists msg w', c w = Thrown msg w' /\ E msg w'.
Proof. unfold outcome. destruct (c w); [done|eauto|done]. Qed.

Ltac ostep :=
  lazymatch goal with
  | |- outcome (?c ≫= _) _ _ _ _ => is_prim c; apply out_bind
  | |- outcome (ret _) _ _ _ _ => apply out_ret; cbv beta
  | |- outcome (throw _) _ _ _ _ => apply out_throw; cbv beta
  | |- outcome (modify _) _ _ _ _ => apply out_modify; cbv beta
  | |- outcome (gets _) _ _ _ _ => apply out_gets; cbv beta
  | |- outcome (toast _ _) _ _ _ _ => apply out_modify; cbv beta
  | |- outcome (emit _) _ _ _ _ => apply out_modify; cbv beta
  | |- outcome (setState _) _ _ _ _ => apply out_modify; cbv beta
  | |- outcome (setAttestationStatus _) _ _ _ _ => apply out_modify; cbv beta
  | |- outcome (setRefs _) _ _ _ _ => apply out_modify; cbv beta
  | |- outcome (save _ _) _ _ _ _ => apply out_modify; cbv beta
  | |- outcome (await _) _ _ _ _ =>
      apply out_await; [intros ?|intros ? ?|intros ? ?]; cbv beta
  | |- outcome (try_catch _ _) _ _ _ _ => apply out_try
  | |- outcome (if ?b then _ else _) _ _ _ _ => destruct b
  end.

(** Steps through awaits whose answers are known and that are not
    interrupted. *)
Ltac kstep :=
  lazymatch goal with
  | |- outcome (?c ≫= _) _ _ _ _ => is_prim c; apply out_bind
  | |- outcome (ret _) _ _ _ _ => apply out_ret; cbv beta
  | |- outcome (throw _) _ _ _ _ => apply out_throw; cbv beta
  | |- outcome (modify _) _ _ _ _ => apply out_modify; cbv beta
  | |- outcome (gets _) _ _ _ _ => apply out_gets; cbv beta
  | |- outcome (toast _ _) _ _ _ _ => apply out_modify; cbv beta
  | |- outcome (emit _) _ _ _ _ => apply out_modify; cbv beta
  | |- outcome (setState _) _ _ _ _ => apply out_modify; cbv beta
  | |- outcome (setAttestationStatus _) _ _ _ _ => apply out_modify; cbv beta
  | |- outcome (setRefs _) _ _ _ _ => apply out_modify; cbv beta
  | |- outcome (save _ _) _ _ _ _ => apply out_modify; cbv beta
  | |- outcome (await _) _ _ _ _ =>
      eapply out_await_ok;
      [ done | first [ reflexivity | eassumption ] | cbv beta ]
  | |- outcome (if _ then _ else _) _ _ _ _ => progress cbn [negb]
  end.

Ltac same_storage H :=
  cbn [storage with_event with_hook with_status with_refs tick] in H.

(** ** The direct path up to the confirmed burn *)

Lemma run_ensureSourceNetwork env p w :
  chainId_is (accountChainId env) (chainIdOf env (bp_fromNetwork p)) = true
  \/ hasSwitchChain env = false
  \/ switchChain env (chainIdOf env (bp_fromNetwork p)) = Ok tt ->
  alive w = None ->
  wpd (ensureSourceNetwork env p) w (fun b w' => b = true /\ calm w w').
Proof.
  intros Hnet Hw. unfold ensureSourceNetwork.
  destruct (chainId_is _ _) eqn:Hc; cbn [negb].
  { wsteps. split; [done|apply calm_refl]. }
  destruct Hnet as [Hnet|[Hnet|Hnet]]; [done| |].
  - rewrite Hnet. apply wpd_try. wsteps.
    split; [done|apply calm_refl].
  - apply wpd_try. destruct (hasSwitchChain env).
    + wsteps. split; [done|]. by apply calm_event.
    + wsteps. split; [done|apply calm_refl].
Qed.

Lemma guards_walletClient env p a :
  bridgeGuards env p = Ok a -> hasWalletClient env = true.
Proof.
  unfold bridgeGuards. destruct (truthy (address env)); [|done].
  destruct (isConnected env), (hasConnectorClient env), (hasWalletClient env);
    done.
Qed.

Lemma guards_address env p a :
  bridgeGuards env p = Ok a -> truthy (address env) = Some a.
Proof.
  unfold bridgeGuards. destruct (truthy (address env)); [|done].
  destruct (negb _); [done|]. destruct (_ || _); [done|].
  destruct (bp_fromNetwork p), (bp_toNetwork p); congruence.
Qed.

Lemma run_directBurn env p a h w :
  ConfirmedBurn env p a h -> alive w = None ->
  wpd (directBurn env a p) w (fun h' w' =>
    h' = h
    /\ storage w' = storage w /\ hook w' = hook w
    /\ attestationStatus w' = attestationStatus w
    /\ refs w' = mkRefs (mintConfirmedRef (refs w)) (mintTxHashRef (refs w))
                        true (Some h) (approvalConfirmedRef (refs w))
                        (approvalStartedRef (refs w)) (approvalTxHashRef (refs w))
    /\ alive w' = None
    /\ mintEvents (log w') = mintEvents (log w)).
Proof.
  intros [[Hg Hfrom Hto Hnet Hprov Had Hcl (amt & al & Hpu & Hal & Happ & Hburn)] Hrc] Hw.
  pose proof (guards_walletClient _ _ _ Hg) as Hwc.
  unfold directBurn, withClient, throwIf, liftOutcome.
  rewrite Hwc, Hpu, Hcl. cbn [negb].
  wsteps.
  destruct (Z.ltb_spec al amt) as [Hlt|Hge].
  - destruct (Happ Hlt) as (h0 & Hat & Har).
    wsteps. by repeat apply conj.
  - wsteps. by repeat apply conj.
Qed.

Lemma await_err {A} msg w :
  alive w = None -> await (@Err A msg) w = Thrown msg w.
Proof. intros Hw. unfold await. rewrite Hw. by rewrite tick_none. Qed.

Lemma bind_thrown {A B} (c : M A) (k : A -> M B) w msg w' :
  c w = Thrown msg w' -> (c ≫= k) w = Thrown msg w'.
Proof. intros Hc. unfold mbind, M_bind, bind. by rewrite Hc. Qed.

Lemma bind_done {A B} (c : M A) (k : A -> M B) w a w' :
  c w = Done a w' -> (c ≫= k) w = k a w'.
Proof. intros Hc. unfold mbind, M_bind, bind. by rewrite Hc. Qed.

(** ** The attestation poll without a usable proof *)

Lemma usable_without_message m :
  usableProof (FetchBody true (Some [m])) = false ->
  usable (md_attestation m) = true ->
  truthy (md_message m) = None.
Proof.
  cbn. intros H Hu. rewrite Hu in H. cbn in H.
  unfold is_truthy in H. by destruct (truthy (md_message m)).
Qed.

Lemma run_pollAttestation env h fuel n w :
  alive w = None ->
  (forall k, (n < k <= n + fuel)%nat -> usableProof (poll env k) = false) ->
  wpd (pollAttestation env fuel n h) w (fun r w' =>
    calm w w'
    /\ match r with
       | Some (m, _) => truthy m = None
       | None => True
       end).
Proof.
  revert n w. induction fuel as [|fuel IH]; intros n w Hw Hpoll.
  { cbn [pollAttestation]. wsteps. split; [apply calm_refl|done]. }
  cbn [pollAttestation]. wsteps.
  set (w1 := with_event (Toast TLoading "Waiting for attestation...") w).
  assert (Hc1 : calm w (with_event (Fetch 0 (Some h)) w1)).
  { eapply calm_trans; by apply calm_event. }
  assert (Hnext : forall w2, calm w w2 ->
            wpd (pollAttestation env fuel (S n) h) w2 (fun r w' =>
              calm w w'
              /\ match r with
                 | Some (m, _) => truthy m = None
                 | None => True
                 end)).
  { intros w2 Hc2. eapply wpd_mono.
    - apply IH; [destruct Hc2 as (_&_&_&_&Ha&_); congruence|].
      intros k Hk. apply Hpoll. lia.
    - intros r w' [Hc Hr]. split; [by eapply calm_trans|done]. }
  specialize (Hpoll (S n) ltac:(lia)).
  unfold awaitFetch.
  destruct (poll env (S n)) as [|ok ms] eqn:Hp.
  - eapply wpd_caught.
    { erewrite bind_done by reflexivity. apply bind_thrown.
      by apply await_err. }
    wsteps. by apply Hnext.
  - apply wpd_try. wsteps. cbn [fst snd].
    destruct ok; cbn [negb]; [|wsteps; by apply Hnext].
    destruct ms as [[|m ms]|]; cbn [first_message]; try (wsteps; by apply Hnext).
    destruct (usable (md_attestation m)) eqn:Hu; [|wsteps; by apply Hnext].
    wsteps. split; [done|].
    apply usable_without_message; [|done].
    cbn in Hpoll |- *. exact Hpoll.
Qed.

Lemma calm_alive w w' : calm w w' -> alive w = None -> alive w' = None.
Proof. intros (_&_&_&_&Ha&_) Hw. congruence. Qed.

Lemma run_directAfterBurn_timeout env p a h w :
  alive w = None ->
  (forall k, (1 <= k <= MAX_ATTEMPTS)%nat -> usableProof (poll env k) = false) ->
  wpd (directAfterBurn env a p h) w (fun _ w' =>
    storage w'
    = savePendingBurn a (Some (newPendingBurn env (Some h) p)) (storage w)
    /\ hook w'
       = mkHookState false (isClaiming (hook w)) (error (hook w))
                     (mintConfirmed (hook w))
                     (Some (newPendingBurn env (Some h) p))
    /\ attestationStatus w' = Some PendingMint
    /\ mintEvents (log w') = mintEvents (log w)
    /\ head (log w')
       = Some (Toast TWarning "Attestation taking longer than expected")).
Proof.
  intros Hw Hpoll. unfold directAfterBurn. wsteps.
  eapply wpd_seq.
  { apply run_pollAttestation; [done|].
    intros k Hk. apply Hpoll. lia. }
  intros r w' [Hc Hr]. cbv beta in Hc.
  assert (Hend : wpd (attestationTimeout env a p h) w' (fun _ w'0 =>
    storage w'0
    = savePendingBurn a (Some (newPendingBurn env (Some h) p)) (storage w)
    /\ hook w'0
       = mkHookState false (isClaiming (hook w)) (error (hook w))
                     (mintConfirmed (hook w))
                     (Some (newPendingBurn env (Some h) p))
    /\ attestationStatus w'0 = Some PendingMint
    /\ mintEvents (log w'0) = mintEvents (log w)
    /\ head (log w'0)
       = Some (Toast TWarning "Attestation taking longer than expected"))).
  { destruct Hc as (Hs & Hh & _ & _ & _ & Hm).
    unfold attestationTimeout. wsteps. cbn.
    cbn in Hs, Hh, Hm. rewrite Hh. by repeat apply conj. }
  destruct r as [[m att]|]; [|exact Hend].
  rewrite Hr. exact Hend.
Qed.

Lemma run_bridge_timeout env p a h w :
  ConfirmedBurn env p a h ->
  alive w = None ->
  (forall k, (1 <= k <= MAX_ATTEMPTS)%nat -> usableProof (poll env k) = false) ->
  wpd (bridge env p) w (fun _ w' =>
    storage w' = savePendingBurn a (Some (newPendingBurn env (Some h) p)) None
    /\ hook w' = mkHookState false false None false
                             (Some (newPendingBurn env (Some h) p))
    /\ attestationStatus w' = Some PendingMint
    /\ mintEvents (log w') = mintEvents (log w)
    /\ head (log w')
       = Some (Toast TWarning "Attestation taking longer than expected")).
Proof.
  intros Hcb Hw Hpoll.
  pose proof Hcb as [[Hg Hfrom Hto Hnet Hprov Had Hcl _] _].
  unfold bridge. rewrite Hg. wsteps.
  eapply wpd_seq; [by apply run_ensureSourceNetwork|].
  intros b w1 [-> Hc1]. apply wpd_try.
  pose proof (calm_alive _ _ Hc1 Hw) as Hw1.
  unfold bridgeBody, throwIf. rewrite Hprov, Hfrom, Hto. cbn [negb].
  wsteps. unfold directBridge.
  eapply wpd_seq; [by apply run_directBurn|].
  intros h' w2 (-> & Hs2 & Hh2 & Ht2 & Hr2 & Hw2 & Hm2).
  eapply wpd_mono; [by apply run_directAfterBurn_timeout|].
  intros _ w3 (Hs3 & Hh3 & Ht3 & Hm3 & Hl3).
  destruct Hc1 as (Hs1 & Hh1 & _ & _ & _ & Hm1).
  cbn in Hs1, Hh1, Hm1.
  rewrite Hs3, Hh3, Hh2, Hh1, Hm3, Hm2, Hm1. cbn. by repeat apply conj.
Qed.

(** C3. Attestation timeout is non-destructive: when the burn of a direct
    transfer is confirmed and none of the 150 polls returns a usable
    proof, [bridge] ends normally with the record for the burn in the
    store, the status [pending_mint], no error, a warning as its last
    toast, and no mint call or mint transaction added to the log. *)
Theorem attestation_timeout_is_non_destructive env p a h w :
  ConfirmedBurn env p a h ->
  alive w = None ->
  (forall k, (1 <= k <= MAX_ATTEMPTS)%nat -> usableProof (poll env k) = false) ->
  exists w',
    bridge env p w = Done tt w'
    /\ loadPendingBurn a (storage w') = Some (newPendingBurn env (Some h) p)
    /\ txHash (newPendingBurn env (Some h) p) = Some h
    /\ attestationStatus w' = Some PendingMint
    /\ error (hook w') = None
    /\ isBridging (hook w') = false
    /\ pendingBurn (hook w') = Some (newPendingBurn env (Some h) p)
    /\ head (log w')
       = Some (Toast TWarning "Attestation taking longer than expected")
    /\ mintEvents (log w') = mintEvents (log w).
Proof.
  intros Hcb Hw Hpoll.
  destruct (run_bridge_timeout env p a h w Hcb Hw Hpoll)
    as ([] & w' & Hrun & Hs & Hh & Ht & Hm & Hl).
  exists w'. split; [exact Hrun|].
  rewrite Hs, Hh, load_save_some. by repeat apply conj.
Qed.

Lemma scenario_sent after receipt polls api mint :
  BurnSent (scenario SEPOLIA_ID after receipt polls api mint)
           toArc addrA hashAA.
Proof.
  constructor; try reflexivity.
  - by left.
  - exists 5000000, 0. repeat apply conj; try reflexivity.
    intros _. by exists "0xa1".
Qed.

Lemma scenario_confirmed after polls api mint :
  ConfirmedBurn (scenario SEPOLIA_ID after (Ok true) polls api mint)
                toArc addrA hashAA.
Proof. split; [apply scenario_sent|reflexivity]. Qed.

Lemma attestation_timeout_is_non_destructive_witness :
  exists w',
    bridge timeoutEnv toArc freshWorld = Done tt w'
    /\ loadPendingBurn addrA (storage w')
       = Some (mkPendingBurn (Some hashAA) ethereumSepolia arcTestnet "5"
                             1700000000000)
    /\ txHash (mkPendingBurn (Some hashAA) ethereumSepolia arcTestnet "5"
                             1700000000000) = Some hashAA
    /\ attestationStatus w' = Some PendingMint
    /\ error (hook w') = None
    /\ isBridging (hook w') = false
    /\ pendingBurn (hook w')
       = Some (mkPendingBurn (Some hashAA) ethereumSepolia arcTestnet "5"
                             1700000000000)
    /\ head (log w')
       = Some (Toast TWarning "Attestation taking longer than expected")
    /\ mintEvents (log w') = [].
Proof.
  apply (attestation_timeout_is_non_destructive
           timeoutEnv toArc addrA hashAA freshWorld).
  - apply scenario_confirmed.
  - reflexivity.
  - intros k _. reflexivity.
Defined.

(** ** The relayer fee *)



(** ** Restore *)

(** C8. A string that does not start with [0x] or is not exactly 66
    characters long makes [restorePendingBurn] return a failure at once:
    the world is unchanged, so no request was sent and no record was
    created. *)
Theorem restore_rejects_malformed_hash env burnTxHash w :
  ~ (startsWith burnTxHash "0x" = true /\ String.length burnTxHash = 66%nat) ->
  exists r,
    restorePendingBurn env burnTxHash w = Done r w
    /\ success r = false.
Proof.
  intros Hbad. unfold restorePendingBurn.
  destruct (String.eqb burnTxHash "" || negb (startsWith burnTxHash "0x")) eqn:Hp.
  { eexists. split; reflexivity. }
  apply orb_false_iff in Hp as [_ Hp]. apply negb_false_iff in Hp.
  destruct (Nat.eqb (String.length burnTxHash) 66) eqn:Hl; cbn [negb].
  { apply Nat.eqb_eq in Hl. destruct Hbad. by split. }
  eexists. split; reflexivity.
Qed.

Lemma restore_rejects_malformed_hash_witness :
  exists r,
    restorePendingBurn timeoutEnv "0xbb" (worldWith addrA recordAA)
    = Done r (worldWith addrA recordAA)
    /\ success r = false.
Proof.
  apply (restore_rejects_malformed_hash timeoutEnv "0xbb" (worldWith addrA recordAA)).
  intros [_ Hlen]. discriminate Hlen.
Defined.

(** ** The store is not independent per address *)

(** C9, the store as the code has it: writing the record of one address
    replaces the whole stored object, so the record of another address is
    lost; only clearing leaves the other keys alone. *)
Theorem savePendingBurn_drops_other_addresses :
  loadPendingBurn addrB (savePendingBurn addrB (Some recordBB) None)
  = Some recordBB
  /\ loadPendingBurn addrB
       (savePendingBurn addrA (Some recordAA)
          (savePendingBurn addrB (Some recordBB) None))
     = None.
Proof. split; reflexivity. Qed.

(** ** When the record of a transfer is written *)

Lemma directBurn_reverted env p a h w :
  BurnSent env p a h ->
  burnReceipt env h = Ok false ->
  alive w = None ->
  outcome (directBurn env a p) w (fun _ _ => False)
    (fun msg w' =>
       msg = "Bridge transaction failed"
       /\ storage w' = storage w
       /\ refs w' = mkRefs (mintConfirmedRef (refs w)) (mintTxHashRef (refs w))
                           true (Some h) (approvalConfirmedRef (refs w))
                           (approvalStartedRef (refs w))
                           (approvalTxHashRef (refs w))
       /\ alive w' = None)
    (fun _ => False).
Proof.
  intros [Hg Hfrom Hto Hnet Hprov Had Hcl (amt & al & Hpu & Hal & Happ & Hburn)]
         Hrc Hw.
  pose proof (guards_walletClient _ _ _ Hg) as Hwc.
  unfold directBurn, withClient, throwIf, liftOutcome.
  rewrite Hwc, Hpu, Hcl. cbn [negb].
  repeat kstep.
  destruct (Z.ltb_spec al amt) as [Hlt|Hge].
  - destruct (Happ Hlt) as (h0 & Hat & Har).
    repeat kstep. by repeat apply conj.
  - repeat kstep. by repeat apply conj.
Qed.

(** The defect behind C1 in general: whenever the burn of a direct
    transfer is sent and its receipt reports a failure, an uninterrupted
    [bridge] stores a record for the failed burn. *)
Lemma failed_burn_is_persisted env p a h w :
  BurnSent env p a h ->
  burnReceipt env h = Ok false ->
  String.eqb h "" = false ->
  alive w = None ->
  exists w',
    bridge env p w = Done tt w'
    /\ loadPendingBurn a (storage w') = Some (newPendingBurn env (Some h) p)
    /\ attestationStatus w' = Some PendingMint
    /\ head (log w') = Some (Toast TWarning "Your funds are safe!").
Proof.
  intros Hbs Hrc Hh Hw.
  pose proof Hbs as [Hg Hfrom Hto Hnet Hprov Had Hcl _].
  assert (Hrun : wpd (bridge env p) w (fun _ w' =>
    loadPendingBurn a (storage w') = Some (newPendingBurn env (Some h) p)
    /\ attestationStatus w' = Some PendingMint
    /\ head (log w') = Some (Toast TWarning "Your funds are safe!"))).
  { unfold bridge. rewrite Hg. wsteps.
    eapply wpd_seq; [by apply run_ensureSourceNetwork|].
    intros b w1 [-> Hc1].
    pose proof (calm_alive _ _ Hc1 Hw) as Hw1.
    destruct Hc1 as (_ & _ & _ & Hr1 & _ & _). cbn in Hr1.
    assert (Hbody : outcome (bridgeBody env a p) w1 (fun _ _ => False)
              (fun msg w' =>
                 msg = "Bridge transaction failed"
                 /\ refs w' = mkRefs false None true (Some h) false false None)
              (fun _ => False)).
    { unfold bridgeBody, throwIf. rewrite Hprov, Hfrom, Hto. cbn [negb].
      repeat kstep. unfold directBridge. apply out_bind.
      eapply out_mono; [by apply directBurn_reverted| | |]; try done.
      intros msg w2 (-> & _ & Hr2 & _). split; [done|].
      rewrite Hr2, Hr1. reflexivity. }
    apply out_thrown in Hbody as (msg & w2 & Hbody & -> & Hr2).
    eapply wpd_caught; [exact Hbody|].
    unfold bridgeCatch.
    change (String.eqb "Bridge transaction failed" "") with false.
    cbv iota zeta.
    replace (isNetworkError _) with false by (vm_compute; reflexivity).
    wsteps. rewrite Hr2.
    cbn [andb burnConfirmedRef burnTxHashRef mintConfirmedRef].
    unfold is_truthy, truthy. rewrite Hh. wsteps.
    repeat apply conj; try reflexivity. apply load_save_some. }
  destruct Hrun as ([] & w' & Hrun & Hpost). by exists w'.
Qed.

(** C1, the code at a reverted burn: the direct path sets
    [burnConfirmedRef] as soon as the burn transaction is sent, so when the
    receipt reports a failure the outer [catch] takes the burn for
    confirmed and stores a record for it: a record exists for a burn that
    never reached confirmation. *)
Theorem reverted_burn_is_persisted :
  burnReceipt revertedEnv hashAA = Ok false
  /\ exists w',
       bridge revertedEnv toArc freshWorld = Done tt w'
       /\ loadPendingBurn addrA (storage w')
          = Some (mkPendingBurn (Some hashAA) ethereumSepolia arcTestnet "5"
                                1700000000000)
       /\ attestationStatus w' = Some PendingMint
       /\ head (log w') = Some (Toast TWarning "Your funds are safe!").
Proof.
  split; [reflexivity|]. eexists. split; [vm_compute; reflexivity|].
  vm_compute. by repeat apply conj.
Qed.

(** C2 as stated fails: the burn is confirmed (the hook has started to
    wait for the attestation) and the page goes away at the next
    suspension; nothing has been stored. *)
Lemma confirmed_burn_is_lost_on_interruption :
  burnReceipt timeoutEnv hashAA = Ok true
  /\ exists w',
       bridge timeoutEnv toArc (shortLived 6) = Halted w'
       /\ burnTxHashRef (refs w') = Some hashAA
       /\ attestationStatus w' = Some Pending
       /\ loadPendingBurn addrA (storage w') = None.
Proof.
  split; [reflexivity|]. eexists. split; [vm_compute; reflexivity|].
  vm_compute. by repeat apply conj.
Qed.

Lemma bridge_interrupted_without_record env p a w w' :
  bridgeGuards env p = Ok a ->
  bridge env p w = Halted w' ->
  loadPendingBurn a (storage w') = None.
Proof.
  intros Hg Hrun.
  pose proof (loose_bridge_started env a
                (fun s => loadPendingBurn a s = None)
                (fun s _ => load_save_none a s) p w Hg
                (load_save_none a (storage w))) as H.
  rewrite Hrun in H. exact H.
Qed.

(** C2 as amended: a transfer writes its record only when the run ends.
    Whenever [bridge] is interrupted, the store holds no record for the
    initiator; when the burn of a direct transfer is confirmed and the
    polls end without a usable proof, the run ends with a stored record
    that carries the hash of the burn. *)
Theorem record_is_persisted_when_polling_ends env p a w :
  bridgeGuards env p = Ok a ->
  (forall w', bridge env p w = Halted w' ->
     loadPendingBurn a (storage w') = None)
  /\ (forall h,
        ConfirmedBurn env p a h ->
        alive w = None ->
        (forall k, (1 <= k <= MAX_ATTEMPTS)%nat ->
                   usableProof (poll env k) = false) ->
        exists w' r,
          bridge env p w = Done tt w'
          /\ loadPendingBurn a (storage w') = Some r
          /\ txHash r = Some h).
Proof.
  intros Hg. split.
  - intros w'. by apply bridge_interrupted_without_record.
  - intros h Hcb Hw Hpoll.
    destruct (run_bridge_timeout env p a h w Hcb Hw Hpoll)
      as ([] & w' & Hrun & Hs & _).
    exists w', (newPendingBurn env (Some h) p).
    split; [exact Hrun|]. rewrite Hs, load_save_some. by split.
Qed.

Lemma record_is_persisted_when_polling_ends_witness :
  (forall w', bridge timeoutEnv toArc (shortLived 6) = Halted w' ->
     loadPendingBurn addrA (storage w') = None)
  /\ (forall h,
        ConfirmedBurn timeoutEnv toArc addrA h ->
        alive (shortLived 6) = None ->
        (forall k, (1 <= k <= MAX_ATTEMPTS)%nat ->
                   usableProof (poll timeoutEnv k) = false) ->
        exists w' r,
          bridge timeoutEnv toArc (shortLived 6) = Done tt w'
          /\ loadPendingBurn addrA (storage w') = Some r
          /\ txHash r = Some h).
Proof.
  apply (record_is_persisted_when_polling_ends timeoutEnv toArc addrA
           (shortLived 6)).
  reflexivity.
Defined.

(** ** A transfer while a record exists *)

(** C6 as stated fails: a record exists for the initiator, and a second
    transfer is not rejected: it sends a new burn and the earlier record
    is gone, replaced by the record of the new burn. *)
Lemma second_transfer_is_not_rejected :
  loadPendingBurn addrA (storage (worldWith addrA recordBB)) = Some recordBB
  /\ exists w',
       bridge timeoutEnv toArc (worldWith addrA recordBB) = Done tt w'
       /\ burnsSent (log w')
          = [burnArgs (usdcAddress timeoutEnv) (bridgeContract timeoutEnv)
                      addrA 5000000]
       /\ loadPendingBurn addrA (storage w')
          = Some (mkPendingBurn (Some hashAA) ethereumSepolia arcTestnet "5"
                                1700000000000).
Proof.
  split; [reflexivity|]. eexists. split; [vm_compute; reflexivity|].
  split; vm_compute; reflexivity.
Qed.

(** C6 as amended: a transfer that passes the guards is not stopped by an
    existing record: it first removes the initiator's record and then
    runs exactly as it would have run without one. *)
Theorem transfer_clears_existing_record env p a w :
  bridgeGuards env p = Ok a ->
  loadPendingBurn a (savePendingBurn a None (storage w)) = None
  /\ bridge env p w
     = bridge env p (with_storage (savePendingBurn a None) w).
Proof.
  intros Hg. split; [apply load_save_none|].
  unfold bridge. rewrite Hg.
  rewrite (bind_done (save a None) _ w tt _ eq_refl).
  rewrite (bind_done (save a None) _ (with_storage _ w) tt _ eq_refl).
  f_equal. destruct w as [s hk st rf lg al]. unfold with_storage.
  cbn [storage hook attestationStatus refs log alive].
  by rewrite save_none_idem.
Qed.

Lemma transfer_clears_existing_record_witness :
  loadPendingBurn addrA
    (savePendingBurn addrA None (storage (worldWith addrA recordBB))) = None
  /\ bridge timeoutEnv toArc (worldWith addrA recordBB)
     = bridge timeoutEnv toArc
         (with_storage (savePendingBurn addrA None) (worldWith addrA recordBB)).
Proof.
  apply (transfer_clears_existing_record timeoutEnv toArc addrA
           (worldWith addrA recordBB)).
  reflexivity.
Defined.

(** ** Claim *)

Lemma await_thrown {A} msg w :
  alive w <> Some 0%nat -> await (@Err A msg) w = Thrown msg (tick w).
Proof. intros Hw. unfold await. by destruct (alive w) as [[|n]|]. Qed.

Lemma claimPrepare_mintEvents env pb w :
  mintEvents (log (final (claimPrepare env pb w))) = mintEvents (log w).
Proof.
  apply (clean_claimPrepare env
           (fun w' => mintEvents (log w') = mintEvents (log w))); try done.
  intros e w' He Hw'. unfold mintEvents in *. cbn. by rewrite He.
Qed.

Lemma signal_not_empty msg :
  includes msg "already received" = true
  \/ includes msg "Nonce already used" = true ->
  String.eqb msg "" = false.
Proof. destruct msg; [intros [H|H]; discriminate H|done]. Qed.

(** C4 as stated fails.  The hook learns that a mint already happened
    only from the error of its own [receiveMessage] call.  First, a claim
    goes through, and the same claim is called again while the
    destination contract would now answer 'Nonce already used': the state
    holds no pending burn any more, so the second call ends with the
    error toast 'No pending burn to claim' without asking anyone.
    Second, the record is still pending while the mint is already done,
    and the wallet forwards the transaction instead of rejecting the
    call: a second mint transaction is submitted (it reverts), the signal
    is never seen, and the claim is reported as a success. *)
Lemma claim_after_mint_is_not_idempotent :
  (exists w1 w2,
     claimPendingBridge onArcEnv (worldWith addrA recordAA) = Done tt w1
     /\ head (log w1) = Some (Toast TSuccess "USDC claimed successfully!")
     /\ mintTx alreadyMintedEnv arcTestnet "0x0e55a6e" "0xa77e57"
        = Err "execution reverted: Nonce already used"
     /\ claimPendingBridge alreadyMintedEnv w1 = Done tt w2
     /\ log w2 = Toast TError "No pending burn to claim" :: log w1)
  /\ (exists w',
        claimPendingBridge revertedMintEnv (worldWith addrA recordAA)
        = Done tt w'
        /\ mintReceipt revertedMintEnv "0x3417" = Ok false
        /\ mintEvents (log w')
           = [MintSent "0x3417"; CallMint arcTestnet "0x0e55a6e" "0xa77e57"]
        /\ head (log w') = Some (Toast TSuccess "USDC claimed successfully!")).
Proof.
  split.
  - eexists. eexists. split; [vm_compute; reflexivity|].
    split; [vm_compute; reflexivity|]. split; [reflexivity|].
    split; vm_compute; reflexivity.
  - eexists. split; [vm_compute; reflexivity|].
    split; [reflexivity|]. split; vm_compute; reflexivity.
Qed.

Lemma out_from {A} (c c' : M A) w w' Q E (H : World -> Prop) :
  c w = c' w' -> outcome c' w' Q E H -> outcome c w Q E H.
Proof. intros Heq Hc. unfold outcome in *. by rewrite Heq. Qed.

(** C4 as amended: idempotence rests on the answer to the mint call.
    For a claim of the pending burn that gets as far as the call of
    [receiveMessage]: when that call is rejected with the destination
    contract's 'already received' or 'Nonce already used' error,
    [claimPendingBridge] ends normally, reports success (no error in the
    state, a success toast, status [complete]), clears the stored record,
    and has made that one mint call only, without a mint transaction;
    when the call is accepted instead, a mint transaction has been
    submitted, however the claim ends. *)
Theorem claim_is_idempotent_at_the_mint_call env w a pb dest messageBytes
    attestation w2 :
  pendingBurn (hook w) = Some pb ->
  hasWalletClient env = true ->
  truthy (address env) = Some a ->
  claimPrepare env pb (with_hook startClaiming w)
  = Done (dest, messageBytes, attestation) w2 ->
  alive w2 <> Some 0%nat ->
  (forall msg,
     mintTx env dest messageBytes attestation = Err msg ->
     includes msg "already received" = true
     \/ includes msg "Nonce already used" = true ->
     exists w',
       claimPendingBridge env w = Done tt w'
       /\ loadPendingBurn a (storage w') = None
       /\ pendingBurn (hook w') = None
       /\ error (hook w') = None
       /\ isClaiming (hook w') = false
       /\ attestationStatus w' = Some Complete
       /\ head (log w') = Some (Toast TSuccess "Transfer already completed!")
       /\ mintEvents (log w')
          = CallMint dest messageBytes attestation :: mintEvents (log w))
  /\ (forall hash,
        mintTx env dest messageBytes attestation = Ok hash ->
        mintEvents (log (final (claimPendingBridge env w)))
        = MintSent hash :: CallMint dest messageBytes attestation
          :: mintEvents (log w)).
Proof.
  intros Hpb Hwc Ha Hprep Hw2.
  pose proof (claimPrepare_mintEvents env pb (with_hook startClaiming w)) as Hm.
  rewrite Hprep in Hm. cbn [final with_hook log] in Hm.
  split.
  - intros msg Hmint Hsig.
    assert (Hthrown :
      claimBody env a pb (with_hook startClaiming w)
      = Thrown msg (tick (with_event (CallMint dest messageBytes attestation) w2))).
    { unfold claimBody. rewrite (bind_done _ _ _ _ _ Hprep).
      unfold claimMint. erewrite bind_done by reflexivity.
      apply bind_thrown. rewrite Hmint. by apply await_thrown. }
    assert (Hrun : wpd (claimPendingBridge env) w (fun _ w' =>
      loadPendingBurn a (storage w') = None
      /\ pendingBurn (hook w') = None
      /\ error (hook w') = None
      /\ isClaiming (hook w') = false
      /\ attestationStatus w' = Some Complete
      /\ head (log w') = Some (Toast TSuccess "Transfer already completed!")
      /\ mintEvents (log w')
         = CallMint dest messageBytes attestation :: mintEvents (log w))).
    { unfold claimPendingBridge. wsteps. rewrite Hpb, Hwc, Ha. wsteps.
      eapply wpd_caught; [exact Hthrown|].
      unfold claimCatch. rewrite (signal_not_empty _ Hsig).
      replace (includes msg "already received"
               || includes msg "Nonce already used") with true
        by (destruct Hsig as [-> | ->]; by rewrite ?orb_true_r).
      wsteps. repeat apply conj; try reflexivity.
      - apply load_save_none.
      - rewrite <- Hm. reflexivity. }
    destruct Hrun as ([] & w' & Hrun & Hpost). by exists w'.
  - intros hash Hmint.
    apply (out_final _ _ (fun w' =>
      mintEvents (log w')
      = MintSent hash :: CallMint dest messageBytes attestation
        :: mintEvents (log w))).
    unfold claimPendingBridge. do 2 ostep. rewrite Hpb, Hwc, Ha. do 3 ostep.
    eapply out_from.
    { unfold claimBody. apply (bind_done _ _ _ _ _ Hprep). }
    unfold claimMint. do 3 ostep.
    apply out_await; [intros Hh; by destruct Hw2|intros hash' Hok|intros msg Herr];
      [|congruence].
    assert (hash' = hash) as -> by congruence.
    unfold claimCatch.
    repeat first [ ostep | progress cbv zeta ];
      rewrite <- Hm; reflexivity.
Qed.

Lemma claim_is_idempotent_at_the_mint_call_witness :
  exists w',
    claimPendingBridge alreadyMintedEnv (worldWith addrA recordAA) = Done tt w'
    /\ loadPendingBurn addrA (storage w') = None
    /\ pendingBurn (hook w') = None
    /\ error (hook w') = None
    /\ isClaiming (hook w') = false
    /\ attestationStatus w' = Some Complete
    /\ head (log w') = Some (Toast TSuccess "Transfer already completed!")
    /\ mintEvents (log w')
       = CallMint arcTestnet "0x0e55a6e" "0xa77e57"
         :: mintEvents (log (worldWith addrA recordAA)).
Proof.
  apply (claim_is_idempotent_at_the_mint_call alreadyMintedEnv
           (worldWith addrA recordAA) addrA recordAA arcTestnet
           "0x0e55a6e" "0xa77e57"
           (final (claimPrepare alreadyMintedEnv recordAA
                     (with_hook startClaiming (worldWith addrA recordAA))))
           eq_refl eq_refl eq_refl)
    with (msg := "execution reverted: Nonce already used").
  - vm_compute. reflexivity.
  - vm_compute. discriminate.
  - reflexivity.
  - right. vm_compute. reflexivity.
Defined.

(** ** What removes a record *)

(** C5 as stated fails: the record of a burn is stored, the page is
    reloaded, and the attestation service answers with an empty list of
    messages; reconciliation removes the record. *)
Lemma reconciliation_deletes_record_without_message :
  attestationApi noMessageEnv 0 (Some hashAA) = FetchBody true (Some [])
  /\ loadPendingBurn addrA (storage (worldWith addrA recordAA)) = Some recordAA
  /\ loadPendingBurn addrA
       (storage (exec noMessageEnv OpReconcile (worldWith addrA recordAA)))
     = None
  /\ mintEvents (log (exec noMessageEnv OpReconcile (worldWith addrA recordAA)))
     = [].
Proof. repeat apply conj; vm_compute; reflexivity. Qed.

Lemma claimMint_outcome env a dest messageBytes attestation w :
  outcome (claimMint env a (dest, messageBytes, attestation)) w
    (fun _ w' =>
       attestationStatus w' = Some Complete
       /\ exists hash,
            mintTx env dest messageBytes attestation = Ok hash
            /\ mintEvents (log w')
               = MintSent hash :: CallMint dest messageBytes attestation
                 :: mintEvents (log w)
            /\ head (log w') = Some (Toast TSuccess "USDC claimed successfully!"))
    (fun _ w' => storage w' = storage w)
    (fun w' => storage w' = storage w).
Proof.
  unfold claimMint. repeat ostep; try reflexivity;
    (split; [reflexivity|]; eexists; repeat apply conj;
     [eassumption|reflexivity..]).
Qed.

Section Deletion.

Context (env : Env) (a : string) (r : PendingBurn).
Hypothesis Haddress : truthy (address env) = Some a.

(** The record can only disappear with the success report of the
    already-minted branch. *)
Lemma claimCatch_outcome msg w :
  loadPendingBurn a (storage w) = Some r ->
  outcome (claimCatch a msg) w
    (fun _ w' =>
       loadPendingBurn a (storage w') = None ->
       attestationStatus w' = Some Complete
       /\ head (log w') = Some (Toast TSuccess "Transfer already completed!"))
    (fun _ _ => False) (fun _ => False).
Proof.
  intros Hload. unfold claimCatch.
  destruct (_ || _); repeat ostep.
  - intros _. by split.
  - intros Hn. same_storage Hn. congruence.
Qed.

Lemma claim_deletion w :
  loadPendingBurn a (storage w) = Some r ->
  loadPendingBurn a (storage (exec env OpClaim w)) = None ->
  deletionCause env OpClaim w a r.
Proof.
  intros Hload. unfold deletionCause, exec.
  set (P := fun w' : World =>
    loadPendingBurn a (storage w') = None ->
    attestationStatus w' = Some Complete
    /\ ((exists dest messageBytes attestation hash,
           mintTx env dest messageBytes attestation = Ok hash
           /\ mintEvents (log w')
              = MintSent hash :: CallMint dest messageBytes attestation
                :: mintEvents (log w)
           /\ head (log w') = Some (Toast TSuccess "USDC claimed successfully!"))
        \/ head (log w') = Some (Toast TSuccess "Transfer already completed!"))).
  change (P (final (claimPendingBridge env w))).
  apply out_final. unfold claimPendingBridge. do 2 ostep.
  destruct (pendingBurn (hook w)) as [pb|].
  2:{ ostep. unfold P. intros Hn. same_storage Hn. congruence. }
  rewrite Haddress. destruct (hasWalletClient env).
  2:{ ostep. unfold P. intros Hn. same_storage Hn. congruence. }
  repeat ostep.
  assert (Hcatch : forall msg w',
            storage w' = storage w ->
            outcome (claimCatch a msg) w' (fun _ => P) (fun _ => P) P).
  { intros msg w' Hs. eapply out_mono.
    - apply claimCatch_outcome. by rewrite Hs.
    - intros ? w'' H. unfold P. intros Hn. destruct (H Hn). by split; [|right].
    - intros ? ? [].
    - intros ? []. }
  unfold claimBody. apply out_bind.
  apply (out_clean (fun w' => storage w' = storage w
                              /\ mintEvents (log w') = mintEvents (log w))).
  - apply clean_claimPrepare; try (intros; assumption).
    intros e w' He [Hs Hm]. split; [exact Hs|].
    unfold mintEvents in *. cbn. by rewrite He.
  - by split.
  - intros [[dest messageBytes] attestation] w2 [Hs Hm].
    eapply out_mono; [apply claimMint_outcome| | |].
    + intros ? w' (Hst & hash & Hmint & Hev & Hhd). unfold P. intros _.
      split; [exact Hst|]. left.
      exists dest, messageBytes, attestation, hash.
      rewrite Hev, Hm. by repeat apply conj.
    + intros msg w' Hs'. apply Hcatch. congruence.
    + intros w' Hs'. unfold P. intros Hn. rewrite Hs', Hs in Hn. congruence.
  - intros msg w2 [Hs _]. by apply Hcatch.
  - intros w2 [Hs _]. unfold P. intros Hn. rewrite Hs in Hn. congruence.
Qed.

Lemma reconcile_deletion w :
  loadPendingBurn a (storage w) = Some r ->
  loadPendingBurn a (storage (exec env OpReconcile w)) = None ->
  deletionCause env OpReconcile w a r.
Proof.
  intros Hload. unfold deletionCause, exec.
  set (P := fun w' : World =>
    loadPendingBurn a (storage w') = None ->
    exists ok messages,
      attestationApi env (domainOf env (fromNetwork r)) (txHash r)
      = FetchBody ok messages
      /\ first_message messages = None).
  change (P (final (loadOnConnect env w))).
  apply out_final. unfold loadOnConnect. rewrite Haddress.
  do 2 ostep. rewrite Hload.
  unfold verifyAndLoad, fetchAttestation, awaitFetch.
  destruct (attestationApi env (domainOf env (fromNetwork r)) (txHash r))
    as [|ok messages] eqn:Hapi.
  - repeat ostep; try (exfalso; congruence);
      unfold P; intros Hn; same_storage Hn; congruence.
  - repeat ostep; try (exfalso; congruence).
    + unfold P. intros Hn. same_storage Hn. congruence.
    + match goal with H : Ok _ = Ok _ |- _ => injection H as <- end.
      cbn [snd].
      destruct (first_message messages) as [md|] eqn:Hfirst.
      * repeat ostep; unfold P; intros Hn; same_storage Hn;
          cbn [storage with_storage] in Hn;
          by rewrite load_save_some in Hn.
      * repeat ostep. unfold P. intros _. by exists ok, messages.
Qed.

Lemma restore_keeps_record h :
  clean (fun w => loadPendingBurn a (storage w) <> None)
        (restorePendingBurn env h).
Proof.
  unfold restorePendingBurn. rewrite Haddress.
  repeat first
    [ apply clean_findMessage; try (intros; assumption)
    | clean_step ltac:(first
        [ solve [intros ? H; exact H]
        | solve [intros ? _; cbn [storage with_storage];
                 by rewrite load_save_some] ]) ].
Qed.

(** C5 as amended: the record of the connected address disappears only
    by dismissal, by a claim that sent its mint transaction and waited for
    it or that met the already-minted signal, by the start of a new
    transfer, or by a reconciliation to which the attestation service
    answered without any message; restore never removes it, and neither do
    a failed or pending attestation query or a failed claim. *)
Theorem record_deletion_has_a_cause op w :
  loadPendingBurn a (storage w) = Some r ->
  loadPendingBurn a (storage (exec env op w)) = None ->
  deletionCause env op w a r.
Proof.
  intros Hload Hgone. destruct op as [p| | |h|].
  - unfold deletionCause. unfold exec, bridge in Hgone.
    destruct (bridgeGuards env p) as [a'|msg] eqn:Hg.
    + pose proof (guards_address _ _ _ Hg) as Ha'. congruence.
    + cbn in Hgone. congruence.
  - by apply claim_deletion.
  - by apply reconcile_deletion.
  - unfold deletionCause. unfold exec in Hgone.
    apply (restore_keeps_record h w); [|exact Hgone]. congruence.
  - exact Logic.I.
Qed.

End Deletion.

Lemma record_deletion_has_a_cause_witness :
  deletionCause noMessageEnv OpReconcile (worldWith addrA recordAA)
                addrA recordAA.
Proof.
  apply (record_deletion_has_a_cause noMessageEnv addrA recordAA).
  - reflexivity.
  - reflexivity.
  - vm_compute. reflexivity.
Defined.

(** ** Reconciliation with a proof at hand *)

(** With a usable attestation the reconciler keeps the record, shows it as
    pending and sets the status [pending_mint]; it neither marks the
    transfer complete nor calls the mint entry point itself.  Whether it
    schedules the automatic claim depends on the wallet being on Arc, not
    on the destination of the record. *)
Lemma reconcile_with_proof_keeps_record env w a r ok md rest :
  truthy (address env) = Some a ->
  loadPendingBurn a (storage w) = Some r ->
  alive w <> Some 0%nat ->
  attestationApi env (domainOf env (fromNetwork r)) (txHash r)
  = FetchBody ok (Some (md :: rest)) ->
  usable (md_attestation md) = true ->
  exists w' r',
    loadOnConnect env w = Done tt w'
    /\ loadPendingBurn a (storage w') = Some r'
    /\ txHash r' = txHash r
    /\ pendingBurn (hook w') = Some r'
    /\ attestationStatus w' = Some PendingMint
    /\ mintConfirmed (hook w') = mintConfirmed (hook w)
    /\ mintEvents (log w') = mintEvents (log w)
    /\ head (log w')
       = Some (if chainId_is (accountChainId env) (chainIdOf env arcTestnet)
               then AutoClaim
               else Toast TInfo "You have unclaimed USDC!").
Proof.
  intros Ha Hload Hw Hapi Hu.
  assert (Hrun : wpd (loadOnConnect env) w (fun _ w' =>
    exists r',
      loadPendingBurn a (storage w') = Some r'
      /\ txHash r' = txHash r
      /\ pendingBurn (hook w') = Some r'
      /\ attestationStatus w' = Some PendingMint
      /\ mintConfirmed (hook w') = mintConfirmed (hook w)
      /\ mintEvents (log w') = mintEvents (log w)
      /\ head (log w')
         = Some (if chainId_is (accountChainId env) (chainIdOf env arcTestnet)
                 then AutoClaim
                 else Toast TInfo "You have unclaimed USDC!"))).
  { apply out_done. unfold loadOnConnect. rewrite Ha. do 2 ostep.
    rewrite Hload. unfold verifyAndLoad, fetchAttestation, awaitFetch.
    rewrite Hapi. cbv iota beta. repeat ostep; try (exfalso; congruence).
    { exact (Hw ltac:(assumption)). }
    match goal with H : Ok _ = Ok _ |- _ => injection H as <- end.
    cbn [snd first_message]. rewrite Hu. cbn [negb].
    repeat ostep;
      (eexists; split; [apply load_save_some|]; by repeat apply conj). }
  destruct Hrun as ([] & w' & Hrun & r' & Hpost). by exists w', r'.
Qed.

(** C7, the code at a record whose destination is Sepolia: the
    reconciler compares the wallet's chain with the Arc chain id whatever
    the destination of the record is.  With the wallet already on the
    destination (Sepolia) it does not attempt the automatic claim and
    tells the user to switch to Arc; with the wallet on the source (Arc)
    it schedules the automatic claim. *)
Theorem reconciler_ignores_destination_of_record :
  toNetwork recordBB = ethereumSepolia
  /\ accountChainId onSepoliaEnv = Some (chainIdOf onSepoliaEnv ethereumSepolia)
  /\ log (exec onSepoliaEnv OpReconcile (worldWith addrA recordBB))
     = [Toast TInfo "You have unclaimed USDC!"; Fetch 26 (Some hashBB)]
  /\ accountChainId onArcEnv = Some (chainIdOf onArcEnv arcTestnet)
  /\ log (exec onArcEnv OpReconcile (worldWith addrA recordBB))
     = [AutoClaim; Toast TInfo "Auto-claiming bridged USDC...";
        Fetch 26 (Some hashBB)].
Proof. repeat apply conj; vm_compute; reflexivity. Qed.

(** * Further properties of the hook *)

(** ** The store, continued *)

Lemma load_lower a b s :
  toLowerCase a = toLowerCase b -> loadPendingBurn a s = loadPendingBurn b s.
Proof. intros H. unfold loadPendingBurn. by rewrite H. Qed.

(** X1. Addresses are compared without regard to letter case: what is
    written or cleared under one spelling of an address is read back under
    any other spelling of it. *)
Theorem store_ignores_letter_case a b r s :
  toLowerCase a = toLowerCase b ->
  loadPendingBurn b (savePendingBurn a (Some r) s) = Some r
  /\ loadPendingBurn b (savePendingBurn a None s) = None.
Proof.
  intros H. rewrite <- !(load_lower a b) by done.
  split; [apply load_save_some|apply load_save_none].
Qed.

Lemma store_ignores_letter_case_witness :
  loadPendingBurn "0xabcd000000000000000000000000000000000001"
    (savePendingBurn addrA (Some recordAA) None) = Some recordAA
  /\ loadPendingBurn "0xabcd000000000000000000000000000000000001"
       (savePendingBurn addrA None None) = None.
Proof.
  apply (store_ignores_letter_case addrA
           "0xabcd000000000000000000000000000000000001" recordAA None).
  reflexivity.
Defined.

(** X2. After a write the stored object holds the written record and
    nothing else, whatever was stored before; clearing the same address
    then removes the stored item altogether. *)
Theorem write_replaces_whole_store a b r s :
  loadPendingBurn b (savePendingBurn a (Some r) s)
  = (if String.eqb (toLowerCase b) (toLowerCase a) then Some r else None)
  /\ savePendingBurn a None (savePendingBurn a (Some r) s) = None.
Proof.
  split.
  - destruct (String.eqb_spec (toLowerCase b) (toLowerCase a)) as [He|Hne].
    + rewrite (load_lower b a) by done. apply load_save_some.
    + apply load_save_some_other. congruence.
  - cbn. rewrite delete_singleton_eq. by rewrite bool_decide_true.
Qed.

(** X3. Clearing the record of one address leaves the record of every
    other address in place, and the stored item is kept as long as such a
    record exists. *)
Theorem clear_keeps_other_addresses a b s :
  toLowerCase a <> toLowerCase b ->
  loadPendingBurn b (savePendingBurn a None s) = loadPendingBurn b s
  /\ (loadPendingBurn b s <> None -> savePendingBurn a None s <> None).
Proof.
  intros Hne. split; [by apply load_save_none_other|].
  intros Hb Hs. rewrite <- (load_save_none_other a b s Hne) in Hb.
  rewrite Hs in Hb. by apply Hb.
Qed.

Lemma clear_keeps_other_addresses_witness :
  loadPendingBurn addrB
    (savePendingBurn addrA None (savePendingBurn addrB (Some recordBB) None))
  = loadPendingBurn addrB (savePendingBurn addrB (Some recordBB) None)
  /\ (loadPendingBurn addrB (savePendingBurn addrB (Some recordBB) None) <> None ->
      savePendingBurn addrA None (savePendingBurn addrB (Some recordBB) None)
      <> None).
Proof.
  apply (clear_keeps_other_addresses addrA addrB
           (savePendingBurn addrB (Some recordBB) None)).
  vm_compute. discriminate.
Defined.

(** ** The relayer fee, continued *)

(** X4. The floor of 1000 base units is what is charged exactly for the
    amounts below 10.01 USDC (10010000 base units), and the fee exceeds
    the amount itself exactly for the amounts below 1000 base units. *)
Theorem maxFee_floor_applies_below_threshold amountWei :
  (maxFee amountWei = MIN_FEE <-> amountWei < 10010000)
  /\ (maxFee amountWei > amountWei <-> amountWei < 1000).
Proof.
  unfold maxFee, feeBps, MIN_FEE. rewrite Z.mul_1_r.
  pose proof (Z.quot_rem' amountWei 10000) as Hq.
  assert (Hr : (0 <= amountWei -> 0 <= Z.rem amountWei 10000 < 10000)
               /\ (amountWei < 0 -> -10000 < Z.rem amountWei 10000 <= 0)).
  { split; intros H.
    - apply Z.rem_bound_pos; lia.
    - apply (Z.rem_bound_pos_neg amountWei 10000); lia. }
  revert Hq Hr. generalize (Z.rem amountWei 10000) (Z.quot amountWei 10000).
  intros r q Hq Hr.
  destruct (Z.gtb_spec q 1000); lia.
Qed.

(** X5. The fee never falls below the floor and grows with the amount. *)
Theorem maxFee_is_monotone a b :
  a <= b -> MIN_FEE <= maxFee a <= maxFee b.
Proof.
  intros Hab. unfold maxFee, feeBps, MIN_FEE. rewrite !Z.mul_1_r.
  pose proof (Z.quot_le_mono a b 10000 ltac:(lia) Hab).
  destruct (Z.gtb_spec (a ÷ 10000) 1000), (Z.gtb_spec (b ÷ 10000) 1000); lia.
Qed.

Lemma maxFee_is_monotone_witness :
  MIN_FEE <= maxFee 5000000 <= maxFee 25000000.
Proof. apply (maxFee_is_monotone 5000000 25000000). lia. Defined.

(** ** Further rules for outcomes *)

Lemma out_wpd {A} (c : M A) w Q E (H : World -> Prop) :
  wpd c w Q -> outcome c w Q E H.
Proof. intros (a & w' & Hc & HQ). unfold outcome. by rewrite Hc. Qed.

Lemma out_seq {A B} (c : M A) (k : A -> M B) w P Q E (H : World -> Prop) :
  wpd c w P -> (forall a w', P a w' -> outcome (k a) w' Q E H) ->
  outcome (c ≫= k) w Q E H.
Proof.
  intros (a & w' & Hc & HP) Hk. unfold outcome. rewrite (bind_done _ _ _ _ _ Hc).
  by apply Hk.
Qed.

Lemma out_await_err {A} (o : Outcome A) msg w Q E (H : World -> Prop) :
  alive w = None -> o = Err msg -> E msg w -> outcome (await o) w Q E H.
Proof.
  intros Hw -> HE. unfold outcome. by rewrite await_err.
Qed.

(** Steps through a run that is not interrupted and whose answers,
    results or errors, are known. *)
Ltac rstep :=
  lazymatch goal with
  | |- outcome (try_catch _ _) _ _ _ _ => apply out_try
  | |- outcome (await _) _ _ _ _ =>
      first
        [ eapply out_await_ok;
          [ done | first [ reflexivity | eassumption ] | cbv beta ]
        | eapply out_await_err;
          [ done | first [ reflexivity | eassumption ] | cbv beta ] ]
  | |- outcome sleep _ _ _ _ =>
      eapply out_await_ok; [ done | reflexivity | cbv beta ]
  | |- outcome (trackSiteBridge _ _) _ _ _ _ => apply out_modify; cbv beta
  | |- _ => kstep
  end.

(** Steps through a run with unknown answers: every await splits into its
    three ends. *)
Ltac bstep :=
  lazymatch goal with
  | |- outcome sleep _ _ _ _ => unfold sleep
  | |- outcome (trackSiteBridge _ _) _ _ _ _ => apply out_modify; cbv beta
  | |- _ => ostep
  end.

Lemma mintEvents_cons e l :
  isMintEvent e = false -> mintEvents (e :: l) = mintEvents l.
Proof. intros He. unfold mintEvents. cbn. by rewrite He. Qed.

Lemma mintEvents_cons_mint e l :
  isMintEvent e = true -> mintEvents (e :: l) = e :: mintEvents l.
Proof. intros He. unfold mintEvents. cbn. by rewrite He. Qed.

(** The fields of a world built by the primitive updates. *)
Ltac fields :=
  cbn [storage hook attestationStatus refs alive log
       with_event with_status with_hook with_refs with_storage tick
       isBridging isClaiming error mintConfirmed pendingBurn
       mintConfirmedRef mintTxHashRef burnConfirmedRef burnTxHashRef
       approvalConfirmedRef approvalStartedRef approvalTxHashRef head];
  repeat first [ rewrite mintEvents_cons by reflexivity
               | rewrite mintEvents_cons_mint by reflexivity ].

Ltac fields_in H :=
  cbn [storage hook attestationStatus refs alive log
       with_event with_status with_hook with_refs with_storage tick
       isBridging isClaiming error mintConfirmed pendingBurn
       mintConfirmedRef mintTxHashRef burnConfirmedRef burnTxHashRef
       approvalConfirmedRef approvalStartedRef approvalTxHashRef head] in H;
  repeat first [ rewrite mintEvents_cons in H by reflexivity
               | rewrite mintEvents_cons_mint in H by reflexivity ].

(** ** Waiting for the wallet to change network *)

(** X6. The wait for a network switch polls [eth_chainId] at most [fuel]
    times (ten in the hook), stops at the first answer that is the target
    chain, and tells whether there was one; it changes nothing. *)
Theorem awaitSwitch_reports_first_match env c fuel n target w :
  alive w = None ->
  (forall k, ethChainId env k = Ok (c k)) ->
  awaitSwitch env fuel n target w
  = Done (existsb (fun k => Z.eqb (c k) target) (seq n fuel)) w.
Proof.
  intros Hw Hc. revert n. induction fuel as [|fuel IH]; intros n; [done|].
  cbn [awaitSwitch seq existsb].
  erewrite bind_done; [|unfold sleep, await; rewrite Hw, tick_none; done].
  erewrite bind_done; [|unfold await; rewrite Hw, Hc, tick_none; done].
  destruct (Z.eqb (c n) target); [done|]. apply IH.
Qed.

Lemma awaitSwitch_reports_first_match_witness :
  awaitSwitch onArcEnv 10 0 ARC_ID freshWorld
  = Done (existsb (fun k => Z.eqb ARC_ID ARC_ID) (seq 0 10)) freshWorld.
Proof.
  apply (awaitSwitch_reports_first_match onArcEnv (fun _ => ARC_ID)
           10 0 ARC_ID freshWorld).
  - reflexivity.
  - intros k. reflexivity.
Defined.

Lemma run_awaitSwitch_seen env target fuel n k w :
  alive w = None ->
  (n <= k < n + fuel)%nat ->
  (forall j, (n <= j < k)%nat ->
     exists c, ethChainId env j = Ok c /\ c <> target) ->
  ethChainId env k = Ok target ->
  wpd (awaitSwitch env fuel n target) w (fun b w' => b = true /\ w' = w).
Proof.
  intros Hw. revert n. induction fuel as [|fuel IH]; intros n Hk Hbefore Hat;
    [lia|].
  cbn [awaitSwitch]. wsteps.
  destruct (Nat.eq_dec n k) as [->|Hne].
  - wsteps. rewrite Z.eqb_refl. wsteps. done.
  - destruct (Hbefore n ltac:(lia)) as (c & Hn & Hc).
    wsteps. apply Z.eqb_neq in Hc. rewrite Hc.
    apply IH; [lia| |done]. intros j Hj. apply Hbefore. lia.
Qed.

(** ** The attestation poll, continued *)

(** X7. The polling loop sends at most one request per attempt: however
    it ends, no more than [fuel] requests (150 in the hook) were added to
    the log. *)
Theorem pollAttestation_is_bounded env fuel n h w :
  (fetches (log (final (pollAttestation env fuel n h w)))
   <= fetches (log w) + fuel)%nat.
Proof.
  revert n w. induction fuel as [|fuel IH]; intros n w.
  { cbn. lia. }
  apply (out_final _ _ (fun w' => (fetches (log w') <= fetches (log w) + S fuel)%nat)).
  cbn [pollAttestation]. unfold awaitFetch.
  assert (Hnext : forall w2,
            (fetches (log w2) <= S (fetches (log w)))%nat ->
            outcome (pollAttestation env fuel (S n) h) w2
              (fun _ w' => (fetches (log w') <= fetches (log w) + S fuel)%nat)
              (fun _ w' => (fetches (log w') <= fetches (log w) + S fuel)%nat)
              (fun w' => (fetches (log w') <= fetches (log w) + S fuel)%nat)).
  { intros w2 H2. specialize (IH (S n) w2). unfold outcome.
    destruct (pollAttestation env fuel (S n) h w2); cbn [final] in IH; lia. }
  repeat first
    [ bstep
    | lazymatch goal with
      | |- outcome (match first_message ?x with _ => _ end) _ _ _ _ =>
          destruct (first_message x)
      | |- outcome (match ?r with Some _ => _ | None => _ end) _ _ _ _ =>
          cbv iota beta
      end ];
    try (cbn [log with_event tick fetches]; lia);
    try (apply Hnext; cbn [log with_event tick fetches]; lia).
Qed.

Lemma run_pollAttestation_found env h fuel n k m w :
  alive w = None ->
  (n < k <= n + fuel)%nat ->
  (forall j, (n < j < k)%nat -> attested (poll env j) = false) ->
  (exists messages,
     poll env k = FetchBody true messages
     /\ first_message messages = Some m) ->
  usable (md_attestation m) = true ->
  wpd (pollAttestation env fuel n h) w (fun r w' =>
    r = Some (md_message m, md_attestation m)
    /\ calm w w'
    /\ fetches (log w') = (fetches (log w) + (k - n))%nat).
Proof.
  intros Hw Hk Hbefore (ms & Hat & Hfirst) Hu.
  revert n w Hw Hk Hbefore. induction fuel as [|fuel IH];
    intros n w Hw Hk Hbefore; [lia|].
  cbn [pollAttestation]. wsteps.
  set (w1 := with_event (Toast TLoading "Waiting for attestation...") w).
  assert (Hc1 : calm w (with_event (Fetch 0 (Some h)) w1)).
  { eapply calm_trans; by apply calm_event. }
  unfold awaitFetch.
  destruct (Nat.eq_dec (S n) k) as [<-|Hne].
  - rewrite Hat. apply wpd_try. wsteps. cbn [fst snd negb]. rewrite Hfirst, Hu.
    wsteps. split; [done|]. split; [exact Hc1|].
    cbn [log with_event fetches w1]. lia.
  - assert (Hnext : forall w2,
              calm w w2 -> fetches (log w2) = S (fetches (log w)) ->
              wpd (pollAttestation env fuel (S n) h) w2 (fun r w' =>
                r = Some (md_message m, md_attestation m)
                /\ calm w w'
                /\ fetches (log w') = (fetches (log w) + (k - n))%nat)).
    { intros w2 Hc2 Hf2. eapply wpd_mono.
      - apply IH; [by eapply calm_alive|lia|]. intros j Hj. apply Hbefore. lia.
      - intros r w' (Hr & Hc & Hf). split; [done|]. split.
        + by eapply calm_trans.
        + rewrite Hf, Hf2. lia. }
    specialize (Hbefore (S n) ltac:(lia)).
    destruct (poll env (S n)) as [|ok ms'] eqn:Hp.
    + eapply wpd_caught.
      { erewrite bind_done by reflexivity. apply bind_thrown.
        by apply await_err. }
      wsteps. by apply Hnext.
    + apply wpd_try. wsteps. cbn [fst snd].
      destruct ok; cbn [negb]; [|wsteps; by apply Hnext].
      cbn [attested] in Hbefore.
      destruct (first_message ms') as [m'|]; [|wsteps; by apply Hnext].
      rewrite Hbefore. wsteps. by apply Hnext.
Qed.

(** X8. When the [k]-th poll is the first whose answer carries an
    attestation other than ['PENDING'], the polling loop of a transfer
    ends there: it returns the message and attestation of that answer
    after exactly [k] requests. *)
Theorem polling_ends_at_first_attestation env h k m mb att w :
  alive w = None ->
  ProofArrives env k m mb att ->
  exists w',
    pollAttestation env MAX_ATTEMPTS 0 h w
    = Done (Some (md_message m, md_attestation m)) w'
    /\ fetches (log w') = (fetches (log w) + k)%nat
    /\ storage w' = storage w /\ hook w' = hook w.
Proof.
  intros Hw [Hk Hbefore Hat Hu _ _].
  assert (Hk' : (0 < k <= 0 + MAX_ATTEMPTS)%nat) by (cbn [Nat.add]; lia).
  assert (Hb' : forall j, (0 < j < k)%nat -> attested (poll env j) = false).
  { intros j Hj. apply Hbefore. lia. }
  destruct (run_pollAttestation_found env h MAX_ATTEMPTS 0 k m w Hw Hk' Hb' Hat Hu)
    as (r & w' & Hrun & -> & (Hs & Hh & _) & Hf).
  exists w'. rewrite Hf, Nat.sub_0_r. by repeat apply conj.
Qed.

Lemma scenario_proof_arrives chain after receipt api mint :
  ProofArrives (scenario chain after receipt thirdPoll api mint) 3 proofMessage
               "0x0e55a6e" "0xa77e57".
Proof.
  constructor; try reflexivity.
  - unfold MAX_ATTEMPTS. lia.
  - intros j Hj. assert (j = 1 \/ j = 2)%nat as [-> | ->] by lia; reflexivity.
  - by eexists.
Qed.

Lemma polling_ends_at_first_attestation_witness :
  exists w',
    pollAttestation happyEnv MAX_ATTEMPTS 0 hashAA freshWorld
    = Done (Some (md_message proofMessage, md_attestation proofMessage)) w'
    /\ fetches (log w') = (fetches (log freshWorld) + 3)%nat
    /\ storage w' = storage freshWorld /\ hook w' = hook freshWorld.
Proof.
  apply (polling_ends_at_first_attestation happyEnv hashAA 3 proofMessage
           "0x0e55a6e" "0xa77e57" freshWorld).
  - reflexivity.
  - apply scenario_proof_arrives.
Defined.

(** ** The direct path after the confirmed burn *)

Lemma run_bridge_to_mint env p a h k m mb att w Q :
  ConfirmedBurn env p a h ->
  alive w = None ->
  ProofArrives env k m mb att ->
  (forall w1,
     storage w1 = savePendingBurn a None (storage w) ->
     hook w1 = mkHookState true false None false None ->
     refs w1 = mkRefs false None true (Some h) false false None ->
     alive w1 = None ->
     mintEvents (log w1) = mintEvents (log w) ->
     wpd (directMint env a p h mb att) w1 Q) ->
  wpd (bridge env p) w Q.
Proof.
  intros Hcb Hw [Hk Hbefore Hat Hu Hmb Hatt] Hmint.
  pose proof Hcb as [[Hg Hfrom Hto Hnet Hprov Had Hcl _] _].
  unfold bridge. rewrite Hg. wsteps.
  eapply wpd_seq; [by apply run_ensureSourceNetwork|].
  intros b w1 [-> Hc1]. apply wpd_try.
  pose proof (calm_alive _ _ Hc1 Hw) as Hw1.
  unfold bridgeBody, throwIf. rewrite Hprov, Hfrom, Hto. cbn [negb].
  wsteps. unfold directBridge.
  eapply wpd_seq; [by apply run_directBurn|].
  intros h' w2 (-> & Hs2 & Hh2 & Ht2 & Hr2 & Hw2 & Hm2).
  unfold directAfterBurn. wsteps.
  assert (Hk' : (0 < k <= 0 + MAX_ATTEMPTS)%nat) by (cbn [Nat.add]; lia).
  assert (Hb' : forall j, (0 < j < k)%nat -> attested (poll env j) = false).
  { intros j Hj. apply Hbefore. lia. }
  eapply wpd_seq.
  { apply (run_pollAttestation_found env h MAX_ATTEMPTS 0 k m); try done. }
  intros r w3 (-> & Hc3 & _). cbv iota beta. rewrite Hmb, Hatt.
  destruct Hc1 as (Hs1 & Hh1 & _ & Hr1 & _ & Hm1).
  destruct Hc3 as (Hs3 & Hh3 & _ & Hr3 & Ha3 & Hm3).
  fields_in Hs1. fields_in Hh1. fields_in Hr1. fields_in Hm1.
  fields_in Hs3. fields_in Hh3. fields_in Hr3. fields_in Ha3. fields_in Hm3.
  apply Hmint.
  - by rewrite Hs3, Hs2, Hs1.
  - by rewrite Hh3, Hh2, Hh1.
  - by rewrite Hr3, Hr2, Hr1.
  - by rewrite Ha3.
  - by rewrite Hm3, Hm2, Hm1.
Qed.

(** The block of [directMint] that gets the wallet onto Arc. *)
Lemma run_switchToArc env w :
  ReachesArc env ->
  alive w = None ->
  wpd (if negb (chainId_is (accountChainId env) (chainIdOf env arcTestnet)) then
         emit (SwitchChain (chainIdOf env arcTestnet));;
         (if hasSwitchChain env
          then await (switchChain env (chainIdOf env arcTestnet))
          else throw "switchChainAsync is not a function");;
         throwIf (negb (hasProvider env)) "No wallet provider available";;
         switched ← awaitSwitch env 10 0 (chainIdOf env arcTestnet);
         throwIf (negb switched)
           "Network switch timeout - please switch to Arc Testnet manually"
       else ret tt) w
      (fun _ w' => calm w w').
Proof.
  intros [Hnet Hprov _] Hw.
  destruct Hnet as [-> | (Hsw & Hok & k & Hk & Hbefore & Hat)]; cbn [negb].
  { wsteps. apply calm_refl. }
  destruct (chainId_is _ _); cbn [negb]; [wsteps; apply calm_refl|].
  rewrite Hsw, Hprov. unfold throwIf. cbn [negb]. wsteps.
  eapply wpd_seq.
  { apply (run_awaitSwitch_seen env _ 10 0 k); [done|lia| |done].
    intros j Hj. apply Hbefore. lia. }
  intros b w' [-> ->]. cbn [negb]. wsteps. by apply calm_event.
Qed.

(** X9. A direct transfer that goes through: the burn is confirmed, a
    poll brings the proof, the wallet gets onto Arc and the mint is
    confirmed.  [bridge] then ends with the transfer complete, nothing
    stored and nothing pending, after exactly one mint call. *)
Theorem direct_transfer_goes_through env p a h k m mb att mintHash w :
  ConfirmedBurn env p a h ->
  alive w = None ->
  ProofArrives env k m mb att ->
  ReachesArc env ->
  mintTx env arcTestnet mb att = Ok mintHash ->
  hasPublicClient env arcTestnet = true ->
  mintReceipt env mintHash = Ok true ->
  exists w',
    bridge env p w = Done tt w'
    /\ loadPendingBurn a (storage w') = None
    /\ hook w' = mkHookState false false None true None
    /\ attestationStatus w' = Some Complete
    /\ mintTxHashRef (refs w') = Some mintHash
    /\ mintEvents (log w')
       = MintSent mintHash :: CallMint arcTestnet mb att :: mintEvents (log w)
    /\ head (log w') = Some (Toast TSuccess "Bridge completed!").
Proof.
  intros Hcb Hw Hpa Hra Hmint Hcl Hrc.
  assert (Hrun : wpd (bridge env p) w (fun _ w' =>
    loadPendingBurn a (storage w') = None
    /\ hook w' = mkHookState false false None true None
    /\ attestationStatus w' = Some Complete
    /\ mintTxHashRef (refs w') = Some mintHash
    /\ mintEvents (log w')
       = MintSent mintHash :: CallMint arcTestnet mb att :: mintEvents (log w)
    /\ head (log w') = Some (Toast TSuccess "Bridge completed!"))).
  { eapply run_bridge_to_mint; [done..|].
    intros w1 Hs1 Hh1 Hr1 Hw1 Hm1.
    pose proof Hra as [_ Hprov Hfin].
    apply out_done. unfold directMint. cbv zeta. do 5 rstep.
    eapply out_seq; [by apply run_switchToArc|].
    intros [] w2 (Hs2 & Hh2 & _ & Hr2 & Hw2 & Hm2).
    fields_in Hs2. fields_in Hh2. fields_in Hr2. fields_in Hw2. fields_in Hm2.
    rewrite Hw1 in Hw2.
    unfold throwIf, withClient. rewrite Hprov, Hcl. cbn [negb].
    repeat rstep. rewrite Z.eqb_refl. cbn [negb]. repeat rstep.
    fields. rewrite Hh2, Hh1, Hm2, Hm1.
    repeat apply conj; try reflexivity. apply load_save_none. }
  destruct Hrun as ([] & w' & Hrun & Hpost). by exists w'.
Qed.

Lemma scenario_reaches_arc chain receipt polls api mint :
  ReachesArc (scenario chain ARC_ID receipt polls api mint).
Proof.
  constructor; try reflexivity.
  destruct (chainId_is (Some chain) ARC_ID) eqn:Hc; [by left|right].
  repeat split. exists 0%nat. repeat split; [lia|]. intros j Hj. lia.
Qed.

Lemma direct_transfer_goes_through_witness :
  exists w',
    bridge happyEnv toArc freshWorld = Done tt w'
    /\ loadPendingBurn addrA (storage w') = None
    /\ hook w' = mkHookState false false None true None
    /\ attestationStatus w' = Some Complete
    /\ mintTxHashRef (refs w') = Some "0x3417"
    /\ mintEvents (log w')
       = MintSent "0x3417" :: CallMint arcTestnet "0x0e55a6e" "0xa77e57"
         :: mintEvents (log freshWorld)
    /\ head (log w') = Some (Toast TSuccess "Bridge completed!").
Proof.
  apply (direct_transfer_goes_through happyEnv toArc addrA hashAA 3
           proofMessage "0x0e55a6e" "0xa77e57" "0x3417" freshWorld).
  - apply scenario_confirmed.
  - reflexivity.
  - apply scenario_proof_arrives.
  - apply scenario_reaches_arc.
  - reflexivity.
  - reflexivity.
  - reflexivity.
Defined.

Lemma isNetworkError_default msg :
  isNetworkError (if String.eqb msg "" then "Error" else msg)
  = isNetworkError msg.
Proof. destruct msg; reflexivity. Qed.

(** X10. A direct transfer whose mint call fails, after a confirmed
    burn.  Nothing is written to the store in any case, and the state
    reports no error.  An error that mentions the network (it contains
    [chain], [network], ...) leaves the burn pending in the state with the
    toast 'Network switch required', even when it also carries the
    already-minted signal; otherwise an error that contains [already]
    completes the transfer; any other error leaves the burn pending in
    the state with the toast 'Mint failed'. *)
Theorem mint_error_on_direct_path env p a h k m mb att msg w :
  ConfirmedBurn env p a h ->
  alive w = None ->
  ProofArrives env k m mb att ->
  ReachesArc env ->
  mintTx env arcTestnet mb att = Err msg ->
  exists w',
    bridge env p w = Done tt w'
    /\ loadPendingBurn a (storage w') = None
    /\ isBridging (hook w') = false
    /\ error (hook w') = None
    /\ mintEvents (log w') = CallMint arcTestnet mb att :: mintEvents (log w)
    /\ if isNetworkError msg then
         attestationStatus w' = Some PendingMint
         /\ pendingBurn (hook w') = Some (newPendingBurn env (Some h) p)
         /\ head (log w') = Some (Toast TError "Network switch required")
       else if includes msg "Nonce already used" || includes msg "already" then
         attestationStatus w' = Some Complete
         /\ pendingBurn (hook w') = None
         /\ mintConfirmed (hook w') = true
         /\ head (log w') = Some (Toast TSuccess "Bridge completed!")
       else
         attestationStatus w' = Some PendingMint
         /\ pendingBurn (hook w') = Some (newPendingBurn env (Some h) p)
         /\ head (log w') = Some (Toast TError "Mint failed").
Proof.
  intros Hcb Hw Hpa Hra Hmint.
  assert (Hrun : wpd (bridge env p) w (fun _ w' =>
    loadPendingBurn a (storage w') = None
    /\ isBridging (hook w') = false
    /\ error (hook w') = None
    /\ mintEvents (log w') = CallMint arcTestnet mb att :: mintEvents (log w)
    /\ if isNetworkError msg then
         attestationStatus w' = Some PendingMint
         /\ pendingBurn (hook w') = Some (newPendingBurn env (Some h) p)
         /\ head (log w') = Some (Toast TError "Network switch required")
       else if includes msg "Nonce already used" || includes msg "already" then
         attestationStatus w' = Some Complete
         /\ pendingBurn (hook w') = None
         /\ mintConfirmed (hook w') = true
         /\ head (log w') = Some (Toast TSuccess "Bridge completed!")
       else
         attestationStatus w' = Some PendingMint
         /\ pendingBurn (hook w') = Some (newPendingBurn env (Some h) p)
         /\ head (log w') = Some (Toast TError "Mint failed"))).
  { eapply run_bridge_to_mint; [done..|].
    intros w1 Hs1 Hh1 Hr1 Hw1 Hm1.
    pose proof Hra as [_ Hprov Hfin].
    apply out_done. unfold directMint. cbv zeta. do 5 rstep.
    eapply out_seq; [by apply run_switchToArc|].
    intros [] w2 (Hs2 & Hh2 & Ht2 & Hr2 & Hw2 & Hm2).
    fields_in Hs2. fields_in Hh2. fields_in Ht2. fields_in Hr2. fields_in Hw2.
    fields_in Hm2.
    rewrite Hw1 in Hw2.
    unfold throwIf. rewrite Hprov. cbn [negb].
    repeat rstep. rewrite Z.eqb_refl. cbn [negb]. repeat rstep.
    unfold directMintCatch. cbv zeta. rewrite isNetworkError_default.
    destruct (isNetworkError msg).
    { repeat rstep. fields. rewrite Hs2, Hs1, Hh2, Hh1, Ht2, Hm2, Hm1.
      repeat apply conj; try reflexivity. apply load_save_none. }
    destruct (includes msg "Nonce already used" || includes msg "already").
    { repeat rstep. fields. rewrite Hs2, Hs1, Hh2, Hh1, Hm2, Hm1.
      repeat apply conj; try reflexivity. by rewrite save_none_idem, load_save_none. }
    repeat rstep. fields. rewrite Hr2, Hr1. cbn [mintTxHashRef is_truthy truthy].
    repeat rstep. fields. rewrite Hs2, Hs1, Hh2, Hh1, Ht2, Hm2, Hm1.
    repeat apply conj; try reflexivity. apply load_save_none. }
  destruct Hrun as ([] & w' & Hrun & Hpost). by exists w'.
Qed.

Lemma mint_error_on_direct_path_witness :
  exists w',
    bridge rejectedMintEnv toArc freshWorld = Done tt w'
    /\ loadPendingBurn addrA (storage w') = None
    /\ isBridging (hook w') = false
    /\ error (hook w') = None
    /\ mintEvents (log w')
       = CallMint arcTestnet "0x0e55a6e" "0xa77e57" :: mintEvents (log freshWorld)
    /\ if isNetworkError "User rejected the request." then
         attestationStatus w' = Some PendingMint
         /\ pendingBurn (hook w')
            = Some (newPendingBurn rejectedMintEnv (Some hashAA) toArc)
         /\ head (log w') = Some (Toast TError "Network switch required")
       else if includes "User rejected the request." "Nonce already used"
               || includes "User rejected the request." "already" then
         attestationStatus w' = Some Complete
         /\ pendingBurn (hook w') = None
         /\ mintConfirmed (hook w') = true
         /\ head (log w') = Some (Toast TSuccess "Bridge completed!")
       else
         attestationStatus w' = Some PendingMint
         /\ pendingBurn (hook w')
            = Some (newPendingBurn rejectedMintEnv (Some hashAA) toArc)
         /\ head (log w') = Some (Toast TError "Mint failed").
Proof.
  apply (mint_error_on_direct_path rejectedMintEnv toArc addrA hashAA 3
           proofMessage "0x0e55a6e" "0xa77e57" "User rejected the request."
           freshWorld).
  - apply scenario_confirmed.
  - reflexivity.
  - apply scenario_proof_arrives.
  - apply scenario_reaches_arc.
  - reflexivity.
Defined.

(** X11. [directMint] never writes a record: an address without a stored
    record has none after the mint step either, however the step ends
    (confirmed, failed, or interrupted). *)
Theorem directMint_never_stores env a b p h mb att w :
  loadPendingBurn b (storage w) = None ->
  loadPendingBurn b (storage (final (directMint env a p h mb att w))) = None.
Proof.
  apply (clean_directMint env a (fun s => loadPendingBurn b s = None)).
  intros s Hs.
  destruct (String.eqb_spec (toLowerCase a) (toLowerCase b)) as [He|Hne].
  - rewrite <- (load_lower a b) by done. apply load_save_none.
  - by rewrite load_save_none_other.
Qed.

Lemma directMint_never_stores_witness :
  loadPendingBurn addrA
    (storage (final (directMint rejectedMintEnv addrA toArc hashAA
                       "0x0e55a6e" "0xa77e57" freshWorld))) = None.
Proof.
  apply (directMint_never_stores rejectedMintEnv addrA addrA toArc hashAA
           "0x0e55a6e" "0xa77e57" freshWorld).
  reflexivity.
Defined.

(** ** A transfer whose burn is never sent *)

(** X12. When the source network cannot be selected (the wallet is on
    another chain and the switch is refused), [bridge] stops before any
    wallet transaction: it reports 'Failed to switch network', sends no
    burn, and the record it cleared at its start stays cleared. *)
Theorem failed_source_switch_stops_transfer env p a msg w :
  bridgeGuards env p = Ok a ->
  chainId_is (accountChainId env) (chainIdOf env (bp_fromNetwork p)) = false ->
  hasSwitchChain env = true ->
  switchChain env (chainIdOf env (bp_fromNetwork p)) = Err msg ->
  alive w = None ->
  exists w',
    bridge env p w = Done tt w'
    /\ storage w' = savePendingBurn a None (storage w)
    /\ hook w'
       = mkHookState false false (Some "Failed to switch network") false None
    /\ attestationStatus w' = None
    /\ log w'
       = Toast TError "Failed to switch network"
         :: SwitchChain (chainIdOf env (bp_fromNetwork p)) :: log w.
Proof.
  intros Hg Hc Hsw Herr Hw.
  assert (Hrun : wpd (bridge env p) w (fun _ w' =>
    storage w' = savePendingBurn a None (storage w)
    /\ hook w'
       = mkHookState false false (Some "Failed to switch network") false None
    /\ attestationStatus w' = None
    /\ log w'
       = Toast TError "Failed to switch network"
         :: SwitchChain (chainIdOf env (bp_fromNetwork p)) :: log w)).
  { apply out_done. unfold bridge. rewrite Hg. repeat rstep.
    unfold ensureSourceNetwork. rewrite Hc, Hsw. cbn [negb].
    repeat rstep. by repeat apply conj. }
  destruct Hrun as ([] & w' & Hrun & Hpost). by exists w'.
Qed.

Lemma failed_source_switch_stops_transfer_witness :
  exists w',
    bridge noSwitchEnv toArc (worldWith addrA recordBB) = Done tt w'
    /\ storage w' = savePendingBurn addrA None (storage (worldWith addrA recordBB))
    /\ hook w'
       = mkHookState false false (Some "Failed to switch network") false None
    /\ attestationStatus w' = None
    /\ log w'
       = Toast TError "Failed to switch network"
         :: SwitchChain (chainIdOf noSwitchEnv (bp_fromNetwork toArc))
         :: log (worldWith addrA recordBB).
Proof.
  apply (failed_source_switch_stops_transfer noSwitchEnv toArc addrA
           "User rejected the request." (worldWith addrA recordBB)).
  - reflexivity.
  - reflexivity.
  - reflexivity.
  - reflexivity.
  - reflexivity.
Defined.

(** What the outer [catch] of [bridge] does while no burn is recorded as
    confirmed. *)
Lemma bridgeCatch_without_burn env a p msg w :
  burnConfirmedRef (refs w) = false ->
  wpd (bridgeCatch env a p msg) w (fun _ w' =>
    storage w' = storage w
    /\ pendingBurn (hook w') = pendingBurn (hook w)
    /\ isBridging (hook w') = false
    /\ error (hook w') <> None
    /\ attestationStatus w' = None
    /\ head (log w') = Some (Toast TError "Bridge cancelled")).
Proof.
  intros Hb. unfold bridgeCatch. cbv zeta. wsteps. rewrite Hb, andb_false_r.
  cbn [andb]. wsteps. fields. by repeat apply conj.
Qed.

Lemma directBurn_without_burn env a p w :
  (forall args h, burnTx env args <> Ok h) ->
  outcome (directBurn env a p) w (fun _ _ => False)
    (fun _ w' => storage w' = storage w /\ hook w' = hook w
                 /\ attestationStatus w' = attestationStatus w
                 /\ refs w' = refs w)
    (fun w' => storage w' = storage w /\ hook w' = hook w
               /\ attestationStatus w' = attestationStatus w
               /\ refs w' = refs w).
Proof.
  intros Hno. unfold directBurn, withClient, throwIf, liftOutcome.
  destruct (parseUnits6 env (bp_amount p)) as [amountWei|msg];
    repeat bstep;
    first [ by (exfalso; eapply Hno; eassumption)
          | fields; by repeat apply conj ].
Qed.

Lemma ensureSourceNetwork_outcome env p w :
  outcome (ensureSourceNetwork env p) w
    (fun b w' =>
       storage w' = storage w
       /\ attestationStatus w' = attestationStatus w
       /\ if b then hook w' = hook w /\ refs w' = refs w
          else pendingBurn (hook w') = None)
    (fun _ _ => False)
    (fun w' => storage w' = storage w /\ hook w' = hook w
               /\ attestationStatus w' = attestationStatus w
               /\ refs w' = refs w).
Proof.
  unfold ensureSourceNetwork. repeat bstep; fields; by repeat apply conj.
Qed.

(** X13. A direct transfer whose burn transaction is never accepted by
    the wallet (a failed approval, a rejected burn, an interruption before
    it, ...) leaves no trace of a pending burn, however [bridge] ends: no
    record is stored for the initiator, none is shown in the state, and
    the status is cleared. *)
Theorem no_burn_no_record env p a w :
  bridgeGuards env p = Ok a ->
  bp_fromNetwork p = ethereumSepolia ->
  bp_toNetwork p = arcTestnet ->
  (forall args h, burnTx env args <> Ok h) ->
  loadPendingBurn a (storage (final (bridge env p w))) = None
  /\ pendingBurn (hook (final (bridge env p w))) = None
  /\ attestationStatus (final (bridge env p w)) = None.
Proof.
  intros Hg Hfrom Hto Hno.
  apply (out_final _ _ (fun w' =>
    loadPendingBurn a (storage w') = None
    /\ pendingBurn (hook w') = None
    /\ attestationStatus w' = None)).
  unfold bridge. rewrite Hg. do 8 bstep. apply out_bind.
  eapply out_mono; [apply ensureSourceNetwork_outcome| | |].
  2:{ intros ? ? []. }
  2:{ intros w1 (Hs & Hh & Ht & _). fields_in Hs. fields_in Hh. fields_in Ht.
      rewrite Hs, Hh, Ht. repeat apply conj; try reflexivity.
      apply load_save_none. }
  intros b w1 (Hs & Ht & Hb). fields_in Hs. fields_in Ht.
  destruct b.
  2:{ bstep. rewrite Hs, Ht. repeat apply conj; try done. apply load_save_none. }
  destruct Hb as [Hh Hr]. fields_in Hh. fields_in Hr.
  assert (Hcatch : forall msg w2,
    storage w2 = storage w1 -> hook w2 = hook w1 -> refs w2 = refs w1 ->
    outcome (bridgeCatch env a p msg) w2
      (fun _ w' => loadPendingBurn a (storage w') = None
                   /\ pendingBurn (hook w') = None
                   /\ attestationStatus w' = None)
      (fun _ w' => loadPendingBurn a (storage w') = None
                   /\ pendingBurn (hook w') = None
                   /\ attestationStatus w' = None)
      (fun w' => loadPendingBurn a (storage w') = None
                 /\ pendingBurn (hook w') = None
                 /\ attestationStatus w' = None)).
  { intros msg w2 Hs2 Hh2 Hr2. apply out_wpd. eapply wpd_mono.
    - apply bridgeCatch_without_burn. by rewrite Hr2, Hr.
    - intros _ w3 (Hs3 & Hp3 & _ & _ & Ht3 & _).
      rewrite Hs3, Hs2, Hs, Hp3, Hh2, Hh. repeat apply conj; try done.
      apply load_save_none. }
  assert (Hstop : forall w2,
    storage w2 = storage w1 -> hook w2 = hook w1 ->
    attestationStatus w2 = attestationStatus w1 ->
    loadPendingBurn a (storage w2) = None
    /\ pendingBurn (hook w2) = None
    /\ attestationStatus w2 = None).
  { intros w2 Hs2 Hh2 Ht2. rewrite Hs2, Hs, Hh2, Hh, Ht2, Ht.
    repeat apply conj; try done. apply load_save_none. }
  apply out_try. unfold bridgeBody, throwIf. rewrite Hfrom, Hto.
  repeat bstep; try (apply Hcatch; reflexivity); try (apply Hstop; reflexivity).
  unfold directBridge. apply out_bind.
  eapply out_mono; [by apply directBurn_without_burn| | |].
  - intros ? ? [].
  - intros msg w2 (Hs2 & Hh2 & _ & Hr2). by apply Hcatch.
  - intros w2 (Hs2 & Hh2 & Ht2 & _). by apply Hstop.
Qed.

Lemma no_burn_no_record_witness :
  loadPendingBurn addrA
    (storage (final (bridge rejectedBurnEnv toArc (worldWith addrA recordBB))))
  = None
  /\ pendingBurn
       (hook (final (bridge rejectedBurnEnv toArc (worldWith addrA recordBB))))
     = None
  /\ attestationStatus
       (final (bridge rejectedBurnEnv toArc (worldWith addrA recordBB)))
     = None.
Proof.
  apply (no_burn_no_record rejectedBurnEnv toArc addrA
           (worldWith addrA recordBB)).
  - reflexivity.
  - reflexivity.
  - reflexivity.
  - intros args h. discriminate.
Defined.

(** ** The Bridge Kit path *)

Lemma untouched_refl w : untouched w w.
Proof. by repeat apply conj. Qed.

Lemma untouched_trans w1 w2 w3 :
  untouched w1 w2 -> untouched w2 w3 -> untouched w1 w3.
Proof.
  intros (?&?&?&?&?&?) (?&?&?&?&?&?). repeat apply conj; congruence.
Qed.

Lemma run_onProgress p pg w :
  wpd (onProgress p pg) w (fun _ w' => untouched w w' /\ alive w' = alive w).
Proof.
  apply out_done. unfold onProgress. cbv zeta.
  destruct (truthy (progressHash pg));
    repeat first [ bstep | progress cbv iota beta ];
    (split; [|reflexivity]); unfold untouched; fields; by repeat apply conj.
Qed.

Lemma run_progress p l w :
  wpd (forEach (onProgress p) l) w (fun _ w' =>
    untouched w w' /\ alive w' = alive w).
Proof.
  revert w. induction l as [|pg l IH]; intros w; cbn [forEach].
  { wsteps. split; [apply untouched_refl|done]. }
  eapply wpd_seq; [apply run_onProgress|].
  intros [] w1 [Hu1 Ha1]. eapply wpd_mono; [apply IH|].
  intros [] w2 [Hu2 Ha2]. split; [by eapply untouched_trans|congruence].
Qed.

(** X14. Whatever progress events the SDK delivers and however its run
    ends, the run touches neither the store nor the pending burn, the
    error or the busy flags of the state, and the hook makes no mint call
    of its own. *)
Theorem runKit_leaves_store_and_state env p w :
  storage (final (runKit env p w)) = storage w
  /\ pendingBurn (hook (final (runKit env p w))) = pendingBurn (hook w)
  /\ error (hook (final (runKit env p w))) = error (hook w)
  /\ isBridging (hook (final (runKit env p w))) = isBridging (hook w)
  /\ mintEvents (log (final (runKit env p w))) = mintEvents (log w).
Proof.
  apply (out_final _ _ (fun w' =>
    storage w' = storage w
    /\ pendingBurn (hook w') = pendingBurn (hook w)
    /\ error (hook w') = error (hook w)
    /\ isBridging (hook w') = isBridging (hook w)
    /\ mintEvents (log w') = mintEvents (log w))).
  unfold runKit. do 4 bstep; [fields; by repeat apply conj| |done].
  eapply out_seq; [apply run_progress|].
  intros [] w1 [(Hs & Hp & He & Hb & _ & Hm) _].
  fields_in Hs. fields_in Hp. fields_in He. fields_in Hb. fields_in Hm.
  unfold liftOutcome. destruct (kitBridge env); bstep; by repeat apply conj.
Qed.

(** X15. A Bridge Kit transfer that the SDK reports with state
    ['success'] is complete when [bridge] returns: status [complete],
    mint confirmed, nothing pending, no error, nothing stored for the
    initiator; the hook itself made no mint call. *)
Theorem kit_success_completes_transfer env p a r w :
  bridgeGuards env p = Ok a ->
  bp_fromNetwork p = arcTestnet ->
  chainId_is (accountChainId env) (chainIdOf env (bp_fromNetwork p)) = true
  \/ hasSwitchChain env = false
  \/ switchChain env (chainIdOf env (bp_fromNetwork p)) = Ok tt ->
  hasProvider env = true ->
  createAdapter env = Ok tt ->
  kitBridge env = Ok (Some r) ->
  kr_state r = Some "success" ->
  alive w = None ->
  exists w',
    bridge env p w = Done tt w'
    /\ loadPendingBurn a (storage w') = None
    /\ hook w' = mkHookState false false None true None
    /\ attestationStatus w' = Some Complete
    /\ mintEvents (log w') = mintEvents (log w)
    /\ head (log w') = Some (Toast TSuccess "Bridge completed!").
Proof.
  intros Hg Hfrom Hnet Hprov Had Hkit Hstate Hw.
  assert (Hrun : wpd (bridge env p) w (fun _ w' =>
    loadPendingBurn a (storage w') = None
    /\ hook w' = mkHookState false false None true None
    /\ attestationStatus w' = Some Complete
    /\ mintEvents (log w') = mintEvents (log w)
    /\ head (log w') = Some (Toast TSuccess "Bridge completed!"))).
  { unfold bridge. rewrite Hg. wsteps.
    eapply wpd_seq; [by apply run_ensureSourceNetwork|].
    intros b w1 [-> Hc1]. apply wpd_try.
    pose proof (calm_alive _ _ Hc1 Hw) as Hw1.
    destruct Hc1 as (Hs1 & Hh1 & _ & _ & _ & Hm1).
    fields_in Hs1. fields_in Hh1. fields_in Hm1.
    unfold bridgeBody, throwIf. rewrite Hprov, Hfrom. cbn [negb]. wsteps.
    assert (Hkitrun : wpd (runKit env p ≫= afterKit env a p) w1 (fun _ w' =>
      loadPendingBurn a (storage w') = None
      /\ hook w' = mkHookState false false None true None
      /\ attestationStatus w' = Some Complete
      /\ mintEvents (log w') = mintEvents (log w)
      /\ head (log w') = Some (Toast TSuccess "Bridge completed!"))).
    { unfold runKit. wsteps.
      eapply wpd_seq; [apply run_progress|].
      intros [] w2 [(Hs2 & Hp2 & He2 & Hb2 & Hc2 & Hm2) Ha2].
      fields_in Hs2. fields_in Hp2. fields_in He2. fields_in Hb2. fields_in Hc2.
      fields_in Hm2. fields_in Ha2.
      rewrite Hkit. unfold liftOutcome. wsteps.
      unfold afterKit. cbv zeta. rewrite Hstate, String.eqb_refl. wsteps.
      destruct (truthy _); wsteps; fields;
        rewrite Hs2, Hs1, Hp2, He2, Hc2, Hm2, Hm1, Hh1;
        (repeat apply conj; try reflexivity; apply load_save_none). }
    destruct (bp_toNetwork p); exact Hkitrun. }
  destruct Hrun as ([] & w' & Hrun & Hpost). by exists w'.
Qed.

Lemma kit_success_completes_transfer_witness :
  exists w',
    bridge kitSuccessEnv toSepolia (worldWith addrA recordAA) = Done tt w'
    /\ loadPendingBurn addrA (storage w') = None
    /\ hook w' = mkHookState false false None true None
    /\ attestationStatus w' = Some Complete
    /\ mintEvents (log w') = mintEvents (log (worldWith addrA recordAA))
    /\ head (log w') = Some (Toast TSuccess "Bridge completed!").
Proof.
  apply (kit_success_completes_transfer kitSuccessEnv toSepolia addrA
           (mkKitResult (Some "success") None None None)
           (worldWith addrA recordAA)).
  - reflexivity.
  - reflexivity.
  - left. reflexivity.
  - reflexivity.
  - reflexivity.
  - reflexivity.
  - reflexivity.
  - reflexivity.
Defined.

Lemma truthy_idem o h : truthy o = Some h -> truthy (Some h) = Some h.
Proof.
  unfold truthy. destruct o as [s|]; [|done].
  destruct (String.eqb s "") eqn:He; [done|]. intros [= <-]. by rewrite He.
Qed.

(** X16. The finished-by-relay shortcut of the Bridge Kit path: when the
    SDK does not report success, the burn is known to be confirmed and the
    mint is not, the hook asks the attestation service once; if an
    attestation other than ['PENDING'] is there, it declares the transfer
    complete (status [complete], mint confirmed, nothing pending, no
    record stored) without any evidence of a mint. *)
Theorem relay_shortcut_completes_on_attestation env a p result h ok md rest w :
  kitState result <> Some "success" ->
  stepSucceeded (find isMintStep (kitSteps result)) = false ->
  mintConfirmedRef (refs w) = false ->
  burnConfirmedRef (refs w) = true ->
  truthy (burnTxHashRef (refs w)) = Some h ->
  attestationApi env (domainOf env (bp_fromNetwork p)) (Some h)
  = FetchBody ok (Some (md :: rest)) ->
  usable (md_attestation md) = true ->
  alive w = None ->
  exists w',
    afterKit env a p result w = Done tt w'
    /\ attestationStatus w' = Some Complete
    /\ mintConfirmed (hook w') = true
    /\ pendingBurn (hook w') = None
    /\ isBridging (hook w') = false
    /\ storage w' = storage w
    /\ mintEvents (log w') = mintEvents (log w)
    /\ head (log w') = Some (Toast TSuccess "Bridge completed!").
Proof.
  intros Hstate Hmint Hmc Hbc Hh Hapi Hu Hw.
  assert (Hrun : wpd (afterKit env a p result) w (fun _ w' =>
    attestationStatus w' = Some Complete
    /\ mintConfirmed (hook w') = true
    /\ pendingBurn (hook w') = None
    /\ isBridging (hook w') = false
    /\ storage w' = storage w
    /\ mintEvents (log w') = mintEvents (log w)
    /\ head (log w') = Some (Toast TSuccess "Bridge completed!"))).
  { unfold afterKit. cbv zeta. fold (kitSteps result) (kitState result).
    wsteps.
    assert (Hst : match kitState result with
                  | Some st => String.eqb st "success"
                  | None => false
                  end = false).
    { destruct (kitState result) as [st|]; [|done].
      destruct (String.eqb_spec st "success"); congruence. }
    rewrite Hst, Hmint, Hmc, Hbc, orb_true_r. cbn [orb andb negb].
    unfold or_else. rewrite Hh, (truthy_idem _ _ Hh). wsteps.
    apply wpd_try. unfold attestationPresent, fetchAttestation, awaitFetch.
    rewrite Hapi. wsteps. cbn [snd first_message]. wsteps. rewrite Hu. wsteps.
    fields. by repeat apply conj. }
  destruct Hrun as ([] & w' & Hrun & Hpost). by exists w'.
Qed.

Lemma relay_shortcut_completes_on_attestation_witness :
  exists w',
    afterKit kitRelayEnv addrA toSepolia
      (Some (mkKitResult (Some "error") None None None)) afterKitBurn
    = Done tt w'
    /\ attestationStatus w' = Some Complete
    /\ mintConfirmed (hook w') = true
    /\ pendingBurn (hook w') = None
    /\ isBridging (hook w') = false
    /\ storage w' = storage afterKitBurn
    /\ mintEvents (log w') = mintEvents (log afterKitBurn)
    /\ head (log w') = Some (Toast TSuccess "Bridge completed!").
Proof.
  apply (relay_shortcut_completes_on_attestation kitRelayEnv addrA toSepolia
           (Some (mkKitResult (Some "error") None None None)) hashBB
           true proofMessage [] afterKitBurn).
  - discriminate.
  - reflexivity.
  - reflexivity.
  - reflexivity.
  - reflexivity.
  - reflexivity.
  - reflexivity.
  - reflexivity.
Defined.

(** ** Claim, continued *)

(** X17. A claim whose mint transaction was sent is reported as a
    success whatever its receipt says: even when the receipt reports a
    reverted transaction, [claimPendingBridge] clears the stored record,
    sets the status [complete] and shows the success toast. *)
Theorem claim_succeeds_whatever_the_receipt env w a pb dest mb att w2 hash :
  pendingBurn (hook w) = Some pb ->
  hasWalletClient env = true ->
  truthy (address env) = Some a ->
  claimPrepare env pb (with_hook startClaiming w) = Done (dest, mb, att) w2 ->
  alive w2 = None ->
  mintTx env dest mb att = Ok hash ->
  hasPublicClient env dest = false \/ (exists ok, mintReceipt env hash = Ok ok) ->
  exists w',
    claimPendingBridge env w = Done tt w'
    /\ loadPendingBurn a (storage w') = None
    /\ pendingBurn (hook w') = None
    /\ error (hook w') = None
    /\ isClaiming (hook w') = false
    /\ mintConfirmed (hook w') = true
    /\ attestationStatus w' = Some Complete
    /\ head (log w') = Some (Toast TSuccess "USDC claimed successfully!").
Proof.
  intros Hpb Hwc Ha Hprep Hw2 Hmint Hrc.
  assert (Hrun : wpd (claimPendingBridge env) w (fun _ w' =>
    loadPendingBurn a (storage w') = None
    /\ pendingBurn (hook w') = None
    /\ error (hook w') = None
    /\ isClaiming (hook w') = false
    /\ mintConfirmed (hook w') = true
    /\ attestationStatus w' = Some Complete
    /\ head (log w') = Some (Toast TSuccess "USDC claimed successfully!"))).
  { unfold claimPendingBridge. wsteps. rewrite Hpb, Hwc, Ha. wsteps.
    apply wpd_try. unfold claimBody.
    apply (wpd_seq _ _ _ (fun x w' => x = (dest, mb, att) /\ w' = w2));
      [by exists (dest, mb, att), w2|].
    intros ? ? [-> ->]. unfold claimMint. wsteps.
    destruct Hrc as [Hcl|[ok Hok]].
    - rewrite Hcl. wsteps. fields.
      repeat apply conj; try reflexivity. apply load_save_none.
    - destruct (hasPublicClient env dest); wsteps; fields;
        (repeat apply conj; try reflexivity; apply load_save_none). }
  destruct Hrun as ([] & w' & Hrun & Hpost). by exists w'.
Qed.

Lemma claim_succeeds_whatever_the_receipt_witness :
  exists w',
    claimPendingBridge revertedMintEnv (worldWith addrA recordAA) = Done tt w'
    /\ loadPendingBurn addrA (storage w') = None
    /\ pendingBurn (hook w') = None
    /\ error (hook w') = None
    /\ isClaiming (hook w') = false
    /\ mintConfirmed (hook w') = true
    /\ attestationStatus w' = Some Complete
    /\ head (log w') = Some (Toast TSuccess "USDC claimed successfully!").
Proof.
  apply (claim_succeeds_whatever_the_receipt revertedMintEnv
           (worldWith addrA recordAA) addrA recordAA arcTestnet
           "0x0e55a6e" "0xa77e57"
           (final (claimPrepare revertedMintEnv recordAA
                     (with_hook startClaiming (worldWith addrA recordAA))))
           "0x3417").
  - reflexivity.
  - reflexivity.
  - reflexivity.
  - vm_compute. reflexivity.
  - vm_compute. reflexivity.
  - reflexivity.
  - right. exists false. reflexivity.
Defined.

(** Until its last steps the [try] block of a claim changes neither the
    store nor the state nor the status. *)
Lemma claimBody_thrown env a pb w :
  outcome (claimBody env a pb) w (fun _ _ => True)
    (fun _ w' => storage w' = storage w /\ hook w' = hook w
                 /\ attestationStatus w' = attestationStatus w)
    (fun _ => True).
Proof.
  unfold claimBody. apply out_bind.
  apply (out_clean (fun w' => storage w' = storage w /\ hook w' = hook w
                              /\ attestationStatus w' = attestationStatus w));
    [apply clean_claimPrepare; by intros|by repeat apply conj| |by intros|by intros].
  intros [[dest mb] att] w1 (Hs & Hh & Ht). unfold claimMint.
  repeat bstep; try done; fields; by repeat apply conj.
Qed.

(** X18. A claim that fails without the already-minted signal (a
    rejected signature, a failed switch, a pending attestation, ...)
    keeps everything needed to try again: the stored record and the
    pending burn of the state are unchanged, the status is unchanged, the
    error is reported and the claim is no longer in progress. *)
Theorem failed_claim_keeps_record env w a pb msg w2 :
  pendingBurn (hook w) = Some pb ->
  hasWalletClient env = true ->
  truthy (address env) = Some a ->
  claimBody env a pb (with_hook startClaiming w) = Thrown msg w2 ->
  includes (if String.eqb msg "" then "Failed to claim USDC" else msg)
           "already received" = false ->
  includes (if String.eqb msg "" then "Failed to claim USDC" else msg)
           "Nonce already used" = false ->
  exists w',
    claimPendingBridge env w = Done tt w'
    /\ storage w' = storage w
    /\ pendingBurn (hook w') = Some pb
    /\ error (hook w')
       = Some (if String.eqb msg "" then "Failed to claim USDC" else msg)
    /\ isClaiming (hook w') = false
    /\ attestationStatus w' = attestationStatus w
    /\ head (log w') = Some (Toast TError "Claim failed").
Proof.
  intros Hpb Hwc Ha Hthrown Hs1 Hs2.
  pose proof (claimBody_thrown env a pb (with_hook startClaiming w)) as Hfr.
  unfold outcome in Hfr. rewrite Hthrown in Hfr.
  destruct Hfr as (Hs & Hh & Ht). fields_in Hs. fields_in Hh. fields_in Ht.
  assert (Hrun : wpd (claimPendingBridge env) w (fun _ w' =>
    storage w' = storage w
    /\ pendingBurn (hook w') = Some pb
    /\ error (hook w')
       = Some (if String.eqb msg "" then "Failed to claim USDC" else msg)
    /\ isClaiming (hook w') = false
    /\ attestationStatus w' = attestationStatus w
    /\ head (log w') = Some (Toast TError "Claim failed"))).
  { unfold claimPendingBridge. wsteps. rewrite Hpb, Hwc, Ha. wsteps.
    eapply wpd_caught; [exact Hthrown|].
    unfold claimCatch. cbv zeta. rewrite Hs1, Hs2. cbn [orb]. wsteps.
    fields. rewrite Hh. unfold startClaiming. fields.
    by repeat apply conj. }
  destruct Hrun as ([] & w' & Hrun & Hpost). by exists w'.
Qed.

Lemma failed_claim_keeps_record_witness :
  exists w',
    claimPendingBridge rejectedClaimEnv (worldWith addrA recordAA) = Done tt w'
    /\ storage w' = storage (worldWith addrA recordAA)
    /\ pendingBurn (hook w') = Some recordAA
    /\ error (hook w')
       = Some (if String.eqb "User rejected the request." ""
               then "Failed to claim USDC" else "User rejected the request.")
    /\ isClaiming (hook w') = false
    /\ attestationStatus w' = attestationStatus (worldWith addrA recordAA)
    /\ head (log w') = Some (Toast TError "Claim failed").
Proof.
  apply (failed_claim_keeps_record rejectedClaimEnv (worldWith addrA recordAA)
           addrA recordAA "User rejected the request."
           (final (claimBody rejectedClaimEnv addrA recordAA
                     (with_hook startClaiming (worldWith addrA recordAA))))).
  - reflexivity.
  - reflexivity.
  - reflexivity.
  - vm_compute. reflexivity.
  - vm_compute. reflexivity.
  - vm_compute. reflexivity.
Defined.

(** ** Restore, continued *)

Lemma run_tryDomain env d h w :
  alive w = None ->
  wpd (try_catch
         (data ← fetchAttestation env d h; ret (first_message data))
         (fun _ => ret None)) w
      (fun r w' => r = answerOf (attestationApi env d h) /\ calm w w').
Proof.
  intros Hw. apply out_done. unfold fetchAttestation, awaitFetch.
  destruct (attestationApi env d h) as [|ok messages]; repeat rstep;
    (split; [reflexivity|by apply calm_event]).
Qed.

Lemma run_findMessage_two env d1 dir1 d2 dir2 h w :
  alive w = None ->
  wpd (findMessage env [(d1, dir1); (d2, dir2)] h) w
      (fun r w' =>
         r = match answerOf (attestationApi env d1 h) with
             | Some m => Some (m, dir1)
             | None =>
                 match answerOf (attestationApi env d2 h) with
                 | Some m => Some (m, dir2)
                 | None => None
                 end
             end
         /\ calm w w').
Proof.
  intros Hw. cbn [findMessage].
  eapply wpd_seq; [by apply run_tryDomain|].
  intros r1 w1 [-> Hc1]. destruct (answerOf (attestationApi env d1 h)).
  { wsteps. by split. }
  eapply wpd_seq; [apply run_tryDomain; by eapply calm_alive|].
  intros r2 w2 [-> Hc2]. destruct (answerOf (attestationApi env d2 h)).
  - wsteps. split; [done|by eapply calm_trans].
  - wsteps. split; [done|by eapply calm_trans].
Qed.

(** X19. What restore answers for a well-formed hash, when it is not
    interrupted.  The direction is the one of the first domain that knows
    the hash, Sepolia before Arc, whatever the page passed as networks.
    With an attestation other than ['PENDING'] the burn is shown as
    pending with status [pending_mint] and, if a wallet is connected,
    stored; with no wallet connected it is shown but not stored.  In
    every other case restore fails and changes nothing. *)
Theorem restore_detects_direction env h w :
  startsWith h "0x" = true ->
  String.length h = 66%nat ->
  alive w = None ->
  exists r w',
    restorePendingBurn env h w = Done r w'
    /\ match detected env h with
       | Some (md, (from, to)) =>
           if usable (md_attestation md) then
             success r = true
             /\ pendingBurn (hook w')
                = Some (mkPendingBurn (Some h) from to
                          match truthy (md_amount md) with
                          | Some units => unitsToAmount2 env units
                          | None => "0"
                          end (now env))
             /\ attestationStatus w' = Some PendingMint
             /\ storage w'
                = match truthy (address env) with
                  | Some a =>
                      savePendingBurn a
                        (Some (mkPendingBurn (Some h) from to
                                 match truthy (md_amount md) with
                                 | Some units => unitsToAmount2 env units
                                 | None => "0"
                                 end (now env)))
                        (storage w)
                  | None => storage w
                  end
           else
             success r = false /\ message r = stillProcessing
             /\ storage w' = storage w /\ hook w' = hook w
             /\ attestationStatus w' = attestationStatus w
       | None =>
           success r = false
           /\ storage w' = storage w /\ hook w' = hook w
           /\ attestationStatus w' = attestationStatus w
       end.
Proof.
  intros Hp Hl Hw. unfold restorePendingBurn.
  assert (String.eqb h "" = false) as -> by (destruct h; [discriminate Hl|done]).
  rewrite Hp, Hl. cbn [negb orb Nat.eqb].
  change (Nat.eqb 66 66) with true. cbv iota.
  apply wpd_try. eapply wpd_seq; [by apply run_findMessage_two|].
  intros r w1 [-> (Hs & Hh & Ht & _ & Ha & _)]. unfold detected.
  destruct (answerOf _) as [md|].
  { cbv iota beta zeta. destruct (usable (md_attestation md)); cbn [negb].
    - destruct (truthy (address env)); wsteps; fields; rewrite ?Hs, ?Hh;
        by repeat apply conj.
    - wsteps. by repeat apply conj. }
  destruct (answerOf _) as [md|].
  { cbv iota beta zeta. destruct (usable (md_attestation md)); cbn [negb].
    - destruct (truthy (address env)); wsteps; fields; rewrite ?Hs, ?Hh;
        by repeat apply conj.
    - wsteps. by repeat apply conj. }
  wsteps. by repeat apply conj.
Qed.

Lemma restore_detects_direction_witness :
  exists r w',
    restorePendingBurn arcOnlyEnv hashBB freshWorld = Done r w'
    /\ match detected arcOnlyEnv hashBB with
       | Some (md, (from, to)) =>
           if usable (md_attestation md) then
             success r = true
             /\ pendingBurn (hook w')
                = Some (mkPendingBurn (Some hashBB) from to
                          match truthy (md_amount md) with
                          | Some units => unitsToAmount2 arcOnlyEnv units
                          | None => "0"
                          end (now arcOnlyEnv))
             /\ attestationStatus w' = Some PendingMint
             /\ storage w'
                = match truthy (address arcOnlyEnv) with
                  | Some a =>
                      savePendingBurn a
                        (Some (mkPendingBurn (Some hashBB) from to
                                 match truthy (md_amount md) with
                                 | Some units => unitsToAmount2 arcOnlyEnv units
                                 | None => "0"
                                 end (now arcOnlyEnv)))
                        (storage freshWorld)
                  | None => storage freshWorld
                  end
           else
             success r = false /\ message r = stillProcessing
             /\ storage w' = storage freshWorld /\ hook w' = hook freshWorld
             /\ attestationStatus w' = attestationStatus freshWorld
       | None =>
           success r = false
           /\ storage w' = storage freshWorld /\ hook w' = hook freshWorld
           /\ attestationStatus w' = attestationStatus freshWorld
       end.
Proof.
  apply (restore_detects_direction arcOnlyEnv hashBB freshWorld).
  - reflexivity.
  - reflexivity.
  - reflexivity.
Defined.

(** ** Reconciliation, continued *)

(** X20. When the attestation service cannot be reached, reconciliation
    is conservative: the stored record is kept as it is and shown as
    pending with status [pending_mint]; nothing but the one request
    happened. *)
Theorem reconcile_keeps_record_when_service_fails env w a r :
  truthy (address env) = Some a ->
  loadPendingBurn a (storage w) = Some r ->
  alive w <> Some 0%nat ->
  attestationApi env (domainOf env (fromNetwork r)) (txHash r) = FetchFailed ->
  exists w',
    loadOnConnect env w = Done tt w'
    /\ storage w' = storage w
    /\ pendingBurn (hook w') = Some r
    /\ attestationStatus w' = Some PendingMint
    /\ log w' = Fetch (domainOf env (fromNetwork r)) (txHash r) :: log w.
Proof.
  intros Ha Hload Hw Hapi.
  assert (Hrun : wpd (loadOnConnect env) w (fun _ w' =>
    storage w' = storage w
    /\ pendingBurn (hook w') = Some r
    /\ attestationStatus w' = Some PendingMint
    /\ log w' = Fetch (domainOf env (fromNetwork r)) (txHash r) :: log w)).
  { apply out_done. unfold loadOnConnect. rewrite Ha. do 2 ostep.
    rewrite Hload. unfold verifyAndLoad, fetchAttestation, awaitFetch.
    rewrite Hapi. repeat ostep; try (exfalso; congruence).
    { exact (Hw ltac:(assumption)). }
    by repeat apply conj. }
  destruct Hrun as ([] & w' & Hrun & Hpost). by exists w'.
Qed.

Lemma reconcile_keeps_record_when_service_fails_witness :
  exists w',
    loadOnConnect timeoutEnv (worldWith addrA recordAA) = Done tt w'
    /\ storage w' = storage (worldWith addrA recordAA)
    /\ pendingBurn (hook w') = Some recordAA
    /\ attestationStatus w' = Some PendingMint
    /\ log w'
       = Fetch (domainOf timeoutEnv (fromNetwork recordAA)) (txHash recordAA)
         :: log (worldWith addrA recordAA).
Proof.
  apply (reconcile_keeps_record_when_service_fails timeoutEnv
           (worldWith addrA recordAA) addrA recordAA).
  - reflexivity.
  - reflexivity.
  - discriminate.
  - reflexivity.
Defined.

(** X21. When the attestation service knows the stored burn,
    reconciliation rewrites the record with the same hash, direction and
    time, and fills in the amount from the service only where the stored
    amount is empty or ['0'].  A pending attestation gives the status
    [pending] and an information toast and never schedules the automatic
    claim; an attestation at hand gives [pending_mint]. *)
Theorem reconcile_updates_record env w a r ok md rest :
  truthy (address env) = Some a ->
  loadPendingBurn a (storage w) = Some r ->
  alive w <> Some 0%nat ->
  attestationApi env (domainOf env (fromNetwork r)) (txHash r)
  = FetchBody ok (Some (md :: rest)) ->
  exists w',
    loadOnConnect env w = Done tt w'
    /\ loadPendingBurn a (storage w')
       = Some (mkPendingBurn (txHash r) (fromNetwork r) (toNetwork r)
                 (if String.eqb (amount r) "" || String.eqb (amount r) "0"
                  then match truthy (md_amount md) with
                       | Some units => unitsToAmount env units
                       | None => amount r
                       end
                  else amount r)
                 (timestamp r))
    /\ pendingBurn (hook w') = loadPendingBurn a (storage w')
    /\ attestationStatus w'
       = Some (if usable (md_attestation md) then PendingMint else Pending)
    /\ log w'
       = ((if usable (md_attestation md) then
             if chainId_is (accountChainId env) (chainIdOf env arcTestnet)
             then [AutoClaim; Toast TInfo "Auto-claiming bridged USDC..."]
             else [Toast TInfo "You have unclaimed USDC!"]
           else [Toast TInfo "Bridge in progress..."])
          ++ Fetch (domainOf env (fromNetwork r)) (txHash r) :: log w)%list.
Proof.
  intros Ha Hload Hw Hapi.
  assert (Hrun : wpd (loadOnConnect env) w (fun _ w' =>
    loadPendingBurn a (storage w')
    = Some (mkPendingBurn (txHash r) (fromNetwork r) (toNetwork r)
              (if String.eqb (amount r) "" || String.eqb (amount r) "0"
               then match truthy (md_amount md) with
                    | Some units => unitsToAmount env units
                    | None => amount r
                    end
               else amount r)
              (timestamp r))
    /\ pendingBurn (hook w') = loadPendingBurn a (storage w')
    /\ attestationStatus w'
       = Some (if usable (md_attestation md) then PendingMint else Pending)
    /\ log w'
       = ((if usable (md_attestation md) then
             if chainId_is (accountChainId env) (chainIdOf env arcTestnet)
             then [AutoClaim; Toast TInfo "Auto-claiming bridged USDC..."]
             else [Toast TInfo "You have unclaimed USDC!"]
           else [Toast TInfo "Bridge in progress..."])
          ++ Fetch (domainOf env (fromNetwork r)) (txHash r) :: log w)%list)).
  { apply out_done. unfold loadOnConnect. rewrite Ha. do 2 ostep.
    rewrite Hload. unfold verifyAndLoad, fetchAttestation, awaitFetch.
    rewrite Hapi. cbv iota beta. repeat ostep; try (exfalso; congruence).
    { exact (Hw ltac:(assumption)). }
    match goal with H : Ok _ = Ok _ |- _ => injection H as <- end.
    cbn [snd first_message]. cbv zeta.
    destruct (usable (md_attestation md)); cbn [negb];
      repeat ostep; fields; cbn [storage with_storage];
      rewrite load_save_some; by repeat apply conj. }
  destruct Hrun as ([] & w' & Hrun & Hpost). by exists w'.
Qed.

Lemma reconcile_updates_record_witness :
  exists w',
    loadOnConnect pendingEnv (worldWith addrA recordBB) = Done tt w'
    /\ loadPendingBurn addrA (storage w')
       = Some (mkPendingBurn (txHash recordBB) (fromNetwork recordBB)
                 (toNetwork recordBB)
                 (if String.eqb (amount recordBB) ""
                     || String.eqb (amount recordBB) "0"
                  then match truthy (md_amount pendingMessage) with
                       | Some units => unitsToAmount pendingEnv units
                       | None => amount recordBB
                       end
                  else amount recordBB)
                 (timestamp recordBB))
    /\ pendingBurn (hook w') = loadPendingBurn addrA (storage w')
    /\ attestationStatus w'
       = Some (if usable (md_attestation pendingMessage)
               then PendingMint else Pending)
    /\ log w'
       = ((if usable (md_attestation pendingMessage) then
             if chainId_is (accountChainId pendingEnv)
                           (chainIdOf pendingEnv arcTestnet)
             then [AutoClaim; Toast TInfo "Auto-claiming bridged USDC..."]
             else [Toast TInfo "You have unclaimed USDC!"]
           else [Toast TInfo "Bridge in progress..."])
          ++ Fetch (domainOf pendingEnv (fromNetwork recordBB)) (txHash recordBB)
             :: log (worldWith addrA recordBB))%list.
Proof.
  apply (reconcile_updates_record pendingEnv (worldWith addrA recordBB)
           addrA recordBB true pendingMessage []).
  - reflexivity.
  - reflexivity.
  - discriminate.
  - reflexivity.
Defined.

(** ** Dismissal and reset *)

(** X22. Dismissal is local and final: [clearPendingBurn] sends nothing
    and cannot fail, it leaves no record for the connected address and no
    pending burn or status in the state, and a reconciliation that follows
    finds nothing to do. *)
Theorem dismissal_is_final env w :
  clearPendingBurn env w = Done tt (final (clearPendingBurn env w))
  /\ log (final (clearPendingBurn env w)) = log w
  /\ pendingBurn (hook (final (clearPendingBurn env w))) = None
  /\ attestationStatus (final (clearPendingBurn env w)) = None
  /\ match truthy (address env) with
     | Some a => loadPendingBurn a (storage (final (clearPendingBurn env w))) = None
     | None => storage (final (clearPendingBurn env w)) = storage w
     end
  /\ loadOnConnect env (final (clearPendingBurn env w))
     = Done tt (final (clearPendingBurn env w)).
Proof.
  set (cleared := fun prev : HookState =>
         mkHookState (isBridging prev) (isClaiming prev) (error prev)
                     (mintConfirmed prev) None).
  unfold loadOnConnect. destruct (truthy (address env)) as [a|] eqn:Ha.
  - assert (Hrun : clearPendingBurn env w
                   = Done tt (with_status None (with_hook cleared
                                (with_storage (savePendingBurn a None) w)))).
    { unfold clearPendingBurn. by rewrite Ha. }
    rewrite Hrun. cbn [final]. fields.
    erewrite bind_done by reflexivity. fields. rewrite load_save_none.
    by repeat apply conj.
  - assert (Hrun : clearPendingBurn env w
                   = Done tt (with_status None (with_hook cleared w))).
    { unfold clearPendingBurn. by rewrite Ha. }
    rewrite Hrun. by repeat apply conj.
Qed.

(** X23. [reset] touches neither the store nor the log, so a stored
    record survives it; and calling it before a transfer is redundant: a
    transfer that passes its guards runs exactly as without the reset. *)
Theorem reset_before_transfer_is_redundant env p a w :
  bridgeGuards env p = Ok a ->
  storage (final (reset w)) = storage w
  /\ log (final (reset w)) = log w
  /\ hook (final (reset w)) = initialState
  /\ bridge env p (final (reset w)) = bridge env p w.
Proof.
  intros Hg. repeat apply conj; try reflexivity.
  unfold bridge. rewrite Hg.
  repeat (rewrite (bind_done _ _ _ tt _ eq_refl); symmetry;
          rewrite (bind_done _ _ _ tt _ eq_refl); symmetry).
  reflexivity.
Qed.

Lemma reset_before_transfer_is_redundant_witness :
  storage (final (reset (worldWith addrA recordAA)))
  = storage (worldWith addrA recordAA)
  /\ log (final (reset (worldWith addrA recordAA)))
     = log (worldWith addrA recordAA)
  /\ hook (final (reset (worldWith addrA recordAA))) = initialState
  /\ bridge timeoutEnv toArc (final (reset (worldWith addrA recordAA)))
     = bridge timeoutEnv toArc (worldWith addrA recordAA).
Proof.
  apply (reset_before_transfer_is_redundant timeoutEnv toArc addrA
           (worldWith addrA recordAA)).
  reflexivity.
Defined.

(** ** The guards of a transfer *)

(** X24. A transfer starts only with a connected wallet, a non-empty
    amount that does not parse to zero or less, and one of the two
    supported directions; otherwise [bridge] shows the reason in a toast
    and changes nothing else: no request, no state change, and a stored
    record stays. *)
Theorem transfer_guards env p w :
  match bridgeGuards env p with
  | Ok a =>
      truthy (address env) = Some a
      /\ isConnected env = true
      /\ hasConnectorClient env = true
      /\ hasWalletClient env = true
      /\ bp_amount p <> ""
      /\ parseFloatLe0 env (bp_amount p) = false
      /\ bp_toNetwork p = otherNetwork (bp_fromNetwork p)
  | Err msg => bridge env p w = Done tt (with_event (Toast TError msg) w)
  end.
Proof.
  destruct (bridgeGuards env p) as [a|msg] eqn:Hg.
  - unfold bridgeGuards in Hg. destruct (truthy (address env)) as [a'|]; [|done].
    destruct (isConnected env), (hasConnectorClient env), (hasWalletClient env);
      try done. cbn [andb negb] in Hg.
    destruct (String.eqb_spec (bp_amount p) ""); [done|]. cbn [orb] in Hg.
    destruct (parseFloatLe0 env (bp_amount p)); [done|].
    destruct (bp_fromNetwork p), (bp_toNetwork p); try done;
      injection Hg as ->; by repeat apply conj.
  - unfold bridge. by rewrite Hg.
Qed.

(** ** Claim: prerequisites and destination *)

(** X25. A claim never rejects and never leaves the hook busy: every
    error of its [try] block is caught, and when [claimPendingBridge]
    returns, whether the claim went through, failed or was refused for a
    missing pending burn or wallet, [isClaiming] is off. *)
Theorem claim_never_stays_busy env w :
  isClaiming (hook w) = false ->
  match claimPendingBridge env w with
  | Done _ w' => isClaiming (hook w') = false
  | Thrown _ _ => False
  | Halted _ => True
  end.
Proof.
  intros Hc.
  change (outcome (claimPendingBridge env) w
            (fun _ w' => isClaiming (hook w') = false)
            (fun _ _ => False) (fun _ => True)).
  unfold claimPendingBridge. do 2 bstep.
  destruct (pendingBurn (hook w)) as [pb|]; [|by bstep].
  destruct (hasWalletClient env); [|by bstep].
  destruct (truthy (address env)) as [a|]; [|by bstep].
  do 3 bstep. unfold claimBody. apply out_bind.
  apply (out_clean (fun _ => True));
    [apply clean_claimPrepare; by intros|done| | |done].
  - intros [[dest mb] att] w1 _. unfold claimMint, claimCatch.
    repeat first [ bstep | progress cbv zeta ]; done.
  - intros msg w1 _. unfold claimCatch.
    repeat first [ bstep | progress cbv zeta ]; done.
Qed.

Lemma claim_never_stays_busy_witness :
  match claimPendingBridge rejectedClaimEnv (worldWith addrA recordAA) with
  | Done _ w' => isClaiming (hook w') = false
  | Thrown _ _ => False
  | Halted _ => True
  end.
Proof.
  apply (claim_never_stays_busy rejectedClaimEnv (worldWith addrA recordAA)).
  reflexivity.
Defined.

(** X26. The destination of a claim follows the attestation service, not
    the record: when the service knows the hash on the source domain of
    the record, the mint goes to the record's destination; when it knows
    the hash only on the other domain, the mint goes to the network the
    record names as its source. *)
Theorem claim_destination_follows_the_service env pb md mb att dest w :
  alive w = None ->
  (answerOf (attestationApi env (domainOf env (fromNetwork pb)) (txHash pb))
   = Some md /\ dest = toNetwork pb)
  \/ (answerOf (attestationApi env (domainOf env (fromNetwork pb)) (txHash pb))
      = None
      /\ answerOf (attestationApi env
                     (domainOf env (otherNetwork (fromNetwork pb))) (txHash pb))
         = Some md
      /\ dest = fromNetwork pb) ->
  usable (md_attestation md) = true ->
  truthy (md_attestation md) = Some att ->
  truthy (md_message md) = Some mb ->
  chainId_is (accountChainId env) (chainIdOf env dest) = true ->
  hasProvider env = true ->
  ethChainIdFinal env = Ok (chainIdOf env dest) ->
  exists w',
    claimPrepare env pb w = Done (dest, mb, att) w'
    /\ storage w' = storage w /\ hook w' = hook w
    /\ mintEvents (log w') = mintEvents (log w).
Proof.
  intros Hw Hfound Hu Hatt Hmb Hchain Hprov Hfin.
  assert (Hrun : wpd (claimPrepare env pb) w (fun x w' =>
    x = (dest, mb, att)
    /\ storage w' = storage w /\ hook w' = hook w
    /\ mintEvents (log w') = mintEvents (log w))).
  { unfold claimPrepare. cbv zeta. wsteps.
    eapply wpd_seq; [by apply run_findMessage_two|].
    intros r w1 [-> Hc1].
    pose proof (calm_alive _ _ Hc1 Hw) as Hw1.
    destruct Hc1 as (Hs1 & Hh1 & _ & _ & _ & Hm1).
    fields_in Hs1. fields_in Hh1. fields_in Hm1.
    assert (Hrest : forall d, d = dest ->
      wpd (match truthy (md_attestation md), usable (md_attestation md) with
           | Some attestation, true =>
               match truthy (md_message md) with
               | None => throw "Message bytes not found in attestation response"
               | Some messageBytes =>
                   (if negb (chainId_is (accountChainId env) (chainIdOf env d))
                    then
                      toast TInfo ("Switching to " ++ networkName env d ++ "...");;
                      if negb (hasSwitchChain env) then
                        throw ("Please switch to " ++ networkName env d
                               ++ " manually in MetaMask")
                      else
                        try_catch
                          (emit (SwitchChain (chainIdOf env d));;
                           await (switchChain env (chainIdOf env d));;
                           throwIf (negb (hasProvider env))
                             "No wallet provider available";;
                           switched ← awaitSwitch env 10 0 (chainIdOf env d);
                           throwIf (negb switched)
                             "Network switch timeout - please switch to destination network manually")
                          (fun _ =>
                             throw ("Failed to switch network. Please switch to "
                                    ++ networkName env d ++ " manually."))
                    else ret tt);;
                   toast TInfo "Claiming your USDC...";;
                   throwIf (negb (hasProvider env))
                     "No wallet provider available after network switch";;
                   currentChainIdNumber ← await (ethChainIdFinal env);
                   throwIf (negb (Z.eqb currentChainIdNumber (chainIdOf env d)))
                           notSwitched;;
                   ret (d, messageBytes, attestation)
               end
           | _, _ => throw stillProcessing
           end) w1
          (fun x w' =>
             x = (dest, mb, att)
             /\ storage w' = storage w /\ hook w' = hook w
             /\ mintEvents (log w') = mintEvents (log w))).
    { intros d ->. rewrite Hatt, Hu, Hmb, Hchain. cbn [negb].
      unfold throwIf. rewrite Hprov. cbn [negb]. wsteps.
      rewrite Z.eqb_refl. cbn [negb]. wsteps. fields.
      by repeat apply conj. }
    destruct Hfound as [[-> ->]|(-> & -> & ->)]; cbv iota beta.
    - by apply Hrest.
    - apply Hrest. by destruct (fromNetwork pb). }
  destruct Hrun as (x & w' & Hrun & -> & Hpost). by exists w'.
Qed.

Lemma claim_destination_follows_the_service_witness :
  exists w',
    claimPrepare misdirectedEnv recordAA (worldWith addrA recordAA)
    = Done (ethereumSepolia, "0x0e55a6e", "0xa77e57") w'
    /\ storage w' = storage (worldWith addrA recordAA)
    /\ hook w' = hook (worldWith addrA recordAA)
    /\ mintEvents (log w') = mintEvents (log (worldWith addrA recordAA)).
Proof.
  apply (claim_destination_follows_the_service misdirectedEnv recordAA
           proofMessage "0x0e55a6e" "0xa77e57" ethereumSepolia
           (worldWith addrA recordAA)).
  - reflexivity.
  - right. repeat split.
  - reflexivity.
  - reflexivity.
  - reflexivity.
  - reflexivity.
  - reflexivity.
  - reflexivity.
Defined.

(** ** The Bridge Kit path when the SDK fails *)

Ltac decide_events :=
  repeat match goal with
         | |- context [isOneOf ?s ?l] =>
             let b := eval vm_compute in (isOneOf s l) in
             change (isOneOf s l) with b
         end.

(** The confirmation flags are only ever raised by progress events, and a
    burn hash once known stays known. *)
Lemma onProgress_flags p pg w :
  wpd (onProgress p pg) w (fun _ w' =>
    (burnConfirmedRef (refs w) = true -> burnConfirmedRef (refs w') = true)
    /\ (is_truthy (burnTxHashRef (refs w)) = true ->
        is_truthy (burnTxHashRef (refs w')) = true)
    /\ (mintConfirmedRef (refs w) = true -> mintConfirmedRef (refs w') = true)
    /\ (isOneOf (default "" (pg_event pg)) ["MINT_CONFIRMED"; "complete"] = false ->
        mintConfirmedRef (refs w') = mintConfirmedRef (refs w))).
Proof.
  apply out_done. unfold onProgress. cbv zeta.
  destruct (truthy (progressHash pg)) as [h|] eqn:Hh;
    repeat first [ bstep | progress cbv iota beta ]; fields;
    repeat apply conj; try done.
  all: try (intros _; unfold is_truthy; by rewrite (truthy_idem _ _ Hh)).
  all: intros Ht; rewrite Ht; done.
Qed.

Lemma onProgress_burn_confirmed p pg h w :
  pg_event pg = Some "BURN_CONFIRMED" ->
  truthy (progressHash pg) = Some h ->
  wpd (onProgress p pg) w (fun _ w' =>
    burnConfirmedRef (refs w') = true
    /\ is_truthy (burnTxHashRef (refs w')) = true).
Proof.
  intros Hev Hh. unfold onProgress. rewrite Hev, Hh. cbv zeta. cbn [default].
  decide_events. cbv iota. wsteps. fields. split; [done|].
  destruct (is_truthy (burnTxHashRef (refs w))) eqn:Ht; [done|].
  unfold is_truthy. by rewrite (truthy_idem _ _ Hh).
Qed.

Lemma onProgress_mint_confirmed p pg w :
  pg_event pg = Some "MINT_CONFIRMED" ->
  wpd (onProgress p pg) w (fun _ w' => mintConfirmedRef (refs w') = true).
Proof.
  intros Hev. unfold onProgress. rewrite Hev. cbv zeta. cbn [default].
  decide_events. cbv iota. wsteps. done.
Qed.

Lemma progress_flags p l w :
  wpd (forEach (onProgress p) l) w (fun _ w' =>
    (burnConfirmedRef (refs w) = true -> burnConfirmedRef (refs w') = true)
    /\ (is_truthy (burnTxHashRef (refs w)) = true ->
        is_truthy (burnTxHashRef (refs w')) = true)
    /\ (mintConfirmedRef (refs w) = true -> mintConfirmedRef (refs w') = true)
    /\ (Forall (fun pg => isOneOf (default "" (pg_event pg))
                            ["MINT_CONFIRMED"; "complete"] = false) l ->
        mintConfirmedRef (refs w') = mintConfirmedRef (refs w))).
Proof.
  revert w. induction l as [|pg l IH]; intros w; cbn [forEach].
  { wsteps. by repeat apply conj. }
  eapply wpd_seq; [apply onProgress_flags|].
  intros [] w1 (Hb1 & Hh1 & Hm1 & Hn1). eapply wpd_mono; [apply IH|].
  intros [] w2 (Hb2 & Hh2 & Hm2 & Hn2). repeat apply conj; auto.
  intros Hall. apply Forall_cons in Hall as [Hpg Hall].
  rewrite Hn2, Hn1; done.
Qed.

Lemma progress_burn_confirmed p l pg h w :
  In pg l ->
  pg_event pg = Some "BURN_CONFIRMED" ->
  truthy (progressHash pg) = Some h ->
  wpd (forEach (onProgress p) l) w (fun _ w' =>
    burnConfirmedRef (refs w') = true
    /\ is_truthy (burnTxHashRef (refs w')) = true).
Proof.
  intros Hin Hev Hh. revert w. induction l as [|pg' l IH]; intros w; [done|].
  cbn [forEach]. destruct Hin as [->|Hin].
  - eapply wpd_seq; [by eapply onProgress_burn_confirmed|].
    intros [] w1 [Hb Ht]. eapply wpd_mono; [apply progress_flags|].
    intros [] w2 (Hb2 & Hh2 & _). auto.
  - eapply wpd_seq; [apply onProgress_flags|].
    intros [] w1 _. by apply IH.
Qed.

Lemma progress_mint_confirmed p l pg w :
  In pg l ->
  pg_event pg = Some "MINT_CONFIRMED" ->
  wpd (forEach (onProgress p) l) w (fun _ w' =>
    mintConfirmedRef (refs w') = true).
Proof.
  intros Hin Hev. revert w. induction l as [|pg' l IH]; intros w; [done|].
  cbn [forEach]. destruct Hin as [->|Hin].
  - eapply wpd_seq; [by eapply onProgress_mint_confirmed|].
    intros [] w1 Hm. eapply wpd_mono; [apply progress_flags|].
    intros [] w2 (_ & _ & Hm2 & _). auto.
  - eapply wpd_seq; [apply onProgress_flags|].
    intros [] w1 _. by apply IH.
Qed.

(** The three facts about one run of the events together. *)
Lemma run_progress_all p l w :
  exists w',
    forEach (onProgress p) l w = Done tt w'
    /\ untouched w w' /\ alive w' = alive w
    /\ (forall pg h, In pg l -> pg_event pg = Some "BURN_CONFIRMED" ->
          truthy (progressHash pg) = Some h ->
          burnConfirmedRef (refs w') = true
          /\ is_truthy (burnTxHashRef (refs w')) = true)
    /\ (forall pg, In pg l -> pg_event pg = Some "MINT_CONFIRMED" ->
          mintConfirmedRef (refs w') = true)
    /\ (Forall (fun pg => isOneOf (default "" (pg_event pg))
                            ["MINT_CONFIRMED"; "complete"] = false) l ->
        mintConfirmedRef (refs w') = mintConfirmedRef (refs w)).
Proof.
  destruct (run_progress p l w) as ([] & w' & Hrun & Hu & Ha).
  exists w'. do 3 (split; [done|]). split; [|split].
  - intros pg h Hin Hev Hh.
    destruct (progress_burn_confirmed p l pg h w Hin Hev Hh)
      as ([] & w'' & Hrun' & Hpost). congruence.
  - intros pg Hin Hev.
    destruct (progress_mint_confirmed p l pg w Hin Hev)
      as ([] & w'' & Hrun' & Hpost). congruence.
  - intros Hall.
    destruct (progress_flags p l w) as ([] & w'' & Hrun' & _ & _ & _ & Hpost).
    assert (w'' = w') as -> by congruence. by apply Hpost.
Qed.

Lemma wpd_bridgeCatch env a p msg w Q :
  wpd (r ← gets refs;
     if isNetworkError (userMessage msg) && burnConfirmedRef r then
       toast TError "Network switch required";;
       setState (fun prev =>
         mkHookState false (isClaiming prev) (error prev) (mintConfirmed prev)
                     (Some (newPendingBurn env (burnTxHashRef r) p)))
     else if burnConfirmedRef r && is_truthy (burnTxHashRef r) then
       if mintConfirmedRef r then ret tt
       else
         setAttestationStatus (Some PendingMint);;
         toast TWarning "Your funds are safe!";;
         save a (Some (newPendingBurn env (burnTxHashRef r) p));;
         setState (fun prev =>
           mkHookState false (isClaiming prev) (Some notCompleted) false
                       (Some (newPendingBurn env (burnTxHashRef r) p)))
     else
       setAttestationStatus None;;
       setState (fun prev =>
         mkHookState false (isClaiming prev) (Some (userMessage msg)) false
                     (pendingBurn prev));;
       toast TError "Bridge cancelled") w Q ->
  wpd (bridgeCatch env a p msg) w Q.
Proof. intros H. exact H. Qed.

(** The Bridge Kit path up to the failure of the SDK. *)
Lemma run_kit_to_catch env p a msg w Q :
  bridgeGuards env p = Ok a ->
  bp_fromNetwork p = arcTestnet ->
  chainId_is (accountChainId env) (chainIdOf env (bp_fromNetwork p)) = true
  \/ hasSwitchChain env = false
  \/ switchChain env (chainIdOf env (bp_fromNetwork p)) = Ok tt ->
  hasProvider env = true ->
  createAdapter env = Ok tt ->
  kitBridge env = Err msg ->
  alive w = None ->
  (forall w0 w1,
     storage w0 = savePendingBurn a None (storage w) ->
     hook w0 = mkHookState true false None false None ->
     refs w0 = initialRefs ->
     forEach (onProgress p) (kitProgress env) w0 = Done tt w1 ->
     alive w1 = None ->
     wpd (bridgeCatch env a p msg) w1 Q) ->
  wpd (bridge env p) w Q.
Proof.
  intros Hg Hfrom Hnet Hprov Had Hkit Hw Hcatch.
  unfold bridge. rewrite Hg. wsteps.
  eapply wpd_seq; [by apply run_ensureSourceNetwork|].
  intros b w1 [-> Hc1].
  pose proof (calm_alive _ _ Hc1 Hw) as Hw1.
  destruct Hc1 as (Hs1 & Hh1 & _ & Hr1 & _ & _).
  fields_in Hs1. fields_in Hh1. fields_in Hr1.
  destruct (run_progress_all p (kitProgress env)
              (with_event (KitBridge p) w1)) as (w2 & Hrun & _ & Ha2 & _).
  fields_in Ha2.
  assert (Hbody : bridgeBody env a p w1 = Thrown msg w2).
  { unfold bridgeBody, throwIf. rewrite Hprov, Hfrom. cbn [negb].
    erewrite bind_done by reflexivity.
    erewrite bind_done; [|unfold await; rewrite Hw1, Had, tick_none; done].
    assert (Hkitrun : (runKit env p ≫= afterKit env a p) w1 = Thrown msg w2).
    { apply bind_thrown. unfold runKit.
      erewrite bind_done by reflexivity.
      erewrite bind_done;
        [|unfold await; fields; rewrite Hw1, tick_none; done].
      erewrite bind_done by exact Hrun.
      rewrite Hkit. reflexivity. }
    destruct (bp_toNetwork p); exact Hkitrun. }
  eapply wpd_caught; [exact Hbody|].
  eapply (Hcatch (with_event (KitBridge p) w1) w2); try done.
  congruence.
Qed.

(** X27. When the SDK has reported the burn (with its hash) and no mint
    as confirmed and then fails with an error that does not mention the
    network, the transfer is kept for a later claim: [bridge] stores a
    record with a burn hash for the initiator, shows it as pending with
    status [pending_mint] and is no longer busy. *)
Theorem kit_error_after_burn_is_persisted env p a msg pg h w :
  bridgeGuards env p = Ok a ->
  bp_fromNetwork p = arcTestnet ->
  chainId_is (accountChainId env) (chainIdOf env (bp_fromNetwork p)) = true
  \/ hasSwitchChain env = false
  \/ switchChain env (chainIdOf env (bp_fromNetwork p)) = Ok tt ->
  hasProvider env = true ->
  createAdapter env = Ok tt ->
  In pg (kitProgress env) ->
  pg_event pg = Some "BURN_CONFIRMED" ->
  truthy (progressHash pg) = Some h ->
  Forall (fun pg => isOneOf (default "" (pg_event pg))
                      ["MINT_CONFIRMED"; "complete"] = false)
         (kitProgress env) ->
  kitBridge env = Err msg ->
  isNetworkError (userMessage msg) = false ->
  alive w = None ->
  exists w' r,
    bridge env p w = Done tt w'
    /\ loadPendingBurn a (storage w') = Some r
    /\ is_truthy (txHash r) = true
    /\ pendingBurn (hook w') = Some r
    /\ isBridging (hook w') = false
    /\ error (hook w') = Some notCompleted
    /\ attestationStatus w' = Some PendingMint.
Proof.
  intros Hg Hfrom Hnet Hprov Had Hin Hev Hh Hnomint Hkit Hne Hw.
  assert (Hrun : wpd (bridge env p) w (fun _ w' =>
    exists r,
      loadPendingBurn a (storage w') = Some r
      /\ is_truthy (txHash r) = true
      /\ pendingBurn (hook w') = Some r
      /\ isBridging (hook w') = false
      /\ error (hook w') = Some notCompleted
      /\ attestationStatus w' = Some PendingMint)).
  { eapply run_kit_to_catch; [done..|].
    intros w0 w1 Hs0 Hh0 Hr0 Hrun Hw1.
    destruct (run_progress_all p (kitProgress env) w0)
      as (w1' & Hrun' & _ & _ & Hburn & _ & Hmint).
    assert (w1' = w1) as -> by congruence.
    destruct (Hburn pg h Hin Hev Hh) as [Hb Ht].
    specialize (Hmint Hnomint). rewrite Hr0 in Hmint. cbn in Hmint.
    apply wpd_bridgeCatch.
    wsteps. rewrite Hne, Hb, Ht, Hmint. cbn [andb]. wsteps.
    eexists. fields. rewrite load_save_some. by repeat apply conj. }
  destruct Hrun as ([] & w' & Hrun & r & Hpost). by exists w', r.
Qed.

Lemma kit_error_after_burn_is_persisted_witness :
  exists w' r,
    bridge kitErrorEnv toSepolia freshWorld = Done tt w'
    /\ loadPendingBurn addrA (storage w') = Some r
    /\ is_truthy (txHash r) = true
    /\ pendingBurn (hook w') = Some r
    /\ isBridging (hook w') = false
    /\ error (hook w') = Some notCompleted
    /\ attestationStatus w' = Some PendingMint.
Proof.
  apply (kit_error_after_burn_is_persisted kitErrorEnv toSepolia addrA
           "Request timed out" burnConfirmedEvent hashBB freshWorld).
  - reflexivity.
  - reflexivity.
  - left. reflexivity.
  - reflexivity.
  - reflexivity.
  - left. reflexivity.
  - reflexivity.
  - reflexivity.
  - repeat constructor.
  - reflexivity.
  - vm_compute. reflexivity.
  - reflexivity.
Defined.

(** X28. When the SDK has reported both the burn and the mint as
    confirmed and then fails with an error that does not mention the
    network, the outer [catch] returns without touching anything: the
    hook is left busy ([isBridging] stays set), with the mint shown as
    confirmed and nothing stored. *)
Theorem kit_error_after_mint_leaves_hook_busy env p a msg pgB h pgM w :
  bridgeGuards env p = Ok a ->
  bp_fromNetwork p = arcTestnet ->
  chainId_is (accountChainId env) (chainIdOf env (bp_fromNetwork p)) = true
  \/ hasSwitchChain env = false
  \/ switchChain env (chainIdOf env (bp_fromNetwork p)) = Ok tt ->
  hasProvider env = true ->
  createAdapter env = Ok tt ->
  In pgB (kitProgress env) ->
  pg_event pgB = Some "BURN_CONFIRMED" ->
  truthy (progressHash pgB) = Some h ->
  In pgM (kitProgress env) ->
  pg_event pgM = Some "MINT_CONFIRMED" ->
  kitBridge env = Err msg ->
  isNetworkError (userMessage msg) = false ->
  alive w = None ->
  exists w',
    bridge env p w = Done tt w'
    /\ isBridging (hook w') = true
    /\ error (hook w') = None
    /\ pendingBurn (hook w') = None
    /\ loadPendingBurn a (storage w') = None.
Proof.
  intros Hg Hfrom Hnet Hprov Had HinB HevB Hh HinM HevM Hkit Hne Hw.
  assert (Hrun : wpd (bridge env p) w (fun _ w' =>
    isBridging (hook w') = true
    /\ error (hook w') = None
    /\ pendingBurn (hook w') = None
    /\ loadPendingBurn a (storage w') = None)).
  { eapply run_kit_to_catch; [done..|].
    intros w0 w1 Hs0 Hh0 Hr0 Hrun Hw1.
    destruct (run_progress_all p (kitProgress env) w0)
      as (w1' & Hrun' & Hu & _ & Hburn & Hmint & _).
    assert (w1' = w1) as -> by congruence.
    destruct (Hburn pgB h HinB HevB Hh) as [Hb Ht].
    specialize (Hmint pgM HinM HevM).
    destruct Hu as (Hs1 & Hp1 & He1 & Hb1 & _ & _).
    apply wpd_bridgeCatch.
    wsteps. rewrite Hne, Hb, Ht, Hmint. cbn [andb]. wsteps.
    rewrite Hb1, He1, Hp1, Hs1, Hh0, Hs0. repeat apply conj; try done.
    apply load_save_none. }
  destruct Hrun as ([] & w' & Hrun & Hpost). by exists w'.
Qed.

Lemma kit_error_after_mint_leaves_hook_busy_witness :
  exists w',
    bridge kitLateErrorEnv toSepolia freshWorld = Done tt w'
    /\ isBridging (hook w') = true
    /\ error (hook w') = None
    /\ pendingBurn (hook w') = None
    /\ loadPendingBurn addrA (storage w') = None.
Proof.
  apply (kit_error_after_mint_leaves_hook_busy kitLateErrorEnv toSepolia addrA
           "Request timed out" burnConfirmedEvent hashBB mintConfirmedEvent
           freshWorld).
  - reflexivity.
  - reflexivity.
  - left. reflexivity.
  - reflexivity.
  - reflexivity.
  - left. reflexivity.
  - reflexivity.
  - reflexivity.
  - right. left. reflexivity.
  - reflexivity.
  - reflexivity.
  - vm_compute. reflexivity.
  - reflexivity.
Defined.

(** ** No operation rejects *)

Lemma try_never_throws {A} (c : M A) (h : string -> M A) w :
  (forall msg, inert (h msg)) ->
  outcome (try_catch c h) w (fun _ _ => True) (fun _ _ => False) (fun _ => True).
Proof.
  intros Hh. unfold outcome, try_catch. destruct (c w) as [x w'|msg w'|w']; try done.
  by destruct (Hh msg w') as (x & w'' & ->).
Qed.

Lemma inert_claimCatch a msg : inert (claimCatch a msg).
Proof. unfold claimCatch. repeat inert_step. Qed.

(** X29. None of the operations of the hook ever rejects: whatever the
    wallet, the network and the attestation service answer, [bridge],
    [claimPendingBridge], the reconciliation on connect,
    [restorePendingBurn] and [clearPendingBurn] end normally or are cut
    short by the page going away; every error is handled inside. *)
Theorem operations_never_throw env w msg w' :
  (forall p, bridge env p w <> Thrown msg w')
  /\ claimPendingBridge env w <> Thrown msg w'
  /\ loadOnConnect env w <> Thrown msg w'
  /\ (forall h, restorePendingBurn env h w <> Thrown msg w')
  /\ clearPendingBurn env w <> Thrown msg w'.
Proof.
  assert (Hnever : forall A (c : M A),
    outcome c w (fun _ _ => True) (fun _ _ => False) (fun _ => True) ->
    c w <> Thrown msg w').
  { intros A c Hc Heq. unfold outcome in Hc. by rewrite Heq in Hc. }
  split; [intros p|split; [|split; [|split; [intros h|]]]]; apply Hnever.
  - unfold bridge. destruct (bridgeGuards env p) as [a|m]; [|by bstep].
    do 8 bstep. apply out_bind.
    eapply out_mono; [apply ensureSourceNetwork_outcome| |done|done].
    intros b w1 _. destruct b; [|by bstep].
    apply try_never_throws. intros m. apply inert_bridgeCatch.
  - unfold claimPendingBridge. do 2 bstep.
    destruct (pendingBurn (hook w)) as [pb|]; [|by bstep].
    destruct (hasWalletClient env); [|by bstep].
    destruct (truthy (address env)) as [a|]; [|by bstep].
    do 2 bstep. apply try_never_throws. apply inert_claimCatch.
  - unfold loadOnConnect. destruct (truthy (address env)) as [a|]; [|by bstep].
    do 2 bstep. destruct (loadPendingBurn a (storage w)) as [r|]; [|by bstep].
    unfold verifyAndLoad. apply try_never_throws. intros m. repeat inert_step.
  - unfold restorePendingBurn.
    destruct (_ || _); [by bstep|]. destruct (negb _); [by bstep|].
    apply try_never_throws. intros m. apply inert_ret.
  - unfold clearPendingBurn.
    destruct (truthy (address env)); repeat bstep; done.
Qed.
